(** * The blockchain event indexer of pinai_agent_sdk

    A shallow embedding of [src/pinai_agent_sdk/indexer.py]
    ([EventSignatures] and [BlockchainIndexer]) and the properties of its
    poll loop, dispatcher and event handlers.

    Layout: library functions the indexer calls ([Web3.keccak],
    [HexBytes.hex], [int(s, 16)], the slice [s[-40:]]), the data model,
    the indexer's methods in a state-and-exception monad over an abstract
    outside world, a scripted world for concrete runs, then the theorems. *)

From Stdlib Require Import ZArith NArith List String Ascii Lia.
From Stdlib.Strings Require Import Byte.
From stdpp Require Import base gmap strings.
Import ListNotations.

(** ** Keccak-256, as computed by [Web3.keccak]

    Keccak-f[1600] over 25 lanes of 64 bits (index [x + 5 * y]), rate 136
    bytes, original Keccak padding (0x01 .. 0x80), 32 bytes of output. *)
Module Keccak.

Local Open Scope N_scope.

Definition lane_mask : N := 0xFFFFFFFFFFFFFFFF.

Definition rotl64 (x : N) (r : N) : N :=
  N.land (N.lor (N.shiftl x r) (N.shiftr x (64 - r))) lane_mask.

Definition round_constants : list N :=
  [ 0x0000000000000001; 0x0000000000008082; 0x800000000000808A;
    0x8000000080008000; 0x000000000000808B; 0x0000000080000001;
    0x8000000080008081; 0x8000000000008009; 0x000000000000008A;
    0x0000000000000088; 0x0000000080008009; 0x000000008000000A;
    0x000000008000808B; 0x800000000000008B; 0x8000000000008089;
    0x8000000000008003; 0x8000000000008002; 0x8000000000000080;
    0x000000000000800A; 0x800000008000000A; 0x8000000080008081;
    0x8000000000008080; 0x0000000080000001; 0x8000000080008008 ].

Definition rotation_offsets : list N :=
  [  0;  1; 62; 28; 27;
    36; 44;  6; 55; 20;
     3; 10; 43; 25; 39;
    41; 45; 15; 21;  8;
    18;  2; 61; 56; 14 ].

Definition lane (a : list N) (x y : nat) : N :=
  nth ((x mod 5) + 5 * (y mod 5))%nat a 0.

Definition build (f : nat -> nat -> N) : list N :=
  map (fun i => f (i mod 5)%nat (i / 5)%nat) (seq 0 25).

Definition theta (a : list N) : list N :=
  let c x := N.lxor (lane a x 0) (N.lxor (lane a x 1) (N.lxor (lane a x 2)
             (N.lxor (lane a x 3) (lane a x 4)))) in
  let d x := N.lxor (c (x + 4)%nat) (rotl64 (c (x + 1)%nat) 1) in
  build (fun x y => N.lxor (lane a x y) (d x)).

(** The lane at [(X, Y)] after rho and pi is the rotated lane [(x, y)]
    with [y = X] and [2x + 3y = Y (mod 5)], that is [x = X + 3Y (mod 5)]. *)
Definition rho_pi (a : list N) : list N :=
  build (fun X Y =>
    let x := ((X + 3 * Y) mod 5)%nat in
    let y := X in
    rotl64 (lane a x y) (nth (x + 5 * y)%nat rotation_offsets 0)).

Definition chi (b : list N) : list N :=
  build (fun x y =>
    N.lxor (lane b x y) (N.ldiff (lane b (x + 2) y) (lane b (x + 1) y))).

Definition iota (rc : N) (a : list N) : list N :=
  match a with
  | [] => []
  | a0 :: rest => N.lxor a0 rc :: rest
  end.

Definition keccak_round (a : list N) (rc : N) : list N :=
  iota rc (chi (rho_pi (theta a))).

Definition keccak_f (a : list N) : list N :=
  fold_left keccak_round round_constants a.

Definition rate : nat := 136.

Fixpoint le_lane (bs : list N) : N :=
  match bs with
  | [] => 0
  | b :: rest => b + 256 * le_lane rest
  end.

Fixpoint lanes_of_bytes (n : nat) (bs : list N) : list N :=
  match n with
  | O => []
  | S n' => le_lane (firstn 8 bs) :: lanes_of_bytes n' (skipn 8 bs)
  end.

Fixpoint xor_lanes (a b : list N) : list N :=
  match a, b with
  | x :: a', y :: b' => N.lxor x y :: xor_lanes a' b'
  | _, [] => a
  | [], _ => []
  end.

Definition absorb_block (st : list N) (block : list N) : list N :=
  keccak_f (xor_lanes st (lanes_of_bytes 17 block)).

Definition pad (msg : list N) : list N :=
  let q := (rate - (List.length msg mod rate))%nat in
  match q with
  | 1%nat => msg ++ [0x81]
  | _ => msg ++ [0x01] ++ repeat 0 (q - 2) ++ [0x80]
  end.

Fixpoint absorb (nblocks : nat) (st : list N) (bs : list N) : list N :=
  match nblocks with
  | O => st
  | S n => absorb n (absorb_block st (firstn rate bs)) (skipn rate bs)
  end.

Fixpoint bytes_of_lane (n : nat) (l : N) : list N :=
  match n with
  | O => []
  | S n' => N.land l 0xFF :: bytes_of_lane n' (N.shiftr l 8)
  end.

Definition keccak256 (msg : list N) : list N :=
  let p := pad msg in
  let st := absorb (List.length p / rate) (repeat 0 25) p in
  flat_map (bytes_of_lane 8) (firstn 4 st).

End Keccak.

(** ** Byte strings, hexadecimal text and Python's [int(s, 16)] *)

(** [HexBytes]: an immutable byte string. *)
Definition HexBytes := list byte.

Definition byte_of_N (n : N) : byte :=
  match Byte.of_N n with
  | Some b => b
  | None => x00
  end.

(** [Web3.keccak(text=s)]: Keccak-256 of the UTF-8 encoding of [s]; the
    signatures hashed by the indexer are ASCII, one byte per character. *)
Definition Web3_keccak (text : string) : HexBytes :=
  map byte_of_N (Keccak.keccak256 (map N_of_ascii (list_ascii_of_string text))).

Definition hex_digit (n : N) : ascii :=
  match n with
  | 0%N => "0" | 1%N => "1" | 2%N => "2" | 3%N => "3"
  | 4%N => "4" | 5%N => "5" | 6%N => "6" | 7%N => "7"
  | 8%N => "8" | 9%N => "9" | 10%N => "a" | 11%N => "b"
  | 12%N => "c" | 13%N => "d" | 14%N => "e" | _ => "f"
  end%char.

(** Two lowercase digits per byte, high nibble first. *)
Fixpoint hex_digits (bs : HexBytes) : list ascii :=
  match bs with
  | [] => []
  | b :: rest =>
      hex_digit (N.shiftr (Byte.to_N b) 4)
        :: hex_digit (N.land (Byte.to_N b) 15) :: hex_digits rest
  end.

(** [HexBytes.hex()]. Releases of the hexbytes package before 1.0 put
    [0x] in front of the digits, later ones do not: [prefixed] says which
    one is installed. *)
Definition HexBytes_hex (prefixed : bool) (bs : HexBytes) : string :=
  string_of_list_ascii
    ((if prefixed then ["0"; "x"]%char else []) ++ hex_digits bs).

(** The slice [s[-n:]]: the last [n] characters, all of [s] when it is
    shorter. *)
Definition py_suffix (n : nat) (s : string) : string :=
  let cs := list_ascii_of_string s in
  string_of_list_ascii (skipn (List.length cs - n) cs).

Definition hex_digit_value (c : ascii) : option Z :=
  let n := Z.of_N (N_of_ascii c) in
  if (48 <=? n)%Z && (n <=? 57)%Z then Some (n - 48)%Z
  else if (97 <=? n)%Z && (n <=? 102)%Z then Some (n - 87)%Z
  else if (65 <=? n)%Z && (n <=? 70)%Z then Some (n - 55)%Z
  else None.

Fixpoint parse_hex_digits (acc : Z) (cs : list ascii) : option Z :=
  match cs with
  | [] => Some acc
  | c :: rest =>
      match hex_digit_value c with
      | Some d => parse_hex_digits (acc * 16 + d)%Z rest
      | None => None
      end
  end.

(** Big-endian value of a byte string. *)
Definition be_value (bs : HexBytes) : Z :=
  fold_left (fun acc b => (acc * 256 + Z.of_N (Byte.to_N b))%Z) bs 0%Z.

(** ** Data model *)

(** The exceptions of the embedding: the three the indexer's own
    expressions raise (a list index out of range, [int] on text that is
    not a number, an attribute of [None]) and whatever a library call
    (web3, requests, threading) raises, kept as its message. All of them
    are subclasses of [Exception]. *)
Inductive Exn : Type :=
| IndexError
| ValueError
| AttributeError
| LibraryError (msg : string).

Inductive outcome (A : Type) : Type :=
| Ok (a : A)
| Raise (e : Exn).
Arguments Ok {A} a.
Arguments Raise {A} e.

(** [int(s, 16)] on the text [HexBytes.hex()] produces: an optional [0x],
    then at least one hexadecimal digit. (Signs, blanks and underscores,
    which [int] also accepts, never occur in that text and are not part of
    this model.) *)
Definition strip_0x (cs : list ascii) : list ascii :=
  match cs with
  | "0"%char :: "x"%char :: rest => rest
  | "0"%char :: "X"%char :: rest => rest
  | _ => cs
  end.

Definition py_int_16 (s : string) : outcome Z :=
  match strip_0x (list_ascii_of_string s) with
  | [] => Raise ValueError
  | ds =>
      match parse_hex_digits 0 ds with
      | Some z => Ok z
      | None => Raise ValueError
      end
  end.

(** [class EventSignatures] *)
Module EventSignatures.
Definition OrderCreated : string := "OrderCreated(uint256,address,uint8,uint256)".
Definition OrderMatched : string := "OrderMatched(uint256,uint256,string)".
Definition AddressesTracked : string := "AddressesTracked(uint256,address[])".
Definition OrderCompleted : string := "OrderCompleted(uint256,uint256)".
End EventSignatures.

(** A log entry as the chain client returns it. *)
Record LogEntry : Type := {
  topics : list HexBytes;
  data : HexBytes;
  address : string;
  blockNumber : Z
}.

#[local] Set Warnings "-register-all".
Inductive Json : Type :=
| JNull
| JBool (b : bool)
| JInt (z : Z)
| JStr (s : string)
| JArr (items : list Json)
| JObj (fields : list (string * Json)).

(** A component of the tuple [getOrder(...).call()] returns. *)
Inductive AbiValue : Type :=
| AUint (z : Z)
| ABool (b : bool)
| AAddress (a : string)
| AString (s : string).

(** What [requests.post] returns: the status code and what
    [response.json()] will do. *)
Record Response : Type := {
  status_code : Z;
  json : outcome Json
}.

(** The dict [contract_filter]. *)
Record FilterParams : Type := {
  filter_address : string;
  fromBlock : string
}.

Record Contract : Type := { contract_address : string }.

Definition FilterId := Z.
Definition Thread := nat.
Definition ObjRef := nat.

(** The bound methods stored in [self.event_signatures]. *)
Inductive Handler : Type :=
| H_order_created
| H_order_matched
| H_addresses_tracked
| H_order_completed.

(** The attributes of a [BlockchainIndexer]. [base_url] is not set by
    [__init__]: it exists only once [_submit_bid] has run. *)
Record Indexer : Type := {
  web3 : option ObjRef;
  agent_contract : option ObjRef;
  account : option ObjRef;
  intent_matching_contract : option Contract;
  intent_matching_url : option string;
  stop_indexing : bool;
  indexer_thread : option Thread;
  indexed_events : list LogEntry;
  current_room_id : option Z;
  current_order_id : option Z;
  event_signatures : gmap string Handler;
  base_url : option string
}.

Definition set_stop_indexing (b : bool) (s : Indexer) : Indexer :=
  {| web3 := web3 s; agent_contract := agent_contract s; account := account s;
     intent_matching_contract := intent_matching_contract s;
     intent_matching_url := intent_matching_url s;
     stop_indexing := b;
     indexer_thread := indexer_thread s; indexed_events := indexed_events s;
     current_room_id := current_room_id s; current_order_id := current_order_id s;
     event_signatures := event_signatures s; base_url := base_url s |}.

Definition set_indexer_thread (t : option Thread) (s : Indexer) : Indexer :=
  {| web3 := web3 s; agent_contract := agent_contract s; account := account s;
     intent_matching_contract := intent_matching_contract s;
     intent_matching_url := intent_matching_url s;
     stop_indexing := stop_indexing s;
     indexer_thread := t; indexed_events := indexed_events s;
     current_room_id := current_room_id s; current_order_id := current_order_id s;
     event_signatures := event_signatures s; base_url := base_url s |}.

Definition set_current_order_id (o : option Z) (s : Indexer) : Indexer :=
  {| web3 := web3 s; agent_contract := agent_contract s; account := account s;
     intent_matching_contract := intent_matching_contract s;
     intent_matching_url := intent_matching_url s;
     stop_indexing := stop_indexing s;
     indexer_thread := indexer_thread s; indexed_events := indexed_events s;
     current_room_id := current_room_id s; current_order_id := o;
     event_signatures := event_signatures s; base_url := base_url s |}.

Definition set_base_url (u : option string) (s : Indexer) : Indexer :=
  {| web3 := web3 s; agent_contract := agent_contract s; account := account s;
     intent_matching_contract := intent_matching_contract s;
     intent_matching_url := intent_matching_url s;
     stop_indexing := stop_indexing s;
     indexer_thread := indexer_thread s; indexed_events := indexed_events s;
     current_room_id := current_room_id s; current_order_id := current_order_id s;
     event_signatures := event_signatures s; base_url := u |}.

Inductive LogLevel : Type := DEBUG | INFO | WARNING | ERROR.

(** The value substituted for a [{...}] of a logged f-string. *)
Inductive LogArg : Type :=
| LExn (e : Exn)
| LEvent (ev : LogEntry)
| LEvents (evs : list LogEntry)
| LInt (z : Z)
| LStr (s : string)
| LJson (j : Json)
| LAbi (v : AbiValue).

(** What the indexer does to the outside, in the order it does it. Sleep
    and join times are in milliseconds. *)
Inductive Effect : Type :=
| ELog (lvl : LogLevel) (text : string) (args : list LogArg)
| EGetBlockNumber
| ENewFilter (params : FilterParams)
| EGetFilterChanges (fid : FilterId)
| EGetOrder (ct : Contract) (order_id : Z)
| EHttpPost (url : string) (body : Json) (headers : list (string * string))
| ESleep (ms : N)
| EThreadCreate
| EThreadDaemon (t : Thread)
| EThreadStart (t : Thread)
| EThreadIsAlive (t : Thread)
| EThreadJoin (t : Thread) (timeout_ms : N).

(** The outside world: the installed hexbytes release, the chain client,
    the contract, the matching backend and the threading runtime, each a
    function of the state [W] of that world. [caller_stopped] tells whether
    the owning thread has set [stop_indexing] since the worker last
    looked. *)
Record Env (W : Type) : Type := {
  hex_prefixed : bool;
  eth_get_block_number : W -> outcome Z * W;
  eth_filter : FilterParams -> W -> outcome FilterId * W;
  eth_get_filter_changes : FilterId -> W -> outcome (list LogEntry) * W;
  getOrder_call : Contract -> Z -> W -> outcome (list AbiValue) * W;
  requests_post : string -> Json -> list (string * string) -> W -> outcome Response * W;
  time_sleep : N -> W -> W;
  thread_create : W -> Thread * W;
  thread_start : Thread -> W -> outcome unit * W;
  thread_is_alive : Thread -> W -> bool * W;
  thread_join : Thread -> N -> W -> outcome unit * W;
  caller_stopped : W -> bool * W
}.
Arguments hex_prefixed {W} _.
Arguments eth_get_block_number {W} _ _.
Arguments eth_filter {W} _ _ _.
Arguments eth_get_filter_changes {W} _ _ _.
Arguments getOrder_call {W} _ _ _ _.
Arguments requests_post {W} _ _ _ _ _.
Arguments time_sleep {W} _ _ _.
Arguments thread_create {W} _ _.
Arguments thread_start {W} _ _ _.
Arguments thread_is_alive {W} _ _ _.
Arguments thread_join {W} _ _ _ _.
Arguments caller_stopped {W} _ _.

(** A running method sees the indexer object, the local variable
    [last_processed_block] of [_run_indexer] (the cursor), the world, and
    leaves its effects in [trace], oldest first. *)
Record Config (W : Type) : Type := {
  self : Indexer;
  last_processed_block : Z;
  world : W;
  trace : list Effect
}.
Arguments self {W} _.
Arguments last_processed_block {W} _.
Arguments world {W} _.
Arguments trace {W} _.
Arguments Build_Config {W} _ _ _ _.

(** ** The monad of the methods: state, effects and exceptions *)

Definition M (W A : Type) : Type := Config W -> outcome A * Config W.

Definition ret {W A} (a : A) : M W A := fun c => (Ok a, c).

Definition bind {W A B} (m : M W A) (k : A -> M W B) : M W B :=
  fun c =>
    match m c with
    | (Ok a, c') => k a c'
    | (Raise e, c') => (Raise e, c')
    end.

Definition raise {W A} (e : Exn) : M W A := fun c => (Raise e, c).

Definition lift {W A} (o : outcome A) : M W A := fun c => (o, c).

(** [try: body except Exception as e: handler e] *)
Definition try_except {W A} (body : M W A) (handler : Exn -> M W A) : M W A :=
  fun c =>
    match body c with
    | (Ok a, c') => (Ok a, c')
    | (Raise e, c') => handler e c'
    end.

Declare Scope py_scope.
Delimit Scope py_scope with py.
Notation "x <- m ;; k" := (bind m (fun x => k))
  (at level 100, m at next level, right associativity) : py_scope.
Notation "m ;; k" := (bind m (fun _ => k))
  (at level 100, right associativity) : py_scope.

Definition get_self {W} : M W Indexer := fun c => (Ok (self c), c).

Definition modify_self {W} (f : Indexer -> Indexer) : M W unit :=
  fun c => (Ok tt, Build_Config (f (self c)) (last_processed_block c) (world c) (trace c)).

Definition get_cursor {W} : M W Z := fun c => (Ok (last_processed_block c), c).

Definition set_cursor {W} (h : Z) : M W unit :=
  fun c => (Ok tt, Build_Config (self c) h (world c) (trace c)).

(** A call into the world: recorded in the trace, answered by the world. *)
Definition extern {W A} (eff : Effect) (f : W -> outcome A * W) : M W A :=
  fun c =>
    let (r, w') := f (world c) in
    (r, Build_Config (self c) (last_processed_block c) w' (trace c ++ [eff])).

Definition logger {W} (lvl : LogLevel) (text : string) (args : list LogArg) : M W unit :=
  extern (ELog lvl text args) (fun w => (Ok tt, w)).

Fixpoint for_each {W A} (f : A -> M W unit) (l : list A) : M W unit :=
  match l with
  | [] => ret tt
  | x :: rest => bind (f x) (fun _ => for_each f rest)
  end.

(** ** The methods of [BlockchainIndexer] *)

Section Methods.

Context {W : Type} (env : Env W).

Local Open Scope py_scope.
Local Open Scope string_scope.

Definition hex (bs : HexBytes) : string := HexBytes_hex (hex_prefixed env) bs.

(** The dict literal of [self.event_signatures], filled in the order it
    is written, a later equal key replacing an earlier one. *)
Definition signature_table : gmap string Handler :=
  <[hex (Web3_keccak EventSignatures.OrderCompleted) := H_order_completed]>
  (<[hex (Web3_keccak EventSignatures.AddressesTracked) := H_addresses_tracked]>
  (<[hex (Web3_keccak EventSignatures.OrderMatched) := H_order_matched]>
  (<[hex (Web3_keccak EventSignatures.OrderCreated) := H_order_created]> ∅))).

(** [__init__] *)
Definition init (web3 agent_contract account : option ObjRef)
    (intent_matching_contract : option Contract)
    (intent_matching_url : option string) : Indexer :=
  {| web3 := web3;
     agent_contract := agent_contract;
     account := account;
     intent_matching_contract := intent_matching_contract;
     intent_matching_url := intent_matching_url;
     stop_indexing := false;
     indexer_thread := None;
     indexed_events := [];
     current_room_id := None;
     current_order_id := None;
     event_signatures := signature_table;
     base_url := None |}.

(** [self.web3.eth]: an [AttributeError] when [self.web3] is [None]. *)
Definition web3_eth : M W unit :=
  s <- get_self ;;
  match web3 s with
  | Some _ => ret tt
  | None => raise AttributeError
  end.

Definition get_block_number : M W Z :=
  web3_eth ;;
  extern EGetBlockNumber (eth_get_block_number env).

Definition new_filter (params : FilterParams) : M W FilterId :=
  web3_eth ;;
  extern (ENewFilter params) (eth_filter env params).

Definition get_filter_changes (fid : FilterId) : M W (list LogEntry) :=
  extern (EGetFilterChanges fid) (eth_get_filter_changes env fid).

(** [self.intent_matching_contract.functions.getOrder(order_id).call()] *)
Definition getOrder (order_id : Z) : M W (list AbiValue) :=
  s <- get_self ;;
  match intent_matching_contract s with
  | Some ct => extern (EGetOrder ct order_id) (getOrder_call env ct order_id)
  | None => raise AttributeError
  end.

Definition sleep (ms : N) : M W unit :=
  extern (ESleep ms) (fun w => (Ok tt, time_sleep env ms w)).

(** [event['topics'][i]] *)
Definition event_topic (event : LogEntry) (i : nat) : M W HexBytes :=
  match nth_error (topics event) i with
  | Some t => ret t
  | None => raise IndexError
  end.

(** [int(event['topics'][1].hex(), 16)] *)
Definition topic_order_id (event : LogEntry) : M W Z :=
  t <- event_topic event 1 ;;
  lift (py_int_16 (hex t)).

(** [_submit_bid] *)
Definition submit_bid (bid_data : Json) : M W unit :=
  modify_self (set_base_url (Some "http://localhost:3000")) ;;
  s <- get_self ;;
  match base_url s with
  | None | Some "" => logger ERROR "Base URL not set" []
  | Some base =>
      try_except
        (response <- extern
             (EHttpPost (base ++ "/bid") bid_data [("Content-Type", "application/json")])
             (requests_post env (base ++ "/bid") bid_data
                [("Content-Type", "application/json")]) ;;
         if (200 <=? status_code response)%Z && (status_code response <? 300)%Z
         then
           body <- lift (json response) ;;
           logger INFO "Bid submitted successfully: {}" [LJson body]
         else
           logger ERROR "Bid submission failed: {}" [LInt (status_code response)])
        (fun e => logger ERROR "Error submitting bid: {}" [LExn e])
  end.

(** [_handle_order_created] *)
Definition handle_order_created (event : LogEntry) : M W unit :=
  try_except
    (order_id <- topic_order_id event ;;
     t2 <- event_topic event 2 ;;
     let user_address := "0x" ++ py_suffix 40 (hex t2) in
     logger INFO "Order created - ID: {}, User: {}" [LInt order_id; LStr user_address] ;;
     let bid_data :=
       JObj [("orderId", JInt order_id);
             ("userId", JStr user_address);
             ("agentId", JInt 0);
             ("amount", JInt 100)] in
     submit_bid bid_data)
    (fun e => logger ERROR "Error handling OrderCreated event: {}" [LExn e]).

(** [_handle_order_matched] *)
Definition handle_order_matched (event : LogEntry) : M W unit :=
  try_except
    (order_id <- topic_order_id event ;;
     order <- getOrder order_id ;;
     modify_self (set_current_order_id (Some order_id)) ;;
     logger INFO "Order matched - ID: {}" [LInt order_id])
    (fun e => logger ERROR "Error handling OrderMatched event: {}" [LExn e]).

(** [_handle_addresses_tracked] *)
Definition handle_addresses_tracked (event : LogEntry) : M W unit :=
  ret tt.

(** [_handle_order_completed] *)
Definition handle_order_completed (event : LogEntry) : M W unit :=
  try_except
    (order_id <- topic_order_id event ;;
     order <- getOrder order_id ;;
     amount <- match nth_error order 1 with
               | Some a => ret a
               | None => raise IndexError
               end ;;
     logger INFO "Order completed - ID: {}, Amount: {}" [LInt order_id; LAbi amount])
    (fun e => logger ERROR "Error handling OrderCompleted event: {}" [LExn e]).

Definition call_handler (h : Handler) (event : LogEntry) : M W unit :=
  match h with
  | H_order_created => handle_order_created event
  | H_order_matched => handle_order_matched event
  | H_addresses_tracked => handle_addresses_tracked event
  | H_order_completed => handle_order_completed event
  end.

(** [_process_event] *)
Definition process_event (event : LogEntry) : M W unit :=
  try_except
    (logger INFO "Processing event: {}" [LEvent event] ;;
     t0 <- event_topic event 0 ;;
     let event_signature := hex t0 in
     s <- get_self ;;
     match event_signatures s !! event_signature with
     | Some h =>
         call_handler h event ;;
         logger DEBUG "Processed event with signature: {}" [LStr event_signature]
     | None => ret tt
     end)
    (fun e => logger ERROR "Error processing event: {}" [LExn e]).

(** The [try] block of the loop of [_run_indexer], from the filter call
    to the short sleep. *)
Definition fetch_and_dispatch (contract_filter : FilterParams) : M W unit :=
  fid <- new_filter contract_filter ;;
  new_entries <- get_filter_changes fid ;;
  logger INFO "New entries: {}" [LEvents new_entries] ;;
  for_each process_event new_entries ;;
  sleep 100.

(** The whole [try] block; [continue] leaves it at once, and nothing
    follows the [try] statement in the loop. *)
Definition loop_try (contract_filter : FilterParams) : M W unit :=
  h <- get_block_number ;;
  cursor <- get_cursor ;;
  if (h <=? cursor)%Z then ret tt
  else
    h' <- get_block_number ;;
    set_cursor h' ;;
    fetch_and_dispatch contract_filter.

(** One pass through the body of [while not self.stop_indexing]. *)
Definition loop_body (contract_filter : FilterParams) : M W unit :=
  try_except
    (loop_try contract_filter)
    (fun e => logger ERROR "Error in indexer: {}" [LExn e] ;; sleep 1000).

(** [self.stop_indexing] as the worker reads it at the head of the loop:
    the owning thread may have set it in the meantime. *)
Definition read_stop_indexing : M W bool :=
  fun c =>
    let (stopped, w') := caller_stopped env (world c) in
    let s := if stopped then set_stop_indexing true (self c) else self c in
    (Ok (stop_indexing s), Build_Config s (last_processed_block c) w' (trace c)).

(** Why the loop was left. *)
Inductive LoopExit : Type := Stopped | OutOfFuel.

(** The [while] loop, for at most [fuel] passes. *)
Fixpoint indexer_loop (fuel : nat) (contract_filter : FilterParams) : M W LoopExit :=
  match fuel with
  | O => ret OutOfFuel
  | S fuel' =>
      stop <- read_stop_indexing ;;
      if stop then ret Stopped
      else loop_body contract_filter ;; indexer_loop fuel' contract_filter
  end.

(** [_run_indexer] *)
Definition run_indexer (fuel : nat) : M W LoopExit :=
  s <- get_self ;;
  match intent_matching_contract s with
  | None =>
      logger ERROR "Intent matching contract not initialized" [] ;;
      ret Stopped
  | Some ct =>
      let contract_filter :=
        {| filter_address := contract_address ct; fromBlock := "latest" |} in
      logger INFO "Starting to listen for events..." [] ;;
      set_cursor 0 ;;
      indexer_loop fuel contract_filter
  end.

(** [start] *)
Definition start : M W unit :=
  s <- get_self ;;
  match web3 s, intent_matching_contract s with
  | Some _, Some _ =>
      modify_self (set_stop_indexing false) ;;
      t <- extern EThreadCreate (fun w => let (t, w') := thread_create env w in (Ok t, w')) ;;
      modify_self (set_indexer_thread (Some t)) ;;
      extern (EThreadDaemon t) (fun w => (Ok tt, w)) ;;
      extern (EThreadStart t) (thread_start env t) ;;
      logger INFO "Blockchain indexer service started" []
  | _, _ =>
      logger WARNING "Blockchain components not initialized. Cannot start indexer." []
  end.

(** [stop] *)
Definition stop : M W unit :=
  s <- get_self ;;
  match indexer_thread s with
  | None => ret tt
  | Some t =>
      alive <- extern (EThreadIsAlive t)
                 (fun w => let (b, w') := thread_is_alive env t w in (Ok b, w')) ;;
      if (alive : bool) then
        modify_self (set_stop_indexing true) ;;
        extern (EThreadJoin t 2000) (thread_join env t 2000) ;;
        logger INFO "Blockchain indexer stopped" []
      else ret tt
  end.

End Methods.

Arguments LoopExit : clear implicits.

(** ** A scripted world

    The answers of the chain client, the contract, the backend and the
    threading runtime are read off lists, one per call; a call beyond the
    end of its list raises. Used to run the methods on concrete inputs. *)

Record Script : Type := {
  heights : list (outcome Z);
  filter_ids : list (outcome FilterId);
  batches : list (outcome (list LogEntry));
  orders : list (outcome (list AbiValue));
  responses : list (outcome Response);
  alive : list bool;
  stops : list bool
}.

Definition exhausted {A} : outcome A := Raise (LibraryError "no more answers").

Definition next_answer {A} (l : list (outcome A)) : outcome A * list (outcome A) :=
  match l with
  | [] => (exhausted, [])
  | a :: rest => (a, rest)
  end.

Definition next_flag (l : list bool) : bool * list bool :=
  match l with
  | [] => (false, [])
  | b :: rest => (b, rest)
  end.

Definition scripted (prefixed : bool) : Env Script :=
  {| hex_prefixed := prefixed;
     eth_get_block_number := fun w =>
       let (a, rest) := next_answer (heights w) in
       (a, {| heights := rest; filter_ids := filter_ids w; batches := batches w;
              orders := orders w; responses := responses w;
              alive := alive w; stops := stops w |});
     eth_filter := fun _ w =>
       let (a, rest) := next_answer (filter_ids w) in
       (a, {| heights := heights w; filter_ids := rest; batches := batches w;
              orders := orders w; responses := responses w;
              alive := alive w; stops := stops w |});
     eth_get_filter_changes := fun _ w =>
       let (a, rest) := next_answer (batches w) in
       (a, {| heights := heights w; filter_ids := filter_ids w; batches := rest;
              orders := orders w; responses := responses w;
              alive := alive w; stops := stops w |});
     getOrder_call := fun _ _ w =>
       let (a, rest) := next_answer (orders w) in
       (a, {| heights := heights w; filter_ids := filter_ids w; batches := batches w;
              orders := rest; responses := responses w;
              alive := alive w; stops := stops w |});
     requests_post := fun _ _ _ w =>
       let (a, rest) := next_answer (responses w) in
       (a, {| heights := heights w; filter_ids := filter_ids w; batches := batches w;
              orders := orders w; responses := rest;
              alive := alive w; stops := stops w |});
     time_sleep := fun _ w => w;
     thread_create := fun w => (1%nat, w);
     thread_start := fun _ w => (Ok tt, w);
     thread_is_alive := fun _ w =>
       let (b, rest) := next_flag (alive w) in
       (b, {| heights := heights w; filter_ids := filter_ids w; batches := batches w;
              orders := orders w; responses := responses w;
              alive := rest; stops := stops w |});
     thread_join := fun _ _ w => (Ok tt, w);
     caller_stopped := fun w =>
       let (b, rest) := next_flag (stops w) in
       (b, {| heights := heights w; filter_ids := filter_ids w; batches := batches w;
              orders := orders w; responses := responses w;
              alive := alive w; stops := rest |}) |}.

Definition quiet : Script :=
  {| heights := []; filter_ids := []; batches := []; orders := [];
     responses := []; alive := []; stops := [] |}.

(** An indexer built by [__init__] with a chain client and the contract at
    [0xc0ffee]. *)
Definition demo_indexer (prefixed : bool) : Indexer :=
  init (scripted prefixed) (Some 1%nat) (Some 2%nat) (Some 3%nat)
    (Some {| contract_address := "0xc0ffee" |})
    (Some "http://matching.example").

Definition demo_config (prefixed : bool) (cursor : Z) (w : Script) : Config Script :=
  Build_Config (demo_indexer prefixed) cursor w [].

(** The 32-byte word of a small number. *)
Definition word32 (low : list byte) : HexBytes :=
  repeat x00 (32 - List.length low) ++ low.

Definition order_created_5_abc : LogEntry :=
  {| topics := [Web3_keccak EventSignatures.OrderCreated;
                word32 [x05];
                word32 [x0a; xbc]];
     data := [];
     address := "0xc0ffee";
     blockNumber := 101 |}.

Definition entry_without_topics : LogEntry :=
  {| topics := []; data := []; address := "0xc0ffee"; blockNumber := 101 |}.

Definition order_completed_empty_id : LogEntry :=
  {| topics := [Web3_keccak EventSignatures.OrderCompleted; []];
     data := []; address := "0xc0ffee"; blockNumber := 101 |}.

Definition order_matched_7 : LogEntry :=
  {| topics := [Web3_keccak EventSignatures.OrderMatched; word32 [x07]];
     data := []; address := "0xc0ffee"; blockNumber := 101 |}.

(** ** Reading a trace *)

(** The HTTP POSTs of a trace: URL and JSON body, in order. *)
Fixpoint http_posts (t : list Effect) : list (string * Json) :=
  match t with
  | [] => []
  | EHttpPost url body _ :: rest => (url, body) :: http_posts rest
  | _ :: rest => http_posts rest
  end.

(** The filter ids whose changes were fetched. *)
Fixpoint fetches (t : list Effect) : list FilterId :=
  match t with
  | [] => []
  | EGetFilterChanges fid :: rest => fid :: fetches rest
  | _ :: rest => fetches rest
  end.

(** The parameters of the filters that were created. *)
Fixpoint filters_created (t : list Effect) : list FilterParams :=
  match t with
  | [] => []
  | ENewFilter params :: rest => params :: filters_created rest
  | _ :: rest => filters_created rest
  end.

(** The entries handed to [_process_event]: each call logs its entry
    first. *)
Fixpoint dispatched (t : list Effect) : list LogEntry :=
  match t with
  | [] => []
  | ELog INFO text [LEvent ev] :: rest =>
      if String.eqb text "Processing event: {}" then ev :: dispatched rest
      else dispatched rest
  | _ :: rest => dispatched rest
  end.

Definition is_log (e : Effect) : bool :=
  match e with
  | ELog _ _ _ => true
  | _ => false
  end.

Definition is_warning (e : Effect) : bool :=
  match e with
  | ELog WARNING _ _ => true
  | _ => false
  end.

(** The last [n] elements of a list. *)
Definition lastn {A} (n : nat) (l : list A) : list A :=
  skipn (List.length l - n) l.

(** A configuration with more effects in its trace. *)
Definition with_effects {W} (c : Config W) (es : list Effect) : Config W :=
  Build_Config (self c) (last_processed_block c) (world c) (trace c ++ es).

(** ** What a method leaves alone *)

(** [stable c c']: from [c] to [c'] the cursor, the signature table, the
    chain client and the contract handle are the same, and the trace has
    only grown. *)
Definition stable {W} (c c' : Config W) : Prop :=
  last_processed_block c' = last_processed_block c
  /\ event_signatures (self c') = event_signatures (self c)
  /\ web3 (self c') = web3 (self c)
  /\ intent_matching_contract (self c') = intent_matching_contract (self c)
  /\ exists es, trace c' = trace c ++ es.

Definition keeps_stable {W A} (m : M W A) : Prop :=
  forall c, stable c (snd (m c)).

(** The same without the cursor, for the poll loop, which moves it. *)
Definition settled {W} (c c' : Config W) : Prop :=
  event_signatures (self c') = event_signatures (self c)
  /\ web3 (self c') = web3 (self c)
  /\ intent_matching_contract (self c') = intent_matching_contract (self c)
  /\ exists es, trace c' = trace c ++ es.

(** The configuration after the [except] branch of the poll loop: the
    error is logged and the worker has slept one second. *)
Definition after_backoff {W} (env : Env W) (e : Exn) (c : Config W) : Config W :=
  Build_Config (self c) (last_processed_block c)
    (time_sleep env 1000 (world c))
    (trace c ++ [ELog ERROR "Error in indexer: {}" [LExn e]; ESleep 1000]).

Definition ok200 : Response := {| status_code := 200; json := Ok JNull |}.

(** Two passes in which the height advances; in the second the height
    read again for the cursor is lower than the one compared. *)
Definition lagging_node : Script :=
  {| heights := [Ok 11; Ok 11; Ok 12; Ok 4]%Z;
     filter_ids := [Ok 1; Ok 2]%Z;
     batches := [Ok []; Ok []];
     orders := []; responses := []; alive := []; stops := [] |}.

(** Two passes in which the height advances, each with one entry. *)
Definition two_blocks : Script :=
  {| heights := [Ok 101; Ok 101; Ok 102; Ok 102]%Z;
     filter_ids := [Ok 1; Ok 2]%Z;
     batches := [Ok [entry_without_topics]; Ok [order_created_5_abc]];
     orders := []; responses := [Ok ok200]; alive := []; stops := [] |}.

(** One pass whose batch is an entry without topics. *)
Definition one_malformed_entry : Script :=
  {| heights := [Ok 101; Ok 101]%Z;
     filter_ids := [Ok 1]%Z;
     batches := [Ok [entry_without_topics]];
     orders := []; responses := []; alive := []; stops := [] |}.

(** One pass in which the fetch fails, then an unchanged height. *)
Definition failing_fetch : Script :=
  {| heights := [Ok 101; Ok 101; Ok 101]%Z;
     filter_ids := [Ok 1]%Z;
     batches := [Raise (LibraryError "connection reset")];
     orders := []; responses := []; alive := []; stops := [] |}.

Definition contract_filter_of_demo : FilterParams :=
  {| filter_address := "0xc0ffee"; fromBlock := "latest" |}.

(** The chain client fails on the first height read. *)
Definition node_down : Script :=
  {| heights := [Raise (LibraryError "read timed out")];
     filter_ids := []; batches := []; orders := []; responses := [];
     alive := []; stops := [] |}.

(** The contract read reverts. *)
Definition reverting_contract : Script :=
  {| heights := []; filter_ids := []; batches := [];
     orders := [Raise (LibraryError "execution reverted")];
     responses := []; alive := []; stops := [] |}.

(** An indexer that has already seen order 3 matched. *)
Definition config_after_order_3 (w : Script) : Config Script :=
  Build_Config (set_current_order_id (Some 3%Z) (demo_indexer false)) 100 w [].

(** ** Kinds of effects *)

(** [emits p m]: whatever [m] does, it only adds effects of kind [p] to
    the trace. *)
Definition emits {W A} (p : Effect -> bool) (m : M W A) : Prop :=
  forall c, exists es, trace (snd (m c)) = trace c ++ es /\ forallb p es = true.

(** What a handler may do: log (any line but the one that opens a
    dispatch), read an order from the contract, post a bid. *)
Definition handler_effect (e : Effect) : bool :=
  match e with
  | ELog _ text _ => negb (String.eqb text "Processing event: {}")
  | EGetOrder _ _ => true
  | EHttpPost _ _ _ => true
  | _ => false
  end.

(** The same without the bid. *)
Definition reading_effect (e : Effect) : bool :=
  match e with
  | ELog _ text _ => negb (String.eqb text "Processing event: {}")
  | EGetOrder _ _ => true
  | _ => false
  end.

(** What the worker thread may do: what a handler does, the dispatcher's
    log lines, the calls to the chain client, and sleeping. *)
Definition worker_effect (e : Effect) : bool :=
  match e with
  | ELog _ _ _ | EGetOrder _ _ | EHttpPost _ _ _
  | EGetBlockNumber | ENewFilter _ | EGetFilterChanges _ | ESleep _ => true
  | _ => false
  end.

(** The orders read from the contract. *)
Fixpoint orders_read (t : list Effect) : list (Contract * Z) :=
  match t with
  | [] => []
  | EGetOrder ct order_id :: rest => (ct, order_id) :: orders_read rest
  | _ :: rest => orders_read rest
  end.

(** The threads started. *)
Fixpoint threads_started (t : list Effect) : list Thread :=
  match t with
  | [] => []
  | EThreadStart th :: rest => th :: threads_started rest
  | _ :: rest => threads_started rest
  end.

(** A chain client whose height, read twice in a row, has not gone down
    in between. *)
Definition steady_heights {W} (env : Env W) : Prop :=
  forall w w1 w2 h h',
    eth_get_block_number env w = (Ok h, w1) ->
    eth_get_block_number env w1 = (Ok h', w2) ->
    (h <= h')%Z.

(** A world that is a block counter: each height read returns it and
    moves it on by one; there are no entries and the backend is down. *)
Definition ticking : Env Z :=
  {| hex_prefixed := false;
     eth_get_block_number := fun w => (Ok w, (w + 1)%Z);
     eth_filter := fun _ w => (Ok w, w);
     eth_get_filter_changes := fun _ w => (Ok [], w);
     getOrder_call := fun _ _ w => (Raise (LibraryError "no such order"), w);
     requests_post := fun _ _ _ w => (Raise (LibraryError "connection refused"), w);
     time_sleep := fun _ w => w;
     thread_create := fun w => (1%nat, w);
     thread_start := fun _ w => (Ok tt, w);
     thread_is_alive := fun _ w => (true, w);
     thread_join := fun _ _ w => (Ok tt, w);
     caller_stopped := fun w => (false, w) |}.

Definition ticking_config (cursor height : Z) : Config Z :=
  Build_Config
    (init ticking (Some 1%nat) (Some 2%nat) (Some 3%nat)
       (Some {| contract_address := "0xc0ffee" |}) None)
    cursor height [].

(** The order tuple of the contract's [IntentOrder] struct, for order 7
    with amount 250. *)
Definition order_7 : list AbiValue :=
  [AUint 7; AUint 250; ABool false; ABool false; ABool false;
   AAddress "0x0000000000000000000000000000000000000abc"].

Definition contract_with_order_7 : Script :=
  {| heights := []; filter_ids := []; batches := [];
     orders := [Ok order_7];
     responses := []; alive := []; stops := [] |}.

Definition order_completed_7 : LogEntry :=
  {| topics := [Web3_keccak EventSignatures.OrderCompleted; word32 [x07]];
     data := []; address := "0xc0ffee"; blockNumber := 101 |}.

Definition addresses_tracked_entry : LogEntry :=
  {| topics := [Web3_keccak EventSignatures.AddressesTracked; word32 [x07]];
     data := []; address := "0xc0ffee"; blockNumber := 101 |}.

Definition order_created_short : LogEntry :=
  {| topics := [Web3_keccak EventSignatures.OrderCreated; word32 [x05]];
     data := []; address := "0xc0ffee"; blockNumber := 101 |}.

(** A backend that accepts the bid but answers with a body that is not
    JSON. *)
Definition backend_answers_text : Script :=
  {| heights := []; filter_ids := []; batches := []; orders := [];
     responses := [Ok {| status_code := 200;
                         json := Raise (LibraryError "Expecting value") |}];
     alive := []; stops := [] |}.

(** An indexer without a chain client. *)
Definition config_without_web3 : Config Script :=
  Build_Config
    (init (scripted false) None (Some 2%nat) (Some 3%nat)
       (Some {| contract_address := "0xc0ffee" |}) None)
    0 quiet [].

(** A worker that is alive. *)
Definition running_worker : Script :=
  {| heights := [Ok 101%Z]; filter_ids := []; batches := []; orders := [];
     responses := []; alive := [true]; stops := [] |}.

Definition config_running : Config Script :=
  Build_Config (set_indexer_thread (Some 1%nat) (demo_indexer false)) 0
    running_worker [].

(** An OrderCreated entry whose topic 2 has two bytes only. *)
Definition order_created_narrow : LogEntry :=
  {| topics := [Web3_keccak EventSignatures.OrderCreated; word32 [x05]; [x0a; xbc]];
     data := []; address := "0xc0ffee"; blockNumber := 101 |}.

(** The height is read once, then the chain client fails. *)
Definition second_read_fails : Script :=
  {| heights := [Ok 101%Z; Raise (LibraryError "read timed out")];
     filter_ids := []; batches := []; orders := []; responses := [];
     alive := []; stops := [] |}.

(** An indexer without a contract handle. *)
Definition config_without_contract : Config Script :=
  Build_Config
    (init (scripted false) (Some 1%nat) (Some 2%nat) (Some 3%nat) None None)
    77 quiet [].

(** The scripted world on a machine that cannot start another thread. *)
Definition thread_limit_reached : Env Script :=
  {| hex_prefixed := false;
     eth_get_block_number := eth_get_block_number (scripted false);
     eth_filter := eth_filter (scripted false);
     eth_get_filter_changes := eth_get_filter_changes (scripted false);
     getOrder_call := getOrder_call (scripted false);
     requests_post := requests_post (scripted false);
     time_sleep := time_sleep (scripted false);
     thread_create := thread_create (scripted false);
     thread_start := fun _ w => (Raise (LibraryError "can't start new thread"), w);
     thread_is_alive := thread_is_alive (scripted false);
     thread_join := thread_join (scripted false);
     caller_stopped := caller_stopped (scripted false) |}.

(** The owning thread has asked the worker to stop. *)
Definition stop_requested : Script :=
  {| heights := [Ok 101%Z]; filter_ids := []; batches := []; orders := [];
     responses := []; alive := []; stops := [true] |}.

(** What dispatching an entry may do: log (any line but the loop's own
    error line), read an order from the contract, post a bid. In
    particular it does not sleep. *)
Definition entry_effect (e : Effect) : bool :=
  match e with
  | ELog _ text _ => negb (String.eqb text "Error in indexer: {}")
  | EGetOrder _ _ => true
  | EHttpPost _ _ _ => true
  | _ => false
  end.

(** The line a handler logs when its [try] block raises. *)
Definition handler_error_line (h : Handler) (e : Exn) : list Effect :=
  match h with
  | H_order_created => [ELog ERROR "Error handling OrderCreated event: {}" [LExn e]]
  | H_order_matched => [ELog ERROR "Error handling OrderMatched event: {}" [LExn e]]
  | H_order_completed => [ELog ERROR "Error handling OrderCompleted event: {}" [LExn e]]
  | H_addresses_tracked => []
  end.

(** One pass whose batch has four entries: one without topics, an
    OrderCreated, an OrderMatched and an AddressesTracked entry. *)
Definition mixed_batch : Script :=
  {| heights := [Ok 101; Ok 101]%Z;
     filter_ids := [Ok 1]%Z;
     batches := [Ok [entry_without_topics; order_created_5_abc; order_matched_7;
                     addresses_tracked_entry]];
     orders := [Ok order_7]; responses := [Ok ok200]; alive := []; stops := [] |}.

(** At cursor 11: the height is 12 when compared and 4 when read again,
    the fetch of that pass fails; in the next pass the height is 12
    twice. *)
Definition stale_read_then_retry : Script :=
  {| heights := [Ok 12; Ok 4; Ok 12; Ok 12]%Z;
     filter_ids := [Ok 1; Ok 2]%Z;
     batches := [Raise (LibraryError "connection reset"); Ok []];
     orders := []; responses := []; alive := []; stops := [] |}.

(** A world that counts the threads it has created: each new thread gets
    the next number; the chain and the backend are down. *)
Definition spawning : Env nat :=
  {| hex_prefixed := false;
     eth_get_block_number := fun w => (Raise (LibraryError "read timed out"), w);
     eth_filter := fun _ w => (Raise (LibraryError "read timed out"), w);
     eth_get_filter_changes := fun _ w => (Raise (LibraryError "read timed out"), w);
     getOrder_call := fun _ _ w => (Raise (LibraryError "read timed out"), w);
     requests_post := fun _ _ _ w => (Raise (LibraryError "connection refused"), w);
     time_sleep := fun _ w => w;
     thread_create := fun w => (S w, S w);
     thread_start := fun _ w => (Ok tt, w);
     thread_is_alive := fun _ w => (true, w);
     thread_join := fun _ _ w => (Ok tt, w);
     caller_stopped := fun w => (false, w) |}.

Definition spawning_config : Config nat :=
  Build_Config
    (init spawning (Some 1%nat) (Some 2%nat) (Some 3%nat)
       (Some {| contract_address := "0xc0ffee" |}) None)
    0 0%nat [].

(** * Properties *)

(** ** The hash function against published digests *)

Example keccak_of_empty_text :
  HexBytes_hex false (Web3_keccak "")
  = "c5d2460186f7233c927e7db2dcc703c0e500b653ca82273b7bfad8045d85a470"%string.
Proof. vm_compute. reflexivity. Qed.

Example keccak_of_transfer_signature :
  HexBytes_hex true (Web3_keccak "Transfer(address,address,uint256)")
  = "0xddf252ad1be2c89b69c2b068fc378daa952ba7f163c4a11628f55a4df523b3ef"%string.
Proof. vm_compute. reflexivity. Qed.

(** ** Hexadecimal text *)

Lemma hex_digit_value_of_nibbles (b : byte) :
  hex_digit_value (hex_digit (N.shiftr (Byte.to_N b) 4))
    = Some (Z.of_N (Byte.to_N b) / 16)%Z
  /\ hex_digit_value (hex_digit (N.land (Byte.to_N b) 15))
    = Some (Z.of_N (Byte.to_N b) mod 16)%Z.
Proof. destruct b; vm_compute; split; reflexivity. Qed.

Lemma parse_hex_digits_of_bytes (bs : HexBytes) :
  forall acc : Z,
    parse_hex_digits acc (hex_digits bs)
    = Some (fold_left (fun a b => (a * 256 + Z.of_N (Byte.to_N b))%Z) bs acc).
Proof.
  induction bs as [|b rest IH]; intros acc; [reflexivity|].
  cbn [hex_digits parse_hex_digits fold_left].
  destruct (hex_digit_value_of_nibbles b) as [Hhi Hlo].
  rewrite Hhi, Hlo, IH. do 2 f_equal.
  pose proof (Z.div_mod (Z.of_N (Byte.to_N b)) 16). lia.
Qed.

Lemma hex_digits_length (bs : HexBytes) :
  List.length (hex_digits bs) = (2 * List.length bs)%nat.
Proof. induction bs as [|b rest IH]; cbn [hex_digits List.length]; lia. Qed.

(** The text of a byte never has [x] or [X] as its second character, so
    unprefixed text is not taken for prefixed text. *)
Lemma strip_0x_of_digits (bs : HexBytes) :
  strip_0x (hex_digits bs) = hex_digits bs.
Proof.
  destruct bs as [|b rest]; [reflexivity|].
  cbn [hex_digits]. destruct b; reflexivity.
Qed.

Lemma py_int_16_of_hex (prefixed : bool) (bs : HexBytes) :
  bs <> [] -> py_int_16 (HexBytes_hex prefixed bs) = Ok (be_value bs).
Proof.
  intros Hne. unfold py_int_16, HexBytes_hex.
  rewrite list_ascii_of_string_of_list_ascii.
  assert (Hs : strip_0x ((if prefixed then ["0"; "x"]%char else []) ++ hex_digits bs)
               = hex_digits bs).
  { destruct prefixed; [reflexivity|]. apply strip_0x_of_digits. }
  rewrite Hs.
  assert (Hds : hex_digits bs <> []) by (destruct bs; [congruence | discriminate]).
  pose proof (parse_hex_digits_of_bytes bs 0) as Hp.
  destruct (hex_digits bs) as [|d ds]; [congruence|].
  rewrite Hp. reflexivity.
Qed.

Lemma py_int_16_of_empty (prefixed : bool) :
  py_int_16 (HexBytes_hex prefixed []) = Raise ValueError.
Proof. destruct prefixed; reflexivity. Qed.

Lemma hex_digits_skipn (k : nat) :
  forall bs : HexBytes, skipn (2 * k) (hex_digits bs) = hex_digits (skipn k bs).
Proof.
  induction k as [|k IH]; intros bs; [reflexivity|].
  destruct bs as [|b rest]; [reflexivity|].
  replace (2 * S k)%nat with (S (S (2 * k))) by lia.
  cbn [hex_digits skipn]. apply IH.
Qed.

(** Of a topic of at least 20 bytes, [hex()[-40:]] is the text of the last
    20 bytes, with or without the prefix. *)
Lemma py_suffix_40_of_hex (prefixed : bool) (bs : HexBytes) :
  (20 <= List.length bs)%nat ->
  py_suffix 40 (HexBytes_hex prefixed bs)
  = string_of_list_ascii (lastn 40 (hex_digits bs)).
Proof.
  intros Hlen. unfold py_suffix, HexBytes_hex, lastn.
  rewrite list_ascii_of_string_of_list_ascii. f_equal.
  rewrite length_app, hex_digits_length.
  destruct prefixed; cbn [List.length]; [|reflexivity].
  replace (2 + 2 * List.length bs - 40)%nat
    with (2 + (2 * List.length bs - 40))%nat by lia.
  reflexivity.
Qed.

(** ** Reading traces piece by piece *)

Lemma http_posts_app (t1 t2 : list Effect) :
  http_posts (t1 ++ t2) = http_posts t1 ++ http_posts t2.
Proof.
  induction t1 as [|e t1 IH]; [reflexivity|].
  destruct e; cbn [http_posts app]; rewrite IH; reflexivity.
Qed.

Lemma fetches_app (t1 t2 : list Effect) :
  fetches (t1 ++ t2) = fetches t1 ++ fetches t2.
Proof.
  induction t1 as [|e t1 IH]; [reflexivity|].
  destruct e; cbn [fetches app]; rewrite IH; reflexivity.
Qed.

Lemma filters_created_app (t1 t2 : list Effect) :
  filters_created (t1 ++ t2) = filters_created t1 ++ filters_created t2.
Proof.
  induction t1 as [|e t1 IH]; [reflexivity|].
  destruct e; cbn [filters_created app]; rewrite IH; reflexivity.
Qed.

Lemma dispatched_app (t1 t2 : list Effect) :
  dispatched (t1 ++ t2) = dispatched t1 ++ dispatched t2.
Proof.
  induction t1 as [|e t1 IH]; [reflexivity|].
  cbn [app]. destruct e; cbn [dispatched]; try exact IH.
  destruct lvl; try exact IH.
  destruct args as [|a [|a' args]]; try exact IH; destruct a; try exact IH.
  destruct (String.eqb text "Processing event: {}"); cbn [app]; rewrite IH; reflexivity.
Qed.

Section Properties.

Context {W : Type} (env : Env W).

Local Open Scope string_scope.
Local Open Scope list_scope.

(** ** The bid submission *)

(** [_submit_bid] always returns normally, leaves [base_url] at the local
    endpoint, and its effects are one POST to [/bid] there followed by one
    log line. *)
Lemma submit_bid_run (bid_data : Json) (c : Config W) :
  exists lvl text args w',
    submit_bid env bid_data c
    = (Ok tt,
       Build_Config
         (set_base_url (Some "http://localhost:3000") (self c))
         (last_processed_block c) w'
         (trace c ++
            [EHttpPost "http://localhost:3000/bid" bid_data
               [("Content-Type", "application/json")];
             ELog lvl text args])).
Proof.
  unfold submit_bid, bind, modify_self, get_self, try_except, extern, logger, lift.
  cbn.
  destruct (requests_post env _ _ _ (world c)) as [[response|e] w'].
  - destruct ((200 <=? status_code response)%Z && (status_code response <? 300)%Z).
    + destruct (json response) as [body|e]; cbn; rewrite <- app_assoc;
        do 4 eexists; reflexivity.
    + cbn. rewrite <- app_assoc. do 4 eexists; reflexivity.
  - cbn. rewrite <- app_assoc. do 4 eexists; reflexivity.
Qed.

(** C7: every call of the bid submission sets the base URL field to
    [http://localhost:3000] and sends exactly one POST, to
    [http://localhost:3000/bid], whatever base URL or
    [intent_matching_url] the indexer held before. *)
Theorem submit_bid_posts_to_localhost (bid_data : Json) (c : Config W) :
  let r := submit_bid env bid_data c in
  fst r = Ok tt
  /\ base_url (self (snd r)) = Some "http://localhost:3000"
  /\ intent_matching_url (self (snd r)) = intent_matching_url (self c)
  /\ http_posts (trace (snd r))
     = http_posts (trace c) ++ [("http://localhost:3000/bid", bid_data)].
Proof.
  destruct (submit_bid_run bid_data c) as (lvl & text & args & w' & Hrun).
  cbv zeta. rewrite Hrun. cbn [fst snd self trace].
  repeat split. rewrite http_posts_app. reflexivity.
Qed.

(** ** What the handlers and the dispatcher leave alone *)

Lemma stable_refl (c : Config W) : stable c c.
Proof. repeat split. exists []. symmetry. apply app_nil_r. Qed.

Lemma stable_trans (c1 c2 c3 : Config W) :
  stable c1 c2 -> stable c2 c3 -> stable c1 c3.
Proof.
  intros (Hc & Ht & Hw & Hi & es & He) (Hc' & Ht' & Hw' & Hi' & es' & He').
  repeat split; try congruence.
  exists (es ++ es'). rewrite He', He, app_assoc. reflexivity.
Qed.

Lemma ret_stable {A} (a : A) : keeps_stable (ret (W := W) a).
Proof. intros c. apply stable_refl. Qed.

Lemma raise_stable {A} (e : Exn) : keeps_stable (raise (W := W) (A := A) e).
Proof. intros c. apply stable_refl. Qed.

Lemma lift_stable {A} (o : outcome A) : keeps_stable (lift (W := W) o).
Proof. intros c. apply stable_refl. Qed.

Lemma get_self_stable : keeps_stable (get_self (W := W)).
Proof. intros c. apply stable_refl. Qed.

Lemma get_cursor_stable : keeps_stable (get_cursor (W := W)).
Proof. intros c. apply stable_refl. Qed.

Lemma extern_stable {A} (eff : Effect) (f : W -> outcome A * W) :
  keeps_stable (extern eff f).
Proof.
  intros c. unfold extern. destruct (f (world c)) as [r w'].
  repeat split. exists [eff]. reflexivity.
Qed.

Lemma logger_stable (lvl : LogLevel) (text : string) (args : list LogArg) :
  keeps_stable (logger (W := W) lvl text args).
Proof. apply extern_stable. Qed.

Lemma bind_stable {A B} (m : M W A) (k : A -> M W B) :
  keeps_stable m -> (forall a, keeps_stable (k a)) -> keeps_stable (bind m k).
Proof.
  intros Hm Hk c. unfold bind. specialize (Hm c).
  destruct (m c) as [[a|e] c']; cbn [snd] in *; [|exact Hm].
  eapply stable_trans; [exact Hm | apply Hk].
Qed.

Lemma try_except_stable {A} (body : M W A) (handler : Exn -> M W A) :
  keeps_stable body -> (forall e, keeps_stable (handler e)) ->
  keeps_stable (try_except body handler).
Proof.
  intros Hb Hh c. unfold try_except. specialize (Hb c).
  destruct (body c) as [[a|e] c']; cbn [snd] in *; [exact Hb|].
  eapply stable_trans; [exact Hb | apply Hh].
Qed.

Lemma set_base_url_stable (u : option string) :
  keeps_stable (modify_self (W := W) (set_base_url u)).
Proof. intros c. repeat split. exists []. symmetry. apply app_nil_r. Qed.

Lemma set_current_order_id_stable (o : option Z) :
  keeps_stable (modify_self (W := W) (set_current_order_id o)).
Proof. intros c. repeat split. exists []. symmetry. apply app_nil_r. Qed.

Lemma for_each_stable {A} (f : A -> M W unit) (l : list A) :
  (forall a, keeps_stable (f a)) -> keeps_stable (for_each f l).
Proof.
  intros Hf. induction l as [|x rest IH]; cbn [for_each].
  - apply ret_stable.
  - apply bind_stable; [apply Hf | intros _; exact IH].
Qed.

Create HintDb stable_db.
#[local] Hint Resolve ret_stable raise_stable lift_stable get_self_stable
  get_cursor_stable extern_stable logger_stable set_base_url_stable
  set_current_order_id_stable : stable_db.

Ltac stable_steps :=
  repeat first
    [ solve [auto with stable_db]
    | apply bind_stable; [|intros ?]
    | apply try_except_stable; [|intros ?]
    | match goal with
      | |- keeps_stable (match ?x with _ => _ end) => destruct x
      | |- keeps_stable (if ?b then _ else _) => destruct b
      end ].

Lemma event_topic_stable (event : LogEntry) (i : nat) :
  keeps_stable (event_topic (W := W) event i).
Proof. unfold event_topic. stable_steps. Qed.

#[local] Hint Resolve event_topic_stable : stable_db.

Lemma topic_order_id_stable (event : LogEntry) :
  keeps_stable (topic_order_id env event).
Proof. unfold topic_order_id. stable_steps. Qed.

Lemma getOrder_stable (order_id : Z) : keeps_stable (getOrder env order_id).
Proof. unfold getOrder. apply bind_stable; [auto with stable_db|]. intros s. stable_steps. Qed.

Lemma submit_bid_stable (bid_data : Json) : keeps_stable (submit_bid env bid_data).
Proof.
  unfold submit_bid.
  apply bind_stable; [auto with stable_db|]. intros _.
  apply bind_stable; [auto with stable_db|]. intros s.
  destruct (base_url s) as [[|a base]|]; stable_steps.
Qed.

#[local] Hint Resolve topic_order_id_stable getOrder_stable submit_bid_stable : stable_db.

Lemma call_handler_stable (h : Handler) (event : LogEntry) :
  keeps_stable (call_handler env h event).
Proof.
  destruct h; cbn [call_handler];
    unfold handle_order_created, handle_order_matched, handle_addresses_tracked,
      handle_order_completed;
    stable_steps.
Qed.

Lemma process_event_stable (event : LogEntry) : keeps_stable (process_event env event).
Proof.
  unfold process_event.
  pose proof call_handler_stable as Hh.
  stable_steps; apply Hh.
Qed.

(** ** No exception leaves a handler or the dispatcher *)

Lemma try_except_logged_returns (body : M W unit) (text : string) (c : Config W) :
  fst (try_except body (fun e => logger ERROR text [LExn e]) c) = Ok tt.
Proof.
  unfold try_except. destruct (body c) as [[[]|e] c']; reflexivity.
Qed.

Lemma call_handler_returns (h : Handler) (event : LogEntry) (c : Config W) :
  fst (call_handler env h event c) = Ok tt.
Proof.
  destruct h; cbn [call_handler];
    try apply try_except_logged_returns; reflexivity.
Qed.

Lemma process_event_returns (event : LogEntry) (c : Config W) :
  fst (process_event env event c) = Ok tt.
Proof. apply try_except_logged_returns. Qed.

(** A batch is dispatched to its end, and it is the same to dispatch it
    in two parts. *)
Lemma for_each_process_event_app (es1 es2 : list LogEntry) (c : Config W) :
  for_each (process_event env) (es1 ++ es2) c
  = for_each (process_event env) es2 (snd (for_each (process_event env) es1 c)).
Proof.
  revert c. induction es1 as [|ev es1 IH]; intros c; [reflexivity|].
  cbn [app for_each]. unfold bind.
  pose proof (process_event_returns ev c) as Hr.
  destruct (process_event env ev c) as [[[]|e] c']; cbn [fst] in Hr; [|discriminate].
  apply IH.
Qed.

Lemma for_each_process_event_returns (es : list LogEntry) (c : Config W) :
  fst (for_each (process_event env) es c) = Ok tt.
Proof.
  revert c. induction es as [|ev es IH]; intros c; [reflexivity|].
  cbn [for_each]. unfold bind.
  pose proof (process_event_returns ev c) as Hr.
  destruct (process_event env ev c) as [[[]|e] c']; cbn [fst] in Hr; [|discriminate].
  apply IH.
Qed.

(** ** The dispatcher on entries it has no handler for *)

(** C5: an entry whose first topic is not a key of the signature table,
    and an entry without any topic, are dispatched to no handler and no
    exception leaves the dispatcher: the indexer, the cursor and the world
    are as before, and the only effects are the dispatcher's own log
    lines (for an entry without topics, also the line of the caught
    [IndexError]). *)
Theorem dispatch_without_handler_is_noop (event : LogEntry) (c : Config W) :
  (topics event = []
   \/ exists t0 rest, topics event = t0 :: rest
        /\ event_signatures (self c) !! hex env t0 = None) ->
  process_event env event c
  = (Ok tt,
     with_effects c
       (ELog INFO "Processing event: {}" [LEvent event]
          :: match topics event with
             | [] => [ELog ERROR "Error processing event: {}" [LExn IndexError]]
             | _ :: _ => []
             end)).
Proof.
  intros [Hnil | (t0 & rest & Htopics & Hnone)];
    unfold process_event, try_except, bind, logger, extern, event_topic, get_self,
      ret, raise, with_effects.
  - rewrite Hnil. cbn. rewrite <- app_assoc. reflexivity.
  - rewrite Htopics. cbn. rewrite Hnone. reflexivity.
Qed.

(** ** The OrderCreated handler *)

Lemma signature_table_order_created :
  signature_table env !! hex env (Web3_keccak EventSignatures.OrderCreated)
  = Some H_order_created.
Proof.
  unfold signature_table, hex. destruct (hex_prefixed env); vm_compute; reflexivity.
Qed.

Lemma handle_order_created_run (event : LogEntry) (t0 t1 t2 : HexBytes)
    (rest : list HexBytes) (c : Config W) :
  topics event = t0 :: t1 :: t2 :: rest ->
  t1 <> [] ->
  (20 <= List.length t2)%nat ->
  let user_address :=
    ("0x" ++ string_of_list_ascii (lastn 40 (hex_digits t2)))%string in
  let bid_data :=
    JObj [("orderId", JInt (be_value t1)); ("userId", JStr user_address);
          ("agentId", JInt 0); ("amount", JInt 100)] in
  exists lvl text args w',
    handle_order_created env event c
    = (Ok tt,
       Build_Config
         (set_base_url (Some "http://localhost:3000") (self c))
         (last_processed_block c) w'
         (trace c ++
            [ELog INFO "Order created - ID: {}, User: {}"
               [LInt (be_value t1); LStr user_address];
             EHttpPost "http://localhost:3000/bid" bid_data
               [("Content-Type", "application/json")];
             ELog lvl text args])).
Proof.
  intros Htopics Hne Hlen user_address bid_data.
  unfold handle_order_created, topic_order_id, event_topic, hex.
  rewrite Htopics. cbn [nth_error].
  unfold try_except, bind at 1 2, ret, lift.
  rewrite (py_int_16_of_hex _ _ Hne).
  unfold bind at 1, logger at 1, extern at 1.
  rewrite (py_suffix_40_of_hex _ _ Hlen).
  fold user_address. fold bid_data.
  unfold bind. cbn beta iota.
  match goal with
  | |- context [submit_bid env bid_data ?c1] =>
      destruct (submit_bid_run bid_data c1) as (lvl & text & args & w' & Hrun);
      rewrite Hrun
  end.
  cbn [self last_processed_block world trace].
  rewrite <- app_assoc. exists lvl, text, args, w'. reflexivity.
Qed.

(** C1: an OrderCreated entry whose topic 1 is the number 5 and whose
    topic 2 is a 32-byte word, dispatched by an indexer holding the
    signature table of [__init__], is answered by exactly one HTTP POST, to
    [/bid] of the local endpoint, with the body [orderId = 5],
    [userId = 0x] followed by the last 40 hexadecimal digits of topic 2,
    [agentId = 0], [amount = 100]; and the dispatcher returns normally,
    whatever the backend answers. *)
Theorem order_created_posts_one_bid (event : LogEntry) (t1 t2 : HexBytes)
    (rest : list HexBytes) (c : Config W) :
  event_signatures (self c) = signature_table env ->
  topics event = Web3_keccak EventSignatures.OrderCreated :: t1 :: t2 :: rest ->
  t1 <> [] ->
  be_value t1 = 5%Z ->
  List.length t2 = 32%nat ->
  let r := process_event env event c in
  fst r = Ok tt
  /\ http_posts (trace (snd r))
     = http_posts (trace c) ++
       [("http://localhost:3000/bid",
         JObj [("orderId", JInt 5);
               ("userId",
                JStr ("0x" ++ string_of_list_ascii (lastn 40 (hex_digits t2)))%string);
               ("agentId", JInt 0);
               ("amount", JInt 100)])].
Proof.
  intros Htable Htopics Hne Hval Hlen r. subst r.
  split; [apply process_event_returns|].
  assert (Hlen20 : (20 <= List.length t2)%nat) by lia.
  unfold process_event, try_except.
  unfold bind at 1, logger at 1, extern at 1. cbn beta iota.
  unfold bind at 1, event_topic at 1. rewrite Htopics. cbn [nth_error].
  unfold ret at 1. cbn beta iota.
  unfold bind at 1, get_self at 1. cbn beta iota. cbn [self].
  rewrite Htable, signature_table_order_created.
  cbn [call_handler]. unfold bind at 1.
  match goal with
  | |- context [handle_order_created env event ?c1] =>
      destruct (handle_order_created_run event _ _ _ _ c1 Htopics Hne Hlen20)
        as (lvl & text & args & w' & Hrun);
      rewrite Hrun
  end.
  cbn beta iota. unfold logger, extern.
  cbn [snd trace self last_processed_block world].
  rewrite Hval, !http_posts_app. cbn [http_posts app].
  rewrite !app_nil_r. reflexivity.
Qed.

(** ** The OrderMatched handler *)

Lemma topic_order_id_config (event : LogEntry) (c : Config W) :
  snd (topic_order_id env event c) = c.
Proof.
  unfold topic_order_id, bind, event_topic, lift, ret, raise.
  destruct (nth_error (topics event) 1); reflexivity.
Qed.

Lemma getOrder_self (order_id : Z) (c : Config W) :
  self (snd (getOrder env order_id c)) = self c.
Proof.
  unfold getOrder, bind, get_self, extern, raise.
  destruct (intent_matching_contract (self c)) as [ct|]; [|reflexivity].
  destruct (getOrder_call env ct order_id (world c)); reflexivity.
Qed.

(** On success the handler records the order id. *)
Lemma handle_order_matched_success (event : LogEntry) (order_id : Z)
    (order : list AbiValue) (c : Config W) :
  fst (topic_order_id env event c) = Ok order_id ->
  fst (getOrder env order_id c) = Ok order ->
  self (snd (handle_order_matched env event c))
  = set_current_order_id (Some order_id) (self c).
Proof.
  intros Hid Hord.
  pose proof (topic_order_id_config event c) as Hc.
  pose proof (getOrder_self order_id c) as Hs.
  unfold handle_order_matched, try_except, bind.
  destruct (topic_order_id env event c) as [o c1]. cbn [fst snd] in *. subst o c1.
  destruct (getOrder env order_id c) as [o c2]. cbn [fst snd] in *. subst o.
  cbn. rewrite Hs. reflexivity.
Qed.

(** C6: when handling an OrderMatched event fails, because the order id
    of topic 1 cannot be decoded or because the [getOrder] read raises, the
    handler returns normally and leaves the indexer object as it was; in
    particular [current_order_id] keeps its value. *)
Theorem order_matched_failure_keeps_state (event : LogEntry) (c : Config W) :
  ((exists e, fst (topic_order_id env event c) = Raise e)
   \/ (exists order_id e,
         fst (topic_order_id env event c) = Ok order_id
         /\ fst (getOrder env order_id c) = Raise e)) ->
  let r := handle_order_matched env event c in
  fst r = Ok tt
  /\ self (snd r) = self c
  /\ current_order_id (self (snd r)) = current_order_id (self c).
Proof.
  intros Hfail r. subst r.
  assert (Hself : self (snd (handle_order_matched env event c)) = self c).
  { pose proof (topic_order_id_config event c) as Hc.
    unfold handle_order_matched, try_except, bind.
    destruct (topic_order_id env event c) as [o c1]. cbn [fst snd] in *. subst c1.
    destruct Hfail as [(e & He) | (order_id & e & Hid & He)]; subst o.
    - reflexivity.
    - pose proof (getOrder_self order_id c) as Hs.
      destruct (getOrder env order_id c) as [o c2]. cbn [fst snd] in *. subst o.
      cbn. exact Hs. }
  split; [apply try_except_logged_returns|].
  split; [exact Hself | rewrite Hself; reflexivity].
Qed.

(** ** The poll loop *)

Lemma stable_settled (c c' : Config W) : stable c c' -> settled c c'.
Proof. intros (_ & H). exact H. Qed.

Lemma settled_refl (c : Config W) : settled c c.
Proof. apply stable_settled, stable_refl. Qed.

Lemma settled_trans (c1 c2 c3 : Config W) :
  settled c1 c2 -> settled c2 c3 -> settled c1 c3.
Proof.
  intros (Ht & Hw & Hi & es & He) (Ht' & Hw' & Hi' & es' & He').
  repeat split; try congruence.
  exists (es ++ es'). rewrite He', He, app_assoc. reflexivity.
Qed.

Lemma web3_eth_stable : keeps_stable (web3_eth (W := W)).
Proof. unfold web3_eth. stable_steps. Qed.

#[local] Hint Resolve web3_eth_stable : stable_db.

Lemma get_block_number_stable : keeps_stable (get_block_number env).
Proof. unfold get_block_number. stable_steps. Qed.

Lemma new_filter_stable (params : FilterParams) : keeps_stable (new_filter env params).
Proof. unfold new_filter. stable_steps. Qed.

Lemma get_filter_changes_stable (fid : FilterId) :
  keeps_stable (get_filter_changes env fid).
Proof. unfold get_filter_changes. stable_steps. Qed.

Lemma sleep_stable (ms : N) : keeps_stable (sleep env ms).
Proof. unfold sleep. stable_steps. Qed.

#[local] Hint Resolve get_block_number_stable new_filter_stable
  get_filter_changes_stable sleep_stable : stable_db.

Lemma fetch_and_dispatch_stable (contract_filter : FilterParams) :
  keeps_stable (fetch_and_dispatch env contract_filter).
Proof.
  unfold fetch_and_dispatch.
  pose proof (for_each_stable (process_event env)) as Hfor.
  stable_steps. apply Hfor, process_event_stable.
Qed.

(** A height that was read: nothing but the world and the trace moved. *)
Lemma get_block_number_ok (c c1 : Config W) (h : Z) :
  get_block_number env c = (Ok h, c1) ->
  self c1 = self c
  /\ last_processed_block c1 = last_processed_block c
  /\ trace c1 = trace c ++ [EGetBlockNumber].
Proof.
  unfold get_block_number, web3_eth, bind, get_self, ret, raise, extern.
  destruct (web3 (self c)); [|discriminate]. cbn [self world].
  destruct (eth_get_block_number env (world c)) as [r w'].
  intros [= -> <-]. repeat split.
Qed.

(** The loop pass from the second height read on. *)
Lemma loop_body_advancing (contract_filter : FilterParams) (c c1 c2 : Config W)
    (h h' : Z) :
  get_block_number env c = (Ok h, c1) ->
  (last_processed_block c < h)%Z ->
  get_block_number env c1 = (Ok h', c2) ->
  loop_body env contract_filter c
  = try_except (fetch_and_dispatch env contract_filter)
      (fun e => bind (logger ERROR "Error in indexer: {}" [LExn e])
                  (fun _ => sleep env 1000))
      (Build_Config (self c2) h' (world c2) (trace c2)).
Proof.
  intros H1 Hlt H2.
  destruct (get_block_number_ok _ _ _ H1) as (_ & Hcur & _).
  unfold loop_body, try_except, loop_try.
  unfold bind at 1. rewrite H1.
  unfold bind at 1, get_cursor at 1. cbn beta iota. rewrite Hcur.
  destruct (Z.leb_spec h (last_processed_block c)) as [Hle|_]; [lia|].
  unfold bind at 1. rewrite H2.
  unfold bind at 1, set_cursor at 1. cbn beta iota. reflexivity.
Qed.

Lemma backoff_run (e : Exn) (c : Config W) :
  bind (logger ERROR "Error in indexer: {}" [LExn e]) (fun _ => sleep env 1000) c
  = (Ok tt, after_backoff env e c).
Proof.
  unfold bind, logger, sleep, extern, after_backoff. cbn.
  rewrite <- app_assoc. reflexivity.
Qed.

(** Whatever escapes the [try] block is logged, followed by the one-second
    sleep, and the pass ends normally. *)
Lemma loop_body_catches (contract_filter : FilterParams) (c c' : Config W) (e : Exn) :
  loop_try env contract_filter c = (Raise e, c') ->
  loop_body env contract_filter c = (Ok tt, after_backoff env e c').
Proof.
  intros Hraise. unfold loop_body, try_except. rewrite Hraise. apply backoff_run.
Qed.

Lemma loop_body_returns (contract_filter : FilterParams) (c : Config W) :
  fst (loop_body env contract_filter c) = Ok tt.
Proof.
  unfold loop_body, try_except.
  destruct (loop_try env contract_filter c) as [[[]|e] c']; [reflexivity|].
  rewrite backoff_run. reflexivity.
Qed.

(** The cursor after a pass in which the height had advanced and was read
    again: the second reading, whatever the rest of the pass did. *)
Lemma loop_body_advancing_cursor (contract_filter : FilterParams)
    (c c1 c2 : Config W) (h h' : Z) :
  get_block_number env c = (Ok h, c1) ->
  (last_processed_block c < h)%Z ->
  get_block_number env c1 = (Ok h', c2) ->
  last_processed_block (snd (loop_body env contract_filter c)) = h'.
Proof.
  intros H1 Hlt H2. rewrite (loop_body_advancing _ _ _ _ _ _ H1 Hlt H2).
  unfold try_except.
  pose proof (fetch_and_dispatch_stable contract_filter
                (Build_Config (self c2) h' (world c2) (trace c2))) as (Hcur & _).
  destruct (fetch_and_dispatch env contract_filter _) as [[[]|e] c4];
    cbn [snd] in *; [exact Hcur|].
  rewrite backoff_run. exact Hcur.
Qed.

Lemma loop_body_idle (contract_filter : FilterParams) (c c1 : Config W) (h : Z) :
  get_block_number env c = (Ok h, c1) ->
  (h <= last_processed_block c)%Z ->
  loop_body env contract_filter c = (Ok tt, c1).
Proof.
  intros H1 Hle.
  destruct (get_block_number_ok _ _ _ H1) as (_ & Hcur & _).
  unfold loop_body, try_except, loop_try.
  unfold bind at 1. rewrite H1.
  unfold bind at 1, get_cursor at 1. cbn beta iota. rewrite Hcur.
  destruct (Z.leb_spec h (last_processed_block c)) as [_|Hlt]; [reflexivity|lia].
Qed.

(** C9: in a loop pass whose height read is not above the cursor, no
    filter is created, no fetch is issued, no entry is dispatched, and the
    cursor and the indexer are left as they were: the only effect of the
    pass is the height read itself. *)
Theorem idle_pass_fetches_nothing (contract_filter : FilterParams)
    (c c1 : Config W) (h : Z) :
  get_block_number env c = (Ok h, c1) ->
  (h <= last_processed_block c)%Z ->
  let r := loop_body env contract_filter c in
  fst r = Ok tt
  /\ trace (snd r) = trace c ++ [EGetBlockNumber]
  /\ fetches (trace (snd r)) = fetches (trace c)
  /\ filters_created (trace (snd r)) = filters_created (trace c)
  /\ dispatched (trace (snd r)) = dispatched (trace c)
  /\ last_processed_block (snd r) = last_processed_block c
  /\ self (snd r) = self c.
Proof.
  intros H1 Hle r. subst r.
  rewrite (loop_body_idle _ _ _ _ H1 Hle). cbn [fst snd].
  destruct (get_block_number_ok _ _ _ H1) as (Hself & Hcur & Htr).
  rewrite Htr, fetches_app, filters_created_app, dispatched_app.
  cbn [fetches filters_created dispatched]. rewrite !app_nil_r.
  repeat split; assumption.
Qed.

(** In a loop pass in which the height has advanced, the cursor is set
    to the height read again before the filter is created, the fetch made
    and the entries dispatched; whatever the rest of the pass does, also
    if it raises, the cursor ends at that height; and a following pass
    that reads a height not above it fetches nothing. *)
Lemma cursor_advanced_before_fetch (contract_filter : FilterParams)
    (c c1 c2 : Config W) (h h' : Z) :
  get_block_number env c = (Ok h, c1) ->
  (last_processed_block c < h)%Z ->
  get_block_number env c1 = (Ok h', c2) ->
  let advanced := Build_Config (self c2) h' (world c2) (trace c2) in
  let r := loop_body env contract_filter c in
  (forall e c4,
      fetch_and_dispatch env contract_filter advanced = (Raise e, c4) ->
      r = (Ok tt, after_backoff env e c4) /\ last_processed_block c4 = h')
  /\ (forall c4,
      fetch_and_dispatch env contract_filter advanced = (Ok tt, c4) ->
      r = (Ok tt, c4))
  /\ last_processed_block (snd r) = h'
  /\ (forall h2 c5,
      get_block_number env (snd r) = (Ok h2, c5) ->
      (h2 <= h')%Z ->
      loop_body env contract_filter (snd r) = (Ok tt, c5)
      /\ fetches (trace c5) = fetches (trace (snd r))
      /\ last_processed_block c5 = h').
Proof.
  intros H1 Hlt H2 advanced r.
  pose proof (loop_body_advancing contract_filter _ _ _ _ _ H1 Hlt H2) as Hrun.
  pose proof (loop_body_advancing_cursor contract_filter _ _ _ _ _ H1 Hlt H2) as Hcur.
  fold advanced in Hrun. fold r in Hrun, Hcur.
  repeat split.
  - rewrite Hrun. unfold try_except. rewrite H. apply backoff_run.
  - pose proof (fetch_and_dispatch_stable contract_filter advanced) as (Hc & _).
    rewrite H in Hc. exact Hc.
  - intros c4 Hok. rewrite Hrun. unfold try_except. rewrite Hok. reflexivity.
  - exact Hcur.
  - apply loop_body_idle with (h := h2); [assumption|]. rewrite Hcur. assumption.
  - destruct (get_block_number_ok _ _ _ H) as (_ & _ & Htr).
    rewrite Htr, fetches_app. cbn [fetches]. apply app_nil_r.
  - destruct (get_block_number_ok _ _ _ H) as (_ & Hc & _). congruence.
Qed.

Lemma new_filter_ok (params : FilterParams) (c c' : Config W) (fid : FilterId) :
  new_filter env params c = (Ok fid, c') ->
  trace c' = trace c ++ [ENewFilter params]
  /\ last_processed_block c' = last_processed_block c.
Proof.
  unfold new_filter, web3_eth, bind, get_self, ret, raise, extern.
  destruct (web3 (self c)); [|discriminate]. cbn [self world].
  destruct (eth_filter env params (world c)) as [r w'].
  intros [= -> <-]. split; reflexivity.
Qed.

(** [_run_indexer] with a contract: the filter parameters are fixed, the
    cursor starts at 0, and the loop is entered without any call to the
    chain. *)
Lemma run_indexer_start (fuel : nat) (c : Config W) (ct : Contract) :
  intent_matching_contract (self c) = Some ct ->
  run_indexer env fuel c
  = indexer_loop env fuel
      {| filter_address := contract_address ct; fromBlock := "latest" |}
      (Build_Config (self c) 0 (world c)
         (trace c ++ [ELog INFO "Starting to listen for events..." []])).
Proof.
  intros Hct. unfold run_indexer, bind, get_self. cbn beta iota. rewrite Hct.
  reflexivity.
Qed.

(** Where the filter call stands in a pass: right after the two height
    reads, followed at once by the fetch on the filter it returned. *)
Lemma advancing_pass_trace_prefix :
  (forall (fuel : nat) (c : Config W) (ct : Contract),
      intent_matching_contract (self c) = Some ct ->
      run_indexer env fuel c
      = indexer_loop env fuel
          {| filter_address := contract_address ct; fromBlock := "latest" |}
          (Build_Config (self c) 0 (world c)
             (trace c ++ [ELog INFO "Starting to listen for events..." []])))
  /\ (forall (contract_filter : FilterParams) (c c1 c2 c3 : Config W)
        (h h' : Z) (fid : FilterId),
      get_block_number env c = (Ok h, c1) ->
      (last_processed_block c < h)%Z ->
      get_block_number env c1 = (Ok h', c2) ->
      new_filter env contract_filter
        (Build_Config (self c2) h' (world c2) (trace c2)) = (Ok fid, c3) ->
      exists rest,
        trace (snd (loop_body env contract_filter c))
        = trace c ++
          [EGetBlockNumber; EGetBlockNumber; ENewFilter contract_filter;
           EGetFilterChanges fid] ++ rest).
Proof.
  split; [exact run_indexer_start|].
  intros cf c c1 c2 c3 h h' fid H1 Hlt H2 H3.
  rewrite (loop_body_advancing cf _ _ _ _ _ H1 Hlt H2).
  destruct (get_block_number_ok _ _ _ H1) as (_ & _ & Ht1).
  destruct (get_block_number_ok _ _ _ H2) as (_ & _ & Ht2).
  destruct (new_filter_ok _ _ _ _ H3) as (Ht3 & _). cbn [trace] in Ht3.
  assert (Hrest : exists rest c4 o,
             fetch_and_dispatch env cf (Build_Config (self c2) h' (world c2) (trace c2))
             = (o, c4)
             /\ trace c4 = trace c3 ++ [EGetFilterChanges fid] ++ rest).
  { unfold fetch_and_dispatch. unfold bind at 1. rewrite H3.
    unfold bind at 1, get_filter_changes at 1, extern at 1.
    destruct (eth_get_filter_changes env fid (world c3)) as [[entries|e] w4].
    - match goal with
      | |- context [bind ?m ?k ?c4] =>
          pose proof (bind_stable m k) as Hst; specialize (Hst ltac:(auto with stable_db));
          assert (Hk : forall a, keeps_stable (k a))
      end.
      { intros _. apply bind_stable; [|intros _; auto with stable_db].
        apply for_each_stable, process_event_stable. }
      specialize (Hst Hk).
      match goal with
      | |- context [bind ?m ?k ?c4] =>
          destruct (Hst c4) as (_ & _ & _ & _ & es & Hes);
          destruct (bind m k c4) as [o c5]
      end.
      cbn [snd trace] in Hes. exists es, c5, o. split; [reflexivity|].
      rewrite Hes, <- app_assoc. reflexivity.
    - do 3 eexists. split; [reflexivity|]. cbn [trace]. reflexivity. }
  destruct Hrest as (rest & c4 & o & Hfd & Ht4).
  unfold try_except. rewrite Hfd.
  destruct o as [[]|e].
  - exists rest. cbn [snd]. rewrite Ht4, Ht3, Ht2, Ht1.
    rewrite <- !app_assoc. reflexivity.
  - rewrite backoff_run. cbn [snd after_backoff trace].
    exists (rest ++ [ELog ERROR "Error in indexer: {}" [LExn e]; ESleep 1000]).
    rewrite Ht4, Ht3, Ht2, Ht1. rewrite <- !app_assoc. reflexivity.
Qed.

Lemma read_stop_indexing_returns (c : Config W) :
  exists b, fst (read_stop_indexing env c) = Ok b.
Proof.
  unfold read_stop_indexing. destruct (caller_stopped env (world c)) as [b w'].
  eexists. reflexivity.
Qed.

Lemma indexer_loop_returns (fuel : nat) (contract_filter : FilterParams) :
  forall c, exists r, fst (indexer_loop env fuel contract_filter c) = Ok r.
Proof.
  induction fuel as [|fuel IH]; intros c; [exists OutOfFuel; reflexivity|].
  cbn [indexer_loop]. unfold bind at 1.
  destruct (read_stop_indexing_returns c) as (b & Hb).
  destruct (read_stop_indexing env c) as [o c1]. cbn [fst] in Hb. subst o.
  destruct b; [exists Stopped; reflexivity|].
  unfold bind. pose proof (loop_body_returns contract_filter c1) as Hr.
  destruct (loop_body env contract_filter c1) as [o c2]. cbn [fst] in Hr. subst o.
  apply IH.
Qed.

Lemma indexer_loop_next_pass (fuel : nat) (contract_filter : FilterParams)
    (c c1 : Config W) :
  read_stop_indexing env c = (Ok false, c1) ->
  indexer_loop env (S fuel) contract_filter c
  = indexer_loop env fuel contract_filter (snd (loop_body env contract_filter c1)).
Proof.
  intros Hgo. cbn [indexer_loop]. unfold bind at 1. rewrite Hgo.
  unfold bind. pose proof (loop_body_returns contract_filter c1) as Hr.
  destruct (loop_body env contract_filter c1) as [o c2]. cbn [fst] in Hr. subst o.
  reflexivity.
Qed.

(** No pass and no run of the loop ends with an exception: what leaves
    the [try] block is logged and followed by the backoff, the dispatcher
    and the handlers return normally, a batch is dispatched to its end,
    and the next pass runs as long as no stop is requested. *)
Lemma poller_survives_exceptions :
  (forall (contract_filter : FilterParams) (c c' : Config W) (e : Exn),
      loop_try env contract_filter c = (Raise e, c') ->
      loop_body env contract_filter c = (Ok tt, after_backoff env e c'))
  /\ (forall (contract_filter : FilterParams) (c c1 : Config W) (e : Exn),
      get_block_number env c = (Raise e, c1) ->
      loop_body env contract_filter c = (Ok tt, after_backoff env e c1))
  /\ (forall (h : Handler) (event : LogEntry) (c : Config W),
      fst (call_handler env h event c) = Ok tt)
  /\ (forall (event : LogEntry) (c : Config W),
      fst (process_event env event c) = Ok tt)
  /\ (forall (before after : list LogEntry) (event : LogEntry) (c : Config W),
      for_each (process_event env) (before ++ event :: after) c
      = for_each (process_event env) after
          (snd (process_event env event
                  (snd (for_each (process_event env) before c)))))
  /\ (forall (contract_filter : FilterParams) (c : Config W),
      fst (loop_body env contract_filter c) = Ok tt)
  /\ (forall (fuel : nat) (contract_filter : FilterParams) (c : Config W),
      exists r, fst (indexer_loop env fuel contract_filter c) = Ok r)
  /\ (forall (fuel : nat) (contract_filter : FilterParams) (c c1 : Config W),
      read_stop_indexing env c = (Ok false, c1) ->
      indexer_loop env (S fuel) contract_filter c
      = indexer_loop env fuel contract_filter
          (snd (loop_body env contract_filter c1))).
Proof.
  split; [exact loop_body_catches|].
  split.
  { intros cf c c1 e H1. apply loop_body_catches.
    unfold loop_try. unfold bind at 1. rewrite H1. reflexivity. }
  split; [exact call_handler_returns|].
  split; [exact process_event_returns|].
  split.
  { intros before after event c. rewrite for_each_process_event_app.
    cbn [for_each]. unfold bind.
    pose proof (process_event_returns event
                  (snd (for_each (process_event env) before c))) as Hr.
    destruct (process_event env event _) as [o c']. cbn [fst] in Hr. subst o.
    reflexivity. }
  split; [exact loop_body_returns|].
  split; [intros fuel cf c; apply indexer_loop_returns|].
  exact indexer_loop_next_pass.
Qed.

(** ** Starting and stopping *)

(** C8: [stop()] on an indexer that is not running, never started or
    with a worker that is no longer alive, returns normally and leaves the
    indexer as it was, as the claim says it must; but it logs nothing, so
    the warning of the claim is missing: its only effect, when there is a
    thread object, is the [is_alive] query. ([PINAIAgentSDK.stop], which
    has the same [if], goes on with an [else] branch that logs the warning
    "No active polling thread to stop"; here that branch is absent.) *)
Theorem stop_when_not_running_is_silent (c : Config W) :
  (indexer_thread (self c) = None
   \/ exists t, indexer_thread (self c) = Some t
        /\ fst (thread_is_alive env t (world c)) = false) ->
  let r := stop env c in
  fst r = Ok tt
  /\ self (snd r) = self c
  /\ trace (snd r)
     = trace c ++ match indexer_thread (self c) with
                  | None => []
                  | Some t => [EThreadIsAlive t]
                  end
  /\ List.filter is_log (trace (snd r)) = List.filter is_log (trace c).
Proof.
  intros Hnot r. subst r. unfold stop, bind, get_self, extern, ret.
  cbn beta iota.
  destruct Hnot as [Hnone | (t & Hsome & Hdead)].
  - rewrite Hnone. cbn. rewrite app_nil_r. repeat split.
  - rewrite Hsome. cbn [self world trace].
    destruct (thread_is_alive env t (world c)) as [b w']. cbn [fst] in Hdead. subst b.
    cbn. repeat split.
    rewrite List.filter_app. cbn. apply app_nil_r.
Qed.

End Properties.

(** ** Concrete runs *)

Lemma order_created_posts_one_bid_witness :
  http_posts
    (trace (snd (process_event (scripted false) order_created_5_abc
                   (demo_config false 100 quiet))))
  = [("http://localhost:3000/bid"%string,
      JObj [("orderId"%string, JInt 5);
            ("userId"%string, JStr "0x0000000000000000000000000000000000000abc");
            ("agentId"%string, JInt 0);
            ("amount"%string, JInt 100)])].
Proof.
  pose proof (order_created_posts_one_bid (scripted false) order_created_5_abc
                (word32 [x05]) (word32 [x0a; xbc]) [] (demo_config false 100 quiet))
    as H.
  specialize (H eq_refl eq_refl).
  specialize (H ltac:(discriminate) eq_refl eq_refl).
  exact (proj2 H).
Defined.

Lemma dispatch_without_handler_is_noop_witness :
  process_event (scripted false) entry_without_topics (demo_config false 100 quiet)
  = (Ok tt,
     with_effects (demo_config false 100 quiet)
       [ELog INFO "Processing event: {}" [LEvent entry_without_topics];
        ELog ERROR "Error processing event: {}" [LExn IndexError]]).
Proof.
  exact (dispatch_without_handler_is_noop (scripted false) entry_without_topics
           (demo_config false 100 quiet) (or_introl eq_refl)).
Defined.

Lemma order_matched_failure_keeps_state_witness :
  current_order_id
    (self (snd (handle_order_matched (scripted false) order_matched_7
                  (config_after_order_3 reverting_contract))))
  = Some 3%Z.
Proof.
  pose proof (order_matched_failure_keeps_state (scripted false) order_matched_7
                (config_after_order_3 reverting_contract)) as H.
  assert (Hfail :
    (exists e, fst (topic_order_id (scripted false) order_matched_7
                      (config_after_order_3 reverting_contract)) = Raise e)
    \/ (exists order_id e,
          fst (topic_order_id (scripted false) order_matched_7
                 (config_after_order_3 reverting_contract)) = Ok order_id
          /\ fst (getOrder (scripted false) order_id
                    (config_after_order_3 reverting_contract)) = Raise e)).
  { right. exists 7%Z, (LibraryError "execution reverted").
    split; vm_compute; reflexivity. }
  destruct (H Hfail) as (_ & _ & Hid). exact Hid.
Defined.

Lemma idle_pass_fetches_nothing_witness :
  fetches (trace (snd (loop_body (scripted false) contract_filter_of_demo
                         (demo_config false 101 failing_fetch)))) = []
  /\ last_processed_block
       (snd (loop_body (scripted false) contract_filter_of_demo
               (demo_config false 101 failing_fetch))) = 101%Z.
Proof.
  pose proof (idle_pass_fetches_nothing (scripted false) contract_filter_of_demo
                (demo_config false 101 failing_fetch)
                (snd (get_block_number (scripted false)
                        (demo_config false 101 failing_fetch)))
                101%Z) as H.
  specialize (H ltac:(reflexivity) ltac:(discriminate)).
  destruct H as (_ & _ & Hf & _ & _ & Hc & _). split; [exact Hf | exact Hc].
Defined.

Lemma cursor_advanced_before_fetch_witness :
  last_processed_block
    (snd (loop_body (scripted false) contract_filter_of_demo
            (demo_config false 100 failing_fetch))) = 101%Z.
Proof.
  pose proof (cursor_advanced_before_fetch (scripted false) contract_filter_of_demo
                (demo_config false 100 failing_fetch)
                (snd (get_block_number (scripted false)
                        (demo_config false 100 failing_fetch)))
                (snd (get_block_number (scripted false)
                        (snd (get_block_number (scripted false)
                                (demo_config false 100 failing_fetch)))))
                101%Z 101%Z) as H.
  specialize (H ltac:(reflexivity) ltac:(reflexivity)
                ltac:(reflexivity)).
  destruct H as (_ & _ & Hc & _). exact Hc.
Defined.

Lemma stop_when_not_running_is_silent_witness :
  trace (snd (stop (scripted false) (demo_config false 0 quiet))) = [].
Proof.
  destruct (stop_when_not_running_is_silent (scripted false)
              (demo_config false 0 quiet) (or_introl eq_refl)) as (_ & _ & H & _).
  exact H.
Defined.

(** ** Where the code and the specification part *)

(** Against C2 as stated: over two passes in which the height advances,
    two filters are created, not one, and the second fetch asks for the
    changes of the second filter, not of the first. *)
Lemma poller_creates_a_filter_per_pass :
  let t := trace (snd (run_indexer (scripted false) 2
                         (demo_config false 0 two_blocks))) in
  filters_created t = [contract_filter_of_demo; contract_filter_of_demo]
  /\ fetches t = [1; 2]%Z
  /\ List.length (filters_created t) <> 1%nat.
Proof. vm_compute. repeat split. discriminate. Qed.

(** C3: the cursor starts at 0, but it can go down: when the height
    read for the comparison is above the cursor and the height read again
    for the assignment is below it, the lower one is stored. Here the
    readings are 11, 11, then 12 and 4. *)
Theorem cursor_regresses_on_lower_second_reading :
  last_processed_block
    (snd (run_indexer (scripted false) 0 (demo_config false 77 lagging_node))) = 0%Z
  /\ last_processed_block
       (snd (run_indexer (scripted false) 1 (demo_config false 77 lagging_node))) = 11%Z
  /\ last_processed_block
       (snd (run_indexer (scripted false) 2 (demo_config false 77 lagging_node))) = 4%Z.
Proof. vm_compute. repeat split. Qed.

(** C10: the cursor is assigned before the fetch and is not rolled back
    when the fetch raises, but what is assigned is the height read again,
    not the height that was compared, so a failed height can be fetched
    again. At cursor 11 the height is 12 when compared and 4 when read
    again, and the fetch raises: the pass ends with the cursor at 4, below
    both the new height and the old cursor. In the next pass the height is
    12 again, the guard lets it through and a second fetch is made for the
    height whose fetch had failed. *)
Theorem stale_second_reading_refetches :
  let c0 := demo_config false 11 stale_read_then_retry in
  let c1 := snd (loop_body (scripted false) contract_filter_of_demo c0) in
  let c2 := snd (loop_body (scripted false) contract_filter_of_demo c1) in
  fst (get_block_number (scripted false) c0) = Ok 12%Z
  /\ fst (get_block_number (scripted false) c1) = Ok 12%Z
  /\ last_processed_block c0 = 11%Z
  /\ last_processed_block c1 = 4%Z
  /\ trace c1
     = [EGetBlockNumber; EGetBlockNumber; ENewFilter contract_filter_of_demo;
        EGetFilterChanges 1%Z;
        ELog ERROR "Error in indexer: {}" [LExn (LibraryError "connection reset")];
        ESleep 1000]
  /\ fetches (trace c1) = [1%Z]
  /\ fetches (trace c2) = [1%Z; 2%Z]
  /\ last_processed_block c2 = 12%Z.
Proof. vm_compute. repeat split. Qed.

(** Against C4 as stated: an [IndexError] raised while an entry is
    processed is logged by the dispatcher, and the pass goes on to its
    short sleep; the loop neither logs it nor sleeps the backoff. *)
Lemma malformed_entry_costs_no_backoff :
  let t := trace (snd (loop_body (scripted false) contract_filter_of_demo
                         (demo_config false 100 one_malformed_entry))) in
  fst (event_topic (W := Script) entry_without_topics 0
         (demo_config false 100 one_malformed_entry)) = Raise IndexError
  /\ In (ELog ERROR "Error processing event: {}" [LExn IndexError]) t
  /\ In (ESleep 100) t
  /\ ~ In (ESleep 1000) t
  /\ forall e, ~ In (ELog ERROR "Error in indexer: {}" [LExn e]) t.
Proof.
  vm_compute. split; [reflexivity|].
  split; [tauto|]. split; [tauto|].
  split.
  - intros H. repeat (destruct H as [H|H]; [discriminate H|]). exact H.
  - intros e H. repeat (destruct H as [H|H]; [discriminate H|]). exact H.
Qed.

(** [stop()] on an indexer that was never started has no effect at all,
    so it logs no warning. *)
Lemma stop_never_started_logs_no_warning :
  trace (snd (stop (scripted false) (demo_config false 0 quiet))) = []
  /\ ~ exists text args,
        In (ELog WARNING text args)
           (trace (snd (stop (scripted false) (demo_config false 0 quiet)))).
Proof.
  vm_compute. split; [reflexivity|]. intros (text & args & []).
Qed.


(** * Further properties of the indexer *)

Section Coverage.

Context {W : Type} (env : Env W).

Local Open Scope string_scope.
Local Open Scope list_scope.

(** ** Kinds of effects, method by method *)

Lemma emits_of_same_trace {A} (p : Effect -> bool) (m : M W A) :
  (forall c, trace (snd (m c)) = trace c) -> emits p m.
Proof.
  intros Hsame c. exists []. rewrite Hsame, app_nil_r. split; reflexivity.
Qed.

Lemma ret_emits {A} (p : Effect -> bool) (a : A) : emits p (ret (W := W) a).
Proof. apply emits_of_same_trace. reflexivity. Qed.

Lemma raise_emits {A} (p : Effect -> bool) (e : Exn) :
  emits p (raise (W := W) (A := A) e).
Proof. apply emits_of_same_trace. reflexivity. Qed.

Lemma lift_emits {A} (p : Effect -> bool) (o : outcome A) :
  emits p (lift (W := W) o).
Proof. apply emits_of_same_trace. reflexivity. Qed.

Lemma get_self_emits (p : Effect -> bool) : emits p (get_self (W := W)).
Proof. apply emits_of_same_trace. reflexivity. Qed.

Lemma get_cursor_emits (p : Effect -> bool) : emits p (get_cursor (W := W)).
Proof. apply emits_of_same_trace. reflexivity. Qed.

Lemma set_cursor_emits (p : Effect -> bool) (h : Z) :
  emits p (set_cursor (W := W) h).
Proof. apply emits_of_same_trace. reflexivity. Qed.

Lemma modify_self_emits (p : Effect -> bool) (f : Indexer -> Indexer) :
  emits p (modify_self (W := W) f).
Proof. apply emits_of_same_trace. reflexivity. Qed.

Lemma extern_emits {A} (p : Effect -> bool) (eff : Effect)
    (f : W -> outcome A * W) :
  p eff = true -> emits p (extern eff f).
Proof.
  intros Hp c. unfold extern. destruct (f (world c)) as [r w'].
  exists [eff]. cbn. rewrite Hp. split; reflexivity.
Qed.

Lemma bind_emits {A B} (p : Effect -> bool) (m : M W A) (k : A -> M W B) :
  emits p m -> (forall a, emits p (k a)) -> emits p (bind m k).
Proof.
  intros Hm Hk c. unfold bind. destruct (Hm c) as (es & Hes & Hp).
  destruct (m c) as [[a|e] c']; cbn [snd] in *; [|exists es; split; assumption].
  destruct (Hk a c') as (es' & Hes' & Hp').
  exists (es ++ es'). rewrite Hes', Hes, app_assoc, forallb_app, Hp, Hp'.
  split; reflexivity.
Qed.

Lemma try_except_emits {A} (p : Effect -> bool) (body : M W A)
    (handler : Exn -> M W A) :
  emits p body -> (forall e, emits p (handler e)) -> emits p (try_except body handler).
Proof.
  intros Hb Hh c. unfold try_except. destruct (Hb c) as (es & Hes & Hp).
  destruct (body c) as [[a|e] c']; cbn [snd] in *; [exists es; split; assumption|].
  destruct (Hh e c') as (es' & Hes' & Hp').
  exists (es ++ es'). rewrite Hes', Hes, app_assoc, forallb_app, Hp, Hp'.
  split; reflexivity.
Qed.

Lemma for_each_emits {A} (p : Effect -> bool) (f : A -> M W unit) (l : list A) :
  (forall a, emits p (f a)) -> emits p (for_each f l).
Proof.
  intros Hf. induction l as [|x rest IH]; cbn [for_each].
  - apply ret_emits.
  - apply bind_emits; [apply Hf | intros _; exact IH].
Qed.

Lemma emits_weaken {A} (p q : Effect -> bool) (m : M W A) :
  (forall e, p e = true -> q e = true) -> emits p m -> emits q m.
Proof.
  intros Hpq Hm c. destruct (Hm c) as (es & Hes & Hp).
  exists es. split; [exact Hes|].
  rewrite forallb_forall in *. intros e He. apply Hpq, Hp, He.
Qed.

Ltac emits_steps :=
  repeat first
    [ apply ret_emits | apply raise_emits | apply lift_emits
    | apply get_self_emits | apply get_cursor_emits | apply set_cursor_emits
    | apply modify_self_emits
    | apply extern_emits; reflexivity
    | apply bind_emits; [|intros ?]
    | apply try_except_emits; [|intros ?]
    | match goal with
      | |- emits _ (match ?x with _ => _ end) => destruct x
      | |- emits _ (if ?b then _ else _) => destruct b
      end ].

Lemma topic_order_id_emits (p : Effect -> bool) (event : LogEntry) :
  emits p (topic_order_id env event).
Proof. unfold topic_order_id, event_topic. emits_steps. Qed.

Lemma getOrder_emits (order_id : Z) : emits reading_effect (getOrder env order_id).
Proof. unfold getOrder. emits_steps. Qed.

Lemma submit_bid_emits (bid_data : Json) : emits handler_effect (submit_bid env bid_data).
Proof.
  unfold submit_bid.
  apply bind_emits; [apply modify_self_emits|]. intros _.
  apply bind_emits; [apply get_self_emits|]. intros s.
  destruct (base_url s) as [[|a base]|]; unfold logger; emits_steps.
Qed.

Lemma reading_is_handler_effect (e : Effect) :
  reading_effect e = true -> handler_effect e = true.
Proof. destruct e; cbn; congruence. Qed.

Lemma handle_order_matched_emits (event : LogEntry) :
  emits reading_effect (handle_order_matched env event).
Proof.
  unfold handle_order_matched, logger.
  apply try_except_emits; [|intros e; emits_steps].
  apply bind_emits; [apply topic_order_id_emits|]. intros order_id.
  apply bind_emits; [apply getOrder_emits|]. intros order.
  emits_steps.
Qed.

Lemma handle_order_completed_emits (event : LogEntry) :
  emits reading_effect (handle_order_completed env event).
Proof.
  unfold handle_order_completed, logger.
  apply try_except_emits; [|intros e; emits_steps].
  apply bind_emits; [apply topic_order_id_emits|]. intros order_id.
  apply bind_emits; [apply getOrder_emits|]. intros order.
  emits_steps.
Qed.

Lemma handle_order_created_emits (event : LogEntry) :
  emits handler_effect (handle_order_created env event).
Proof.
  unfold handle_order_created, logger.
  apply try_except_emits; [|intros e; emits_steps].
  apply bind_emits; [apply topic_order_id_emits|]. intros order_id.
  apply bind_emits; [unfold event_topic; emits_steps|]. intros t2.
  apply bind_emits; [emits_steps|]. intros _.
  apply submit_bid_emits.
Qed.

Lemma call_handler_emits (h : Handler) (event : LogEntry) :
  emits handler_effect (call_handler env h event).
Proof.
  destruct h; cbn [call_handler].
  - apply handle_order_created_emits.
  - eapply emits_weaken; [exact reading_is_handler_effect|].
    apply handle_order_matched_emits.
  - apply ret_emits.
  - eapply emits_weaken; [exact reading_is_handler_effect|].
    apply handle_order_completed_emits.
Qed.

(** ** Reading the effects of a kind *)

Lemma handler_effects_read (es : list Effect) :
  forallb handler_effect es = true ->
  dispatched es = [] /\ fetches es = [] /\ filters_created es = []
  /\ threads_started es = [].
Proof.
  induction es as [|e es IH]; [repeat split|].
  cbn [forallb]. intros [He Hes]%andb_prop. destruct (IH Hes) as (Hd & Hf & Hc & Ht).
  destruct e; cbn in He; try discriminate;
    cbn [dispatched fetches filters_created threads_started]; repeat split; try assumption.
  destruct lvl; try assumption.
  destruct args as [|a [|a' args]]; try assumption; destruct a; try assumption.
  destruct (String.eqb text "Processing event: {}"); [discriminate | assumption].
Qed.

Lemma reading_effects_read (es : list Effect) :
  forallb reading_effect es = true -> http_posts es = [].
Proof.
  induction es as [|e es IH]; [reflexivity|].
  cbn [forallb]. intros [He Hes]%andb_prop.
  destruct e; cbn in He; try discriminate; cbn [http_posts]; apply IH, Hes.
Qed.

Lemma worker_effects_read (es : list Effect) :
  forallb worker_effect es = true -> threads_started es = [].
Proof.
  induction es as [|e es IH]; [reflexivity|].
  cbn [forallb]. intros [He Hes]%andb_prop.
  destruct e; cbn in He; try discriminate; cbn [threads_started]; apply IH, Hes.
Qed.

Lemma orders_read_app (t1 t2 : list Effect) :
  orders_read (t1 ++ t2) = orders_read t1 ++ orders_read t2.
Proof.
  induction t1 as [|e t1 IH]; [reflexivity|].
  destruct e; cbn [orders_read app]; rewrite IH; reflexivity.
Qed.

Lemma threads_started_app (t1 t2 : list Effect) :
  threads_started (t1 ++ t2) = threads_started t1 ++ threads_started t2.
Proof.
  induction t1 as [|e t1 IH]; [reflexivity|].
  destruct e; cbn [threads_started app]; rewrite IH; reflexivity.
Qed.

(** ** Decoding the order id *)

Lemma topic_order_id_run (event : LogEntry) (c : Config W) :
  topic_order_id env event c
  = (match nth_error (topics event) 1 with
     | None => Raise IndexError
     | Some [] => Raise ValueError
     | Some (b :: rest) => Ok (be_value (b :: rest))
     end, c).
Proof.
  unfold topic_order_id, bind, event_topic, lift, ret, raise, hex.
  destruct (nth_error (topics event) 1) as [[|b rest]|]; [| |reflexivity].
  - rewrite py_int_16_of_empty. reflexivity.
  - rewrite py_int_16_of_hex by discriminate. reflexivity.
Qed.

(** [int(event['topics'][1].hex(), 16)] is the big-endian value of topic
    1, with either hexbytes convention; it raises [IndexError] when there
    is no topic 1 and [ValueError] when topic 1 is empty; it has no
    effect. *)
Theorem topic_order_id_decodes_big_endian (event : LogEntry) (c : Config W) :
  topic_order_id env event c
  = (match nth_error (topics event) 1 with
     | None => Raise IndexError
     | Some [] => Raise ValueError
     | Some (b :: rest) => Ok (be_value (b :: rest))
     end, c).
Proof. apply topic_order_id_run. Qed.

Lemma fold_be_bounds (bs : HexBytes) :
  forall (acc : Z) (k : nat),
    (0 <= acc < 256 ^ Z.of_nat k)%Z ->
    (0 <= fold_left (fun a b => (a * 256 + Z.of_N (Byte.to_N b))%Z) bs acc
       < 256 ^ Z.of_nat (k + List.length bs))%Z.
Proof.
  induction bs as [|b rest IH]; intros acc k Hacc; cbn [fold_left List.length].
  - replace (k + 0)%nat with k by lia. exact Hacc.
  - replace (k + S (List.length rest))%nat with (S k + List.length rest)%nat by lia.
    apply IH.
    pose proof (Byte.to_N_bounded b) as Hb.
    rewrite Nat2Z.inj_succ, Z.pow_succ_r by lia. lia.
Qed.

(** An order id decoded from a topic of [n] bytes lies in
    [0 .. 256^n - 1]; from a 32-byte topic, in the range of [uint256]. *)
Theorem decoded_order_id_in_range (event : LogEntry) (t : HexBytes) (c : Config W) :
  nth_error (topics event) 1 = Some t ->
  t <> [] ->
  exists order_id,
    topic_order_id env event c = (Ok order_id, c)
    /\ (0 <= order_id < 256 ^ Z.of_nat (List.length t))%Z.
Proof.
  intros Ht Hne. exists (be_value t). split.
  - rewrite topic_order_id_run, Ht.
    destruct t; [congruence | reflexivity].
  - apply (fold_be_bounds t 0 0). cbn. lia.
Qed.

(** ** The signature table *)

Lemma signature_table_order_matched :
  signature_table env !! hex env (Web3_keccak EventSignatures.OrderMatched)
  = Some H_order_matched.
Proof.
  unfold signature_table, hex. destruct (hex_prefixed env); vm_compute; reflexivity.
Qed.

Lemma signature_table_addresses_tracked :
  signature_table env !! hex env (Web3_keccak EventSignatures.AddressesTracked)
  = Some H_addresses_tracked.
Proof.
  unfold signature_table, hex. destruct (hex_prefixed env); vm_compute; reflexivity.
Qed.

Lemma signature_table_order_completed :
  signature_table env !! hex env (Web3_keccak EventSignatures.OrderCompleted)
  = Some H_order_completed.
Proof.
  unfold signature_table, hex. destruct (hex_prefixed env); vm_compute; reflexivity.
Qed.

(** The four event signatures hash to four different keys: the table
    built by [__init__] has four entries and sends the digest of each
    signature to the handler of that event, with either hexbytes
    convention. *)
Theorem signature_table_has_four_handlers :
  size (signature_table env) = 4%nat
  /\ signature_table env !! hex env (Web3_keccak EventSignatures.OrderCreated)
     = Some H_order_created
  /\ signature_table env !! hex env (Web3_keccak EventSignatures.OrderMatched)
     = Some H_order_matched
  /\ signature_table env !! hex env (Web3_keccak EventSignatures.AddressesTracked)
     = Some H_addresses_tracked
  /\ signature_table env !! hex env (Web3_keccak EventSignatures.OrderCompleted)
     = Some H_order_completed.
Proof.
  split.
  - unfold signature_table, hex. destruct (hex_prefixed env); vm_compute; reflexivity.
  - repeat split.
    + unfold signature_table, hex. destruct (hex_prefixed env); vm_compute; reflexivity.
    + apply signature_table_order_matched.
    + apply signature_table_addresses_tracked.
    + apply signature_table_order_completed.
Qed.

(** ** The OrderCreated handler on every entry *)

(** The handler either fails before the bid, with one error line and
    nothing else, or logs the order and submits one bid. *)
Lemma handle_order_created_cases (event : LogEntry) (c : Config W) :
  (exists e,
      (nth_error (topics event) 1 = None \/ nth_error (topics event) 1 = Some []
       \/ nth_error (topics event) 2 = None)
      /\ handle_order_created env event c
         = (Ok tt,
            with_effects c
              [ELog ERROR "Error handling OrderCreated event: {}" [LExn e]]))
  \/ (exists t1 t2 lvl text args w',
      nth_error (topics event) 1 = Some t1 /\ t1 <> []
      /\ nth_error (topics event) 2 = Some t2
      /\ let user_address := ("0x" ++ py_suffix 40 (hex env t2))%string in
         let bid_data :=
           JObj [("orderId", JInt (be_value t1)); ("userId", JStr user_address);
                 ("agentId", JInt 0); ("amount", JInt 100)] in
         handle_order_created env event c
         = (Ok tt,
            Build_Config
              (set_base_url (Some "http://localhost:3000") (self c))
              (last_processed_block c) w'
              (trace c ++
                 [ELog INFO "Order created - ID: {}, User: {}"
                    [LInt (be_value t1); LStr user_address];
                  EHttpPost "http://localhost:3000/bid" bid_data
                    [("Content-Type", "application/json")];
                  ELog lvl text args]))).
Proof.
  remember (handle_order_created env event c) as r eqn:Hr.
  unfold handle_order_created, try_except in Hr. unfold bind at 1 in Hr.
  rewrite topic_order_id_run in Hr.
  destruct (nth_error (topics event) 1) as [[|b t1]|] eqn:H1.
  - left. exists ValueError. split; [auto|]. subst r. reflexivity.
  - unfold bind at 1, event_topic at 1 in Hr.
    destruct (nth_error (topics event) 2) as [t2|] eqn:H2.
    + right. unfold ret at 1 in Hr. cbn beta iota in Hr.
      unfold bind at 1, logger at 1, extern at 1 in Hr. cbn beta iota in Hr.
      match type of Hr with
      | context [submit_bid env ?bd ?c1] =>
          destruct (submit_bid_run env bd c1) as (lvl & text & args & w' & Hrun);
          rewrite Hrun in Hr
      end.
      exists (b :: t1), t2, lvl, text, args, w'.
      split; [reflexivity|]. split; [discriminate|]. split; [reflexivity|].
      cbv zeta. subst r. cbn [self last_processed_block world trace].
      rewrite <- app_assoc. reflexivity.
    + left. exists IndexError. split; [auto|]. subst r. reflexivity.
  - left. exists IndexError. split; [auto|]. subst r. reflexivity.
Qed.

(** An OrderCreated entry that lacks topic 1 or topic 2, or whose topic
    1 is empty, is dropped by the handler: no bid is posted, the indexer
    and the world are as before, and one error line is logged. *)
Theorem order_created_without_topics_posts_nothing (event : LogEntry)
    (c : Config W) :
  (nth_error (topics event) 1 = None \/ nth_error (topics event) 1 = Some []
   \/ nth_error (topics event) 2 = None) ->
  exists e,
    handle_order_created env event c
    = (Ok tt,
       with_effects c [ELog ERROR "Error handling OrderCreated event: {}" [LExn e]])
    /\ http_posts (trace (snd (handle_order_created env event c)))
       = http_posts (trace c).
Proof.
  intros Hbad.
  destruct (handle_order_created_cases event c)
    as [(e & _ & Hrun) | (t1 & t2 & lvl & text & args & w' & H1 & Hne & H2 & _)].
  - exists e. split; [exact Hrun|]. rewrite Hrun. cbn [snd with_effects trace].
    rewrite http_posts_app. cbn. apply app_nil_r.
  - exfalso. destruct Hbad as [Hb | [Hb | Hb]]; congruence.
Qed.

Lemma string_of_list_ascii_length (l : list ascii) :
  String.length (string_of_list_ascii l) = List.length l.
Proof. induction l as [|a l IH]; cbn; [reflexivity | rewrite IH; reflexivity]. Qed.

(** For every order id and every topic 2 of at least 20 bytes, the one
    bid the handler posts carries the value of topic 1 as [orderId] and,
    as [userId], a text of 42 characters: [0x] and the 40 hexadecimal
    digits of the last 20 bytes of topic 2. *)
Theorem order_created_bid_fields (event : LogEntry) (t1 t2 : HexBytes)
    (c : Config W) :
  nth_error (topics event) 1 = Some t1 ->
  t1 <> [] ->
  nth_error (topics event) 2 = Some t2 ->
  (20 <= List.length t2)%nat ->
  let user_address :=
    ("0x" ++ string_of_list_ascii (lastn 40 (hex_digits t2)))%string in
  http_posts (trace (snd (handle_order_created env event c)))
  = http_posts (trace c) ++
    [("http://localhost:3000/bid",
      JObj [("orderId", JInt (be_value t1)); ("userId", JStr user_address);
            ("agentId", JInt 0); ("amount", JInt 100)])]
  /\ String.length user_address = 42%nat.
Proof.
  intros H1 Hne H2 Hlen user_address. split.
  - destruct (handle_order_created_cases event c)
      as [(e & Hbad & _) | (t1' & t2' & lvl & text & args & w' & H1' & _ & H2' & Hrun)].
    + exfalso. destruct Hbad as [Hb | [Hb | Hb]]; congruence.
    + assert (t1' = t1) by congruence. assert (t2' = t2) by congruence. subst t1' t2'.
      cbv zeta in Hrun. rewrite Hrun. cbn [snd trace].
      unfold hex. rewrite (py_suffix_40_of_hex _ _ Hlen).
      rewrite http_posts_app. cbn [http_posts]. reflexivity.
  - subst user_address.
    change (S (S (String.length (string_of_list_ascii (lastn 40 (hex_digits t2)))))
            = 42%nat).
    rewrite string_of_list_ascii_length. unfold lastn.
    rewrite length_skipn, hex_digits_length. lia.
Qed.

(** The handler does not check the width of topic 2: when it has fewer
    than 20 bytes the bid is still posted, and its [userId] is [0x]
    followed by the whole text of the topic, prefix included when the
    installed hexbytes writes one. *)
Theorem order_created_short_topic_2 (event : LogEntry) (t1 t2 : HexBytes)
    (c : Config W) :
  nth_error (topics event) 1 = Some t1 ->
  t1 <> [] ->
  nth_error (topics event) 2 = Some t2 ->
  (List.length t2 <= 19)%nat ->
  http_posts (trace (snd (handle_order_created env event c)))
  = http_posts (trace c) ++
    [("http://localhost:3000/bid",
      JObj [("orderId", JInt (be_value t1));
            ("userId", JStr ("0x" ++ hex env t2)%string);
            ("agentId", JInt 0); ("amount", JInt 100)])].
Proof.
  intros H1 Hne H2 Hlen.
  destruct (handle_order_created_cases event c)
    as [(e & Hbad & _) | (t1' & t2' & lvl & text & args & w' & H1' & _ & H2' & Hrun)].
  - exfalso. destruct Hbad as [Hb | [Hb | Hb]]; congruence.
  - assert (t1' = t1) by congruence. assert (t2' = t2) by congruence. subst t1' t2'.
    cbv zeta in Hrun. rewrite Hrun. cbn [snd trace].
    assert (Hall : py_suffix 40 (hex env t2) = hex env t2).
    { unfold py_suffix, hex, HexBytes_hex.
      rewrite list_ascii_of_string_of_list_ascii.
      replace (List.length _ - 40)%nat with 0%nat; [reflexivity|].
      rewrite length_app, hex_digits_length.
      destruct (hex_prefixed env); cbn [List.length]; lia. }
    rewrite Hall, http_posts_app. cbn [http_posts]. reflexivity.
Qed.

(** ** What the bid submission logs *)

(** The line logged after the POST follows the answer of the backend: a
    success line for a 2xx answer with a JSON body, a failure line with
    the status code for any other status, and an error line when the
    request raises and also when a 2xx answer has a body that is not
    JSON. In every case the method returns normally and sends nothing
    again. *)
Theorem submit_bid_reports_the_answer (bid_data : Json) (c : Config W)
    (answer : outcome Response) (w' : W) :
  requests_post env "http://localhost:3000/bid" bid_data
    [("Content-Type", "application/json")] (world c) = (answer, w') ->
  submit_bid env bid_data c
  = (Ok tt,
     Build_Config
       (set_base_url (Some "http://localhost:3000") (self c))
       (last_processed_block c) w'
       (trace c ++
          [EHttpPost "http://localhost:3000/bid" bid_data
             [("Content-Type", "application/json")];
           match answer with
           | Raise e => ELog ERROR "Error submitting bid: {}" [LExn e]
           | Ok response =>
               if (200 <=? status_code response)%Z && (status_code response <? 300)%Z
               then match json response with
                    | Ok body => ELog INFO "Bid submitted successfully: {}" [LJson body]
                    | Raise e => ELog ERROR "Error submitting bid: {}" [LExn e]
                    end
               else ELog ERROR "Bid submission failed: {}"
                      [LInt (status_code response)]
           end])).
Proof.
  intros Hpost.
  unfold submit_bid, bind, modify_self, get_self, try_except, extern, logger, lift.
  cbn.
  destruct (requests_post env _ _ _ (world c)) as [ans w1] eqn:Hrun.
  injection Hpost as -> ->.
  destruct answer as [response|e].
  - destruct ((200 <=? status_code response)%Z && (status_code response <? 300)%Z).
    + destruct (json response) as [body|e]; cbn; rewrite <- app_assoc; reflexivity.
    + cbn. rewrite <- app_assoc. reflexivity.
  - cbn. rewrite <- app_assoc. reflexivity.
Qed.

(** ** The OrderCompleted handler *)

Lemma getOrder_run (order_id : Z) (c : Config W) (ct : Contract) :
  intent_matching_contract (self c) = Some ct ->
  getOrder env order_id c
  = (fst (getOrder_call env ct order_id (world c)),
     Build_Config (self c) (last_processed_block c)
       (snd (getOrder_call env ct order_id (world c)))
       (trace c ++ [EGetOrder ct order_id])).
Proof.
  intros Hct. unfold getOrder, bind, get_self, extern. cbn beta iota. rewrite Hct.
  destruct (getOrder_call env ct order_id (world c)); reflexivity.
Qed.

(** Whatever the entry and whatever the contract answers, the handler
    returns normally, leaves the indexer object and the cursor as they
    were, and posts nothing. *)
Theorem order_completed_changes_nothing (event : LogEntry) (c : Config W) :
  let r := handle_order_completed env event c in
  fst r = Ok tt
  /\ self (snd r) = self c
  /\ last_processed_block (snd r) = last_processed_block c
  /\ http_posts (trace (snd r)) = http_posts (trace c).
Proof.
  intros r. subst r.
  split; [apply (call_handler_returns env H_order_completed)|].
  split.
  { unfold handle_order_completed, try_except. unfold bind at 1.
    rewrite topic_order_id_run.
    destruct (nth_error (topics event) 1) as [[|b t1]|]; try reflexivity.
    unfold bind at 1.
    pose proof (getOrder_self env (be_value (b :: t1)) c) as Hs.
    destruct (getOrder env (be_value (b :: t1)) c) as [[order|e] c1];
      cbn [snd] in Hs; [|exact Hs].
    unfold bind. destruct (nth_error order 1); exact Hs. }
  split; [apply (call_handler_stable env H_order_completed event c)|].
  destruct (handle_order_completed_emits event c) as (es & Hes & Hp).
  rewrite Hes, http_posts_app, (reading_effects_read _ Hp). apply app_nil_r.
Qed.

(** With a decodable order id and an answer of the contract, the handler
    reads that order once and logs its second component as the amount; a
    tuple with fewer than two components gives an [IndexError] line
    instead. *)
Theorem order_completed_logs_amount (event : LogEntry) (t1 : HexBytes)
    (ct : Contract) (order : list AbiValue) (w' : W) (c : Config W) :
  nth_error (topics event) 1 = Some t1 ->
  t1 <> [] ->
  intent_matching_contract (self c) = Some ct ->
  getOrder_call env ct (be_value t1) (world c) = (Ok order, w') ->
  handle_order_completed env event c
  = (Ok tt,
     Build_Config (self c) (last_processed_block c) w'
       (trace c ++
          [EGetOrder ct (be_value t1);
           match nth_error order 1 with
           | Some amount =>
               ELog INFO "Order completed - ID: {}, Amount: {}"
                 [LInt (be_value t1); LAbi amount]
           | None =>
               ELog ERROR "Error handling OrderCompleted event: {}" [LExn IndexError]
           end])).
Proof.
  intros H1 Hne Hct Hcall.
  unfold handle_order_completed, try_except. unfold bind at 1.
  rewrite topic_order_id_run, H1.
  destruct t1 as [|b t1]; [congruence|].
  unfold bind at 1. rewrite (getOrder_run _ _ _ Hct), Hcall. cbn [fst snd].
  unfold bind, ret, raise, logger, extern.
  destruct (nth_error order 1); cbn; rewrite <- app_assoc; reflexivity.
Qed.

(** ** The dispatcher, handler by handler *)

Lemma process_event_undispatched (event : LogEntry) (c : Config W) :
  (topics event = []
   \/ exists t0 rest, topics event = t0 :: rest
        /\ event_signatures (self c) !! hex env t0 = None) ->
  process_event env event c
  = (Ok tt,
     with_effects c
       (ELog INFO "Processing event: {}" [LEvent event]
          :: match topics event with
             | [] => [ELog ERROR "Error processing event: {}" [LExn IndexError]]
             | _ :: _ => []
             end)).
Proof.
  intros [Hnil | (t0 & rest & Htopics & Hnone)];
    unfold process_event, try_except, bind, logger, extern, event_topic, get_self,
      ret, raise, with_effects.
  - rewrite Hnil. cbn. rewrite <- app_assoc. reflexivity.
  - rewrite Htopics. cbn. rewrite Hnone. reflexivity.
Qed.

Lemma process_event_dispatch (event : LogEntry) (t0 : HexBytes)
    (rest : list HexBytes) (h : Handler) (c : Config W) :
  topics event = t0 :: rest ->
  event_signatures (self c) !! hex env t0 = Some h ->
  process_event env event c
  = (Ok tt,
     with_effects
       (snd (call_handler env h event
               (with_effects c [ELog INFO "Processing event: {}" [LEvent event]])))
       [ELog DEBUG "Processed event with signature: {}" [LStr (hex env t0)]]).
Proof.
  intros Htopics Hlook.
  unfold process_event, try_except.
  unfold bind at 1, logger at 1, extern at 1. cbn beta iota.
  unfold bind at 1, event_topic at 1. rewrite Htopics. cbn [nth_error].
  unfold ret at 1. cbn beta iota.
  unfold bind at 1, get_self at 1. cbn beta iota. cbn [self].
  rewrite Hlook. unfold bind at 1.
  fold (with_effects c [ELog INFO "Processing event: {}" [LEvent event]]).
  pose proof (call_handler_returns env h event
                (with_effects c [ELog INFO "Processing event: {}" [LEvent event]]))
    as Hr.
  destruct (call_handler env h event _) as [o c2]. cbn [fst] in Hr. subst o.
  reflexivity.
Qed.

(** An AddressesTracked entry reaches its handler, which does nothing:
    the indexer, the cursor and the world are as before and the only
    effects are the two log lines of the dispatcher. *)
Theorem addresses_tracked_is_ignored (event : LogEntry) (rest : list HexBytes)
    (c : Config W) :
  event_signatures (self c) = signature_table env ->
  topics event = Web3_keccak EventSignatures.AddressesTracked :: rest ->
  process_event env event c
  = (Ok tt,
     with_effects c
       [ELog INFO "Processing event: {}" [LEvent event];
        ELog DEBUG "Processed event with signature: {}"
          [LStr (hex env (Web3_keccak EventSignatures.AddressesTracked))]]).
Proof.
  intros Htable Htopics.
  rewrite (process_event_dispatch event _ _ H_addresses_tracked c Htopics)
    by (rewrite Htable; apply signature_table_addresses_tracked).
  cbn [call_handler]. unfold handle_addresses_tracked, ret, with_effects.
  cbn [snd self last_processed_block world trace].
  rewrite <- app_assoc. reflexivity.
Qed.

(** An OrderMatched entry with a decodable order id, dispatched while the
    contract answers, makes one [getOrder] read for that id and records
    the id as the current order; nothing else of the indexer changes and
    nothing is posted. *)
Theorem order_matched_records_the_order (event : LogEntry) (t1 : HexBytes)
    (rest : list HexBytes) (ct : Contract) (order : list AbiValue) (w' : W)
    (c : Config W) :
  event_signatures (self c) = signature_table env ->
  topics event = Web3_keccak EventSignatures.OrderMatched :: t1 :: rest ->
  t1 <> [] ->
  intent_matching_contract (self c) = Some ct ->
  getOrder_call env ct (be_value t1) (world c) = (Ok order, w') ->
  process_event env event c
  = (Ok tt,
     Build_Config
       (set_current_order_id (Some (be_value t1)) (self c))
       (last_processed_block c) w'
       (trace c ++
          [ELog INFO "Processing event: {}" [LEvent event];
           EGetOrder ct (be_value t1);
           ELog INFO "Order matched - ID: {}" [LInt (be_value t1)];
           ELog DEBUG "Processed event with signature: {}"
             [LStr (hex env (Web3_keccak EventSignatures.OrderMatched))]])).
Proof.
  intros Htable Htopics Hne Hct Hcall.
  rewrite (process_event_dispatch event _ _ H_order_matched c Htopics)
    by (rewrite Htable; apply signature_table_order_matched).
  cbn [call_handler]. unfold handle_order_matched, try_except. unfold bind at 1.
  rewrite topic_order_id_run, Htopics. cbn [nth_error].
  destruct t1 as [|b t1]; [congruence|].
  unfold bind at 1. rewrite (getOrder_run (be_value (b :: t1)) _ ct) by exact Hct.
  cbn [with_effects world self last_processed_block trace]. rewrite Hcall.
  cbn [fst snd]. unfold bind, modify_self, logger, extern, with_effects.
  cbn [fst snd self last_processed_block world trace].
  rewrite <- !app_assoc. reflexivity.
Qed.

(** Dispatching one entry posts at most one bid, always to [/bid] of the
    local endpoint, and only when the entry's first topic selects the
    OrderCreated handler. *)
Theorem entry_causes_at_most_one_bid (event : LogEntry) (c : Config W) :
  let t' := trace (snd (process_event env event c)) in
  http_posts t' = http_posts (trace c)
  \/ (exists body t0 rest,
        http_posts t' = http_posts (trace c) ++ [("http://localhost:3000/bid", body)]
        /\ topics event = t0 :: rest
        /\ event_signatures (self c) !! hex env t0 = Some H_order_created).
Proof.
  intros t'. subst t'.
  destruct (topics event) as [|t0 rest] eqn:Htopics.
  { left. rewrite process_event_undispatched by (left; exact Htopics).
    rewrite Htopics. cbn [snd with_effects trace].
    rewrite http_posts_app. cbn. apply app_nil_r. }
  destruct (event_signatures (self c) !! hex env t0) as [h|] eqn:Hlook.
  2:{ left. rewrite process_event_undispatched by (right; eauto).
      rewrite Htopics. cbn [snd with_effects trace].
      rewrite http_posts_app. cbn. apply app_nil_r. }
  rewrite (process_event_dispatch event t0 rest h c Htopics Hlook).
  cbn [snd with_effects trace]. rewrite http_posts_app. cbn [http_posts].
  rewrite app_nil_r.
  set (c1 := with_effects c [ELog INFO "Processing event: {}" [LEvent event]]).
  assert (Hc1 : http_posts (trace c1) = http_posts (trace c)).
  { subst c1. cbn [with_effects trace]. rewrite http_posts_app. cbn. apply app_nil_r. }
  assert (Hquiet : forall m : M W unit,
             emits reading_effect m ->
             http_posts (trace (snd (m c1))) = http_posts (trace c)).
  { intros m Hm. destruct (Hm c1) as (es & Hes & Hp).
    rewrite Hes, http_posts_app, (reading_effects_read _ Hp), app_nil_r. exact Hc1. }
  destruct h; cbn [call_handler].
  - destruct (handle_order_created_cases event c1)
      as [(e & _ & Hrun) | (t1 & t2 & lvl & text & args & w' & _ & _ & _ & Hrun)].
    + left. rewrite Hrun. cbn [snd with_effects trace].
      rewrite http_posts_app. cbn. rewrite app_nil_r. exact Hc1.
    + right. cbv zeta in Hrun. rewrite Hrun. cbn [snd trace].
      rewrite http_posts_app, Hc1. cbn [http_posts].
      eexists _, t0, rest. split; [reflexivity|]. split; [reflexivity | exact Hlook].
  - left. apply Hquiet, handle_order_matched_emits.
  - left. apply Hquiet, ret_emits.
  - left. apply Hquiet, handle_order_completed_emits.
Qed.

(** ** One pass of the poll loop, step by step *)

(** The effects of dispatching one entry: the line that opens the
    dispatch, then effects of the handler kind only. *)
Lemma process_event_marks (event : LogEntry) (c : Config W) :
  exists es,
    trace (snd (process_event env event c))
    = trace c ++ ELog INFO "Processing event: {}" [LEvent event] :: es
    /\ forallb handler_effect es = true.
Proof.
  destruct (topics event) as [|t0 rest] eqn:Htopics.
  { rewrite process_event_undispatched by (left; exact Htopics).
    rewrite Htopics. eexists. split; reflexivity. }
  destruct (event_signatures (self c) !! hex env t0) as [h|] eqn:Hlook.
  2:{ rewrite process_event_undispatched by (right; eauto).
      rewrite Htopics. exists []. split; reflexivity. }
  rewrite (process_event_dispatch event t0 rest h c Htopics Hlook).
  destruct (call_handler_emits h event
              (with_effects c [ELog INFO "Processing event: {}" [LEvent event]]))
    as (es & Hes & Hp).
  exists (es ++ [ELog DEBUG "Processed event with signature: {}" [LStr (hex env t0)]]).
  cbn [snd with_effects trace] in *. rewrite Hes, <- !app_assoc.
  split; [reflexivity|]. rewrite forallb_app, Hp. reflexivity.
Qed.

Lemma for_each_process_event_trace (entries : list LogEntry) :
  forall c : Config W,
  exists es,
    trace (snd (for_each (process_event env) entries c)) = trace c ++ es
    /\ dispatched es = entries
    /\ fetches es = [] /\ filters_created es = [] /\ threads_started es = [].
Proof.
  induction entries as [|ev entries IH]; intros c.
  { exists []. cbn. rewrite app_nil_r. repeat split. }
  cbn [for_each]. unfold bind.
  pose proof (process_event_returns env ev c) as Hr.
  destruct (process_event_marks ev c) as (es1 & Hes1 & Hp1).
  destruct (process_event env ev c) as [o c1]. cbn [fst snd] in *. subst o.
  destruct (IH c1) as (es2 & Hes2 & Hd2 & Hf2 & Hc2 & Ht2).
  destruct (handler_effects_read _ Hp1) as (Hd1 & Hf1 & Hc1 & Ht1).
  exists ((ELog INFO "Processing event: {}" [LEvent ev] :: es1) ++ es2).
  rewrite Hes2, Hes1, <- app_assoc. split; [reflexivity|].
  rewrite dispatched_app, fetches_app, filters_created_app, threads_started_app.
  cbn [dispatched fetches filters_created threads_started String.eqb].
  rewrite Hd1, Hf1, Hc1, Ht1, Hd2, Hf2, Hc2, Ht2.
  repeat split.
Qed.

Lemma get_block_number_world (c c1 : Config W) (h : Z) :
  get_block_number env c = (Ok h, c1) ->
  eth_get_block_number env (world c) = (Ok h, world c1)
  /\ exists o, web3 (self c) = Some o.
Proof.
  unfold get_block_number, web3_eth, bind, get_self, ret, raise, extern.
  destruct (web3 (self c)) as [o|]; [|discriminate]. cbn [self world].
  destruct (eth_get_block_number env (world c)) as [r w'].
  intros [= -> <-]. split; [reflexivity | eauto].
Qed.

(** A pass that goes all the way: two height reads, the filter, the
    fetch, the dispatch of the batch, the short sleep. *)
Lemma loop_body_full_pass (contract_filter : FilterParams)
    (c c1 c2 : Config W) (h h' : Z) (fid : FilterId) (entries : list LogEntry)
    (w3 w4 : W) :
  get_block_number env c = (Ok h, c1) ->
  (last_processed_block c < h)%Z ->
  get_block_number env c1 = (Ok h', c2) ->
  eth_filter env contract_filter (world c2) = (Ok fid, w3) ->
  eth_get_filter_changes env fid w3 = (Ok entries, w4) ->
  let c5 :=
    Build_Config (self c) h' w4
      (trace c ++
         [EGetBlockNumber; EGetBlockNumber; ENewFilter contract_filter;
          EGetFilterChanges fid; ELog INFO "New entries: {}" [LEvents entries]]) in
  let c6 := snd (for_each (process_event env) entries c5) in
  loop_body env contract_filter c
  = (Ok tt,
     Build_Config (self c6) (last_processed_block c6)
       (time_sleep env 100 (world c6)) (trace c6 ++ [ESleep 100])).
Proof.
  intros H1 Hlt H2 H3 H4 c5 c6.
  rewrite (loop_body_advancing env contract_filter _ _ _ _ _ H1 Hlt H2).
  destruct (get_block_number_ok env _ _ _ H1) as (Hs1 & _ & Ht1).
  destruct (get_block_number_ok env _ _ _ H2) as (Hs2 & _ & Ht2).
  destruct (get_block_number_world _ _ _ H1) as (_ & o & Hweb).
  unfold try_except, fetch_and_dispatch.
  unfold bind at 1, new_filter, web3_eth.
  unfold bind at 1 2, get_self, ret, extern at 1.
  cbn [self world trace last_processed_block].
  rewrite Hs2, Hs1, Hweb. unfold ret. cbn beta iota.
  cbn [self world trace last_processed_block]. rewrite H3. cbn beta iota.
  unfold bind at 1, get_filter_changes, extern at 1.
  cbn [self world trace last_processed_block]. rewrite H4.
  unfold bind at 1, logger at 1, extern at 1. cbn beta iota.
  cbn [self world trace last_processed_block].
  unfold bind at 1.
  assert (Hc5 : Build_Config (self c) h' w4
                  ((((trace c2 ++ [ENewFilter contract_filter]) ++
                       [EGetFilterChanges fid]) ++
                      [ELog INFO "New entries: {}" [LEvents entries]])) = c5).
  { subst c5. rewrite Ht2, Ht1, <- !app_assoc. reflexivity. }
  rewrite Hc5. fold c6.
  pose proof (for_each_process_event_returns env entries c5) as Hr.
  subst c6. destruct (for_each (process_event env) entries c5) as [o5 c6].
  cbn [fst snd] in *. subst o5. reflexivity.
Qed.

(** In a pass in which the height has advanced, the filter was created
    and the fetch has answered, every fetched entry is handed to the
    dispatcher once, in the order of the batch; the pass makes that one
    fetch, on the filter just created, and ends with the short sleep. *)
Theorem batch_is_dispatched_in_order (contract_filter : FilterParams)
    (c c1 c2 : Config W) (h h' : Z) (fid : FilterId) (entries : list LogEntry)
    (w3 w4 : W) :
  get_block_number env c = (Ok h, c1) ->
  (last_processed_block c < h)%Z ->
  get_block_number env c1 = (Ok h', c2) ->
  eth_filter env contract_filter (world c2) = (Ok fid, w3) ->
  eth_get_filter_changes env fid w3 = (Ok entries, w4) ->
  let r := loop_body env contract_filter c in
  fst r = Ok tt
  /\ dispatched (trace (snd r)) = dispatched (trace c) ++ entries
  /\ fetches (trace (snd r)) = fetches (trace c) ++ [fid]
  /\ filters_created (trace (snd r)) = filters_created (trace c) ++ [contract_filter]
  /\ exists t, trace (snd r) = t ++ [ESleep 100].
Proof.
  intros H1 Hlt H2 H3 H4 r. subst r.
  rewrite (loop_body_full_pass contract_filter _ _ _ _ _ _ _ _ _ H1 Hlt H2 H3 H4).
  cbn [fst snd trace].
  match goal with
  | |- context [for_each (process_event env) entries ?c5] =>
      destruct (for_each_process_event_trace entries c5)
        as (es & Hes & Hd & Hf & Hc & _)
  end.
  cbn [trace] in Hes. rewrite Hes.
  rewrite !dispatched_app, !fetches_app, !filters_created_app, Hd, Hf, Hc.
  cbn [dispatched fetches filters_created app]. rewrite !app_nil_r.
  repeat split. eexists. reflexivity.
Qed.

(** A pass without a chain client ([self.web3] is [None]) makes no call
    at all: the [AttributeError] is logged and the worker sleeps the
    backoff. *)
Theorem pass_without_chain_client_backs_off (contract_filter : FilterParams)
    (c : Config W) :
  web3 (self c) = None ->
  loop_body env contract_filter c = (Ok tt, after_backoff env AttributeError c).
Proof.
  intros Hnone. apply loop_body_catches.
  unfold loop_try, get_block_number, web3_eth. unfold bind at 1 2 3, get_self.
  cbn beta iota. rewrite Hnone. reflexivity.
Qed.

(** When the height has advanced but the second height read raises, the
    cursor is not moved and no filter is created: the pass logs the error
    and sleeps the backoff. *)
Theorem failed_second_read_keeps_cursor (contract_filter : FilterParams)
    (c c1 c2 : Config W) (h : Z) (e : Exn) :
  get_block_number env c = (Ok h, c1) ->
  (last_processed_block c < h)%Z ->
  get_block_number env c1 = (Raise e, c2) ->
  loop_body env contract_filter c = (Ok tt, after_backoff env e c2)
  /\ last_processed_block (snd (loop_body env contract_filter c))
     = last_processed_block c
  /\ filters_created (trace (snd (loop_body env contract_filter c)))
     = filters_created (trace c).
Proof.
  intros H1 Hlt H2.
  destruct (get_block_number_ok env _ _ _ H1) as (_ & Hcur & Ht1).
  pose proof (get_block_number_stable env c1) as (Hcur2 & _ & _ & _ & es & Hes).
  rewrite H2 in Hcur2, Hes. cbn [snd] in Hcur2, Hes.
  assert (Hrun : loop_body env contract_filter c = (Ok tt, after_backoff env e c2)).
  { apply loop_body_catches. unfold loop_try.
    unfold bind at 1. rewrite H1.
    unfold bind at 1, get_cursor at 1. cbn beta iota. rewrite Hcur.
    destruct (Z.leb_spec h (last_processed_block c)) as [Hle|_]; [lia|].
    unfold bind at 1. rewrite H2. reflexivity. }
  rewrite Hrun. cbn [snd after_backoff last_processed_block trace].
  split; [reflexivity|]. split; [congruence|].
  assert (Hes' : filters_created es = []).
  { revert H2 Hes. unfold get_block_number, web3_eth, bind, get_self, ret, raise, extern.
    destruct (web3 (self c1)); cbn [self world].
    - destruct (eth_get_block_number env (world c1)) as [r w'].
      intros [= -> <-]. cbn [trace]. intros Hes%app_inv_head. subst es. reflexivity.
    - intros [= _ <-]. rewrite <- (app_nil_r (trace c1)) at 1.
      intros Hes%app_inv_head. subst es. reflexivity. }
  rewrite filters_created_app, Hes, filters_created_app, Hes', Ht1,
    filters_created_app.
  cbn [filters_created]. rewrite !app_nil_r. reflexivity.
Qed.

(** ** The four ways through a pass *)

Lemma loop_body_cases (contract_filter : FilterParams) (c : Config W) :
  (exists e c1,
      get_block_number env c = (Raise e, c1)
      /\ loop_body env contract_filter c = (Ok tt, after_backoff env e c1))
  \/ (exists h c1,
      get_block_number env c = (Ok h, c1)
      /\ (h <= last_processed_block c)%Z
      /\ loop_body env contract_filter c = (Ok tt, c1))
  \/ (exists h c1 e c2,
      get_block_number env c = (Ok h, c1)
      /\ (last_processed_block c < h)%Z
      /\ get_block_number env c1 = (Raise e, c2)
      /\ loop_body env contract_filter c = (Ok tt, after_backoff env e c2))
  \/ (exists h c1 h' c2,
      get_block_number env c = (Ok h, c1)
      /\ (last_processed_block c < h)%Z
      /\ get_block_number env c1 = (Ok h', c2)
      /\ loop_body env contract_filter c
         = try_except (fetch_and_dispatch env contract_filter)
             (fun e => bind (logger ERROR "Error in indexer: {}" [LExn e])
                         (fun _ => sleep env 1000))
             (Build_Config (self c2) h' (world c2) (trace c2))).
Proof.
  destruct (get_block_number env c) as [[h|e] c1] eqn:H1.
  2:{ left. exists e, c1. split; [reflexivity|].
      apply loop_body_catches. unfold loop_try. unfold bind at 1. rewrite H1.
      reflexivity. }
  destruct (Z.le_gt_cases h (last_processed_block c)) as [Hle|Hlt].
  { right. left. exists h, c1. split; [reflexivity|]. split; [exact Hle|].
    apply (loop_body_idle env _ _ _ _ H1 Hle). }
  destruct (get_block_number env c1) as [[h'|e] c2] eqn:H2.
  - right. right. right. exists h, c1, h', c2.
    repeat split; try assumption.
    apply (loop_body_advancing env _ _ _ _ _ _ H1 Hlt H2).
  - right. right. left. exists h, c1, e, c2.
    repeat split; try assumption.
    destruct (get_block_number_ok env _ _ _ H1) as (_ & Hcur & _).
    apply loop_body_catches. unfold loop_try.
    unfold bind at 1. rewrite H1.
    unfold bind at 1, get_cursor at 1. cbn beta iota. rewrite Hcur.
    destruct (Z.leb_spec h (last_processed_block c)) as [Hle|_]; [lia|].
    unfold bind at 1. rewrite H2. reflexivity.
Qed.

(** A height read, whatever its outcome, creates no filter, makes no
    fetch and leaves the cursor. *)
Lemma get_block_number_quiet (c : Config W) :
  last_processed_block (snd (get_block_number env c)) = last_processed_block c
  /\ exists es,
    trace (snd (get_block_number env c)) = trace c ++ es
    /\ filters_created es = [] /\ fetches es = [].
Proof.
  unfold get_block_number, web3_eth, bind, get_self, ret, raise, extern.
  destruct (web3 (self c)); cbn [self world snd].
  - destruct (eth_get_block_number env (world c)) as [r w'].
    destruct r; (split; [reflexivity|]); exists [EGetBlockNumber]; repeat split.
  - split; [reflexivity|]. exists []. rewrite app_nil_r. repeat split.
Qed.

(** From the filter call on, a pass creates at most one filter and makes
    at most one fetch, and no fetch without a filter. *)
Lemma fetch_and_dispatch_counts (contract_filter : FilterParams) (c : Config W) :
  exists nf nq,
    filters_created (trace (snd (fetch_and_dispatch env contract_filter c)))
    = filters_created (trace c) ++ nf
    /\ fetches (trace (snd (fetch_and_dispatch env contract_filter c)))
       = fetches (trace c) ++ nq
    /\ (List.length nq <= List.length nf <= 1)%nat.
Proof.
  remember (fetch_and_dispatch env contract_filter c) as r eqn:Hr.
  unfold fetch_and_dispatch in Hr.
  unfold bind at 1, new_filter, web3_eth in Hr.
  unfold bind at 1 2, get_self, ret, raise, extern at 1 in Hr.
  cbn beta iota in Hr.
  destruct (web3 (self c)).
  2:{ subst r. exists [], []. cbn [snd]. rewrite !app_nil_r. repeat split; cbn; lia. }
  cbn beta iota in Hr. cbn [self world trace last_processed_block] in Hr.
  destruct (eth_filter env contract_filter (world c)) as [[fid|e] w3].
  2:{ subst r. exists [contract_filter], []. cbn [snd trace].
      rewrite filters_created_app, fetches_app. cbn. repeat split; lia. }
  cbn beta iota in Hr.
  unfold bind at 1, get_filter_changes, extern at 1 in Hr.
  cbn [self world trace last_processed_block] in Hr.
  destruct (eth_get_filter_changes env fid w3) as [[entries|e] w4].
  2:{ subst r. exists [contract_filter], [fid]. cbn [snd trace].
      rewrite !filters_created_app, !fetches_app. cbn. rewrite !app_nil_r.
      repeat split; lia. }
  cbn beta iota in Hr.
  unfold bind at 1, logger at 1, extern at 1 in Hr. cbn beta iota in Hr.
  cbn [self world trace last_processed_block] in Hr.
  unfold bind at 1 in Hr.
  match type of Hr with
  | context [for_each (process_event env) entries ?c5] =>
      pose proof (for_each_process_event_returns env entries c5) as Hok;
      destruct (for_each_process_event_trace entries c5)
        as (es & Hes & _ & Hf & Hc & _);
      destruct (for_each (process_event env) entries c5) as [o5 c6]
  end.
  cbn [fst snd trace] in *. subst o5.
  unfold sleep, extern in Hr. subst r. cbn [snd trace].
  exists [contract_filter], [fid].
  rewrite Hes.
  rewrite !filters_created_app, !fetches_app, Hf, Hc.
  cbn [filters_created fetches app List.length]. rewrite !app_nil_r.
  repeat split; lia.
Qed.

Lemma loop_body_counts (contract_filter : FilterParams) (c : Config W) :
  exists nf nq,
    filters_created (trace (snd (loop_body env contract_filter c)))
    = filters_created (trace c) ++ nf
    /\ fetches (trace (snd (loop_body env contract_filter c)))
       = fetches (trace c) ++ nq
    /\ (List.length nq <= List.length nf <= 1)%nat.
Proof.
  assert (Hquiet : forall c0 : Config W,
             filters_created (trace (snd (get_block_number env c0)))
             = filters_created (trace c0)
             /\ fetches (trace (snd (get_block_number env c0))) = fetches (trace c0)).
  { intros c0. destruct (get_block_number_quiet c0) as (_ & es & Hes & Hc & Hf).
    rewrite Hes, filters_created_app, fetches_app, Hc, Hf, !app_nil_r. split; reflexivity. }
  assert (Hback : forall e (c0 : Config W),
             filters_created (trace (after_backoff env e c0)) = filters_created (trace c0)
             /\ fetches (trace (after_backoff env e c0)) = fetches (trace c0)).
  { intros e c0. cbn [after_backoff trace].
    rewrite filters_created_app, fetches_app. cbn. rewrite !app_nil_r. split; reflexivity. }
  destruct (loop_body_cases contract_filter c)
    as [(e & c1 & H1 & Hrun)
       | [(h & c1 & H1 & _ & Hrun)
         | [(h & c1 & e & c2 & H1 & _ & H2 & Hrun)
           | (h & c1 & h' & c2 & H1 & _ & H2 & Hrun)]]];
    rewrite Hrun; pose proof (Hquiet c) as (Hc1 & Hf1); rewrite H1 in Hc1, Hf1;
    cbn [snd] in *.
  - destruct (Hback e c1) as (Hbc & Hbf). exists [], [].
    rewrite Hbc, Hbf, Hc1, Hf1, !app_nil_r. repeat split; cbn; lia.
  - exists [], []. rewrite Hc1, Hf1, !app_nil_r. repeat split; cbn; lia.
  - pose proof (Hquiet c1) as (Hc2 & Hf2). rewrite H2 in Hc2, Hf2. cbn [snd] in *.
    destruct (Hback e c2) as (Hbc & Hbf). exists [], [].
    rewrite Hbc, Hbf, Hc2, Hf2, Hc1, Hf1, !app_nil_r. repeat split; cbn; lia.
  - pose proof (Hquiet c1) as (Hc2 & Hf2). rewrite H2 in Hc2, Hf2. cbn [snd] in *.
    set (c3 := Build_Config (self c2) h' (world c2) (trace c2)).
    destruct (fetch_and_dispatch_counts contract_filter c3)
      as (nf & nq & Hnf & Hnq & Hlen).
    cbn [c3 trace] in Hnf, Hnq. rewrite Hc2, Hc1 in Hnf. rewrite Hf2, Hf1 in Hnq.
    exists nf, nq. unfold try_except.
    destruct (fetch_and_dispatch env contract_filter c3) as [[[]|e] c4];
      cbn [snd] in *.
    + repeat split; try assumption; lia.
    + rewrite backoff_run. cbn [snd].
      destruct (Hback e c4) as (Hbc & Hbf). rewrite Hbc, Hbf.
      repeat split; try assumption; lia.
Qed.

Lemma read_stop_indexing_quiet (c : Config W) :
  exists b c1,
    read_stop_indexing env c = (Ok b, c1)
    /\ trace c1 = trace c
    /\ last_processed_block c1 = last_processed_block c
    /\ (stop_indexing (self c) = true -> b = true)
    /\ (fst (caller_stopped env (world c)) = true -> b = true).
Proof.
  unfold read_stop_indexing.
  destruct (caller_stopped env (world c)) as [[|] w']; do 2 eexists;
    (split; [reflexivity|]); cbn; repeat split; auto; discriminate.
Qed.

(** Over any number of passes, the worker creates at most one filter and
    makes at most one fetch per pass, and never more fetches than
    filters. *)
Theorem at_most_one_filter_and_fetch_per_pass (fuel : nat)
    (contract_filter : FilterParams) :
  forall c : Config W,
  exists nf nq,
    filters_created (trace (snd (indexer_loop env fuel contract_filter c)))
    = filters_created (trace c) ++ nf
    /\ fetches (trace (snd (indexer_loop env fuel contract_filter c)))
       = fetches (trace c) ++ nq
    /\ (List.length nq <= List.length nf <= fuel)%nat.
Proof.
  induction fuel as [|fuel IH]; intros c.
  { exists [], []. cbn. rewrite !app_nil_r. repeat split; lia. }
  remember (indexer_loop env (S fuel) contract_filter c) as r eqn:Hr.
  cbn [indexer_loop] in Hr. unfold bind at 1 in Hr.
  destruct (read_stop_indexing_quiet c) as (b & c1 & Hread & Ht & _).
  rewrite Hread in Hr. destruct b.
  { subst r. exists [], []. cbn [ret snd]. rewrite Ht, !app_nil_r.
    repeat split; cbn; lia. }
  unfold bind in Hr.
  pose proof (loop_body_returns env contract_filter c1) as Hok.
  destruct (loop_body_counts contract_filter c1) as (nf1 & nq1 & Hnf1 & Hnq1 & Hlen1).
  destruct (loop_body env contract_filter c1) as [o c2]. cbn [fst snd] in *. subst o.
  destruct (IH c2) as (nf2 & nq2 & Hnf2 & Hnq2 & Hlen2).
  subst r. exists (nf1 ++ nf2), (nq1 ++ nq2).
  rewrite Hnf2, Hnq2, Hnf1, Hnq1, Ht, <- !app_assoc, !length_app.
  repeat split; lia.
Qed.

(** With a chain client whose height does not go down between the two
    reads of a pass, the cursor never decreases, over any number of
    passes. *)
Theorem cursor_never_decreases_with_steady_heights (fuel : nat)
    (contract_filter : FilterParams) :
  steady_heights env ->
  forall c : Config W,
    (last_processed_block c
     <= last_processed_block (snd (indexer_loop env fuel contract_filter c)))%Z.
Proof.
  intros Hsteady. induction fuel as [|fuel IH]; intros c; [cbn; lia|].
  cbn [indexer_loop]. unfold bind at 1.
  destruct (read_stop_indexing_quiet c) as (b & c1 & Hread & _ & Hcur & _).
  rewrite Hread. destruct b; [cbn [ret snd]; lia|].
  unfold bind.
  pose proof (loop_body_returns env contract_filter c1) as Hok.
  assert (Hpass : (last_processed_block c1
                   <= last_processed_block (snd (loop_body env contract_filter c1)))%Z).
  { destruct (loop_body_cases contract_filter c1)
      as [(e & c2 & H1 & Hrun)
         | [(h & c2 & H1 & _ & Hrun)
           | [(h & c2 & e & c3 & H1 & _ & H2 & Hrun)
             | (h & c2 & h' & c3 & H1 & Hlt & H2 & _)]]].
    - rewrite Hrun. cbn [snd after_backoff last_processed_block].
      destruct (get_block_number_quiet c1) as (Hq & _). rewrite H1 in Hq.
      cbn [snd] in Hq. lia.
    - rewrite Hrun. cbn [snd].
      destruct (get_block_number_quiet c1) as (Hq & _). rewrite H1 in Hq.
      cbn [snd] in Hq. lia.
    - rewrite Hrun. cbn [snd after_backoff last_processed_block].
      destruct (get_block_number_quiet c1) as (Hq & _). rewrite H1 in Hq.
      destruct (get_block_number_quiet c2) as (Hq' & _). rewrite H2 in Hq'.
      cbn [snd] in *. lia.
    - rewrite (loop_body_advancing_cursor env _ _ _ _ _ _ H1 Hlt H2).
      destruct (get_block_number_world _ _ _ H1) as (Hw1 & _).
      destruct (get_block_number_world _ _ _ H2) as (Hw2 & _).
      pose proof (Hsteady _ _ _ _ _ Hw1 Hw2). lia. }
  destruct (loop_body env contract_filter c1) as [o c2]. cbn [fst snd] in *. subst o.
  specialize (IH c2). lia.
Qed.

(** The stop flag is looked at before each pass: once it is set, in the
    indexer object or by the owning thread, the loop ends there, without
    any call or log line and without moving the cursor. *)
Theorem stop_flag_ends_the_loop (fuel : nat) (contract_filter : FilterParams)
    (c : Config W) :
  (stop_indexing (self c) = true \/ fst (caller_stopped env (world c)) = true) ->
  let r := indexer_loop env (S fuel) contract_filter c in
  fst r = Ok Stopped
  /\ trace (snd r) = trace c
  /\ last_processed_block (snd r) = last_processed_block c.
Proof.
  intros Hflag r.
  assert (Hr : r = indexer_loop env (S fuel) contract_filter c) by reflexivity.
  clearbody r. cbn [indexer_loop] in Hr. unfold bind at 1 in Hr.
  destruct (read_stop_indexing_quiet c) as (b & c1 & Hread & Ht & Hcur & Hs & Hc).
  rewrite Hread in Hr.
  assert (b = true) as -> by (destruct Hflag; auto).
  subst r. cbn [ret fst snd]. repeat split; assumption.
Qed.

(** [_run_indexer] without a contract handle returns at once: one error
    line, no call to the chain whatever the fuel, and the cursor is not
    even initialized. *)
Theorem run_indexer_without_contract (fuel : nat) (c : Config W) :
  intent_matching_contract (self c) = None ->
  run_indexer env fuel c
  = (Ok Stopped,
     with_effects c [ELog ERROR "Intent matching contract not initialized" []]).
Proof.
  intros Hnone. unfold run_indexer, bind, get_self. cbn beta iota.
  rewrite Hnone. reflexivity.
Qed.

(** ** Starting and stopping the worker *)

(** [start()] without a chain client or without a contract handle only
    logs a warning: no thread is created and the indexer is as before. *)
Theorem start_without_components_warns (c : Config W) :
  (web3 (self c) = None \/ intent_matching_contract (self c) = None) ->
  start env c
  = (Ok tt,
     with_effects c
       [ELog WARNING "Blockchain components not initialized. Cannot start indexer." []]).
Proof.
  intros Hmiss. unfold start, bind, get_self. cbn beta iota.
  destruct (web3 (self c)) as [o|]; destruct (intent_matching_contract (self c)) as [ct|];
    try reflexivity.
  destruct Hmiss; discriminate.
Qed.

Lemma start_run (c : Config W) (o : ObjRef) (ct : Contract) (t : Thread) (w1 : W) :
  web3 (self c) = Some o ->
  intent_matching_contract (self c) = Some ct ->
  thread_create env (world c) = (t, w1) ->
  start env c
  = (let (r, w2) := thread_start env t w1 in
     let started :=
       Build_Config
         (set_indexer_thread (Some t) (set_stop_indexing false (self c)))
         (last_processed_block c) w2
         (trace c ++ [EThreadCreate; EThreadDaemon t; EThreadStart t]) in
     match r with
     | Ok _ =>
         (Ok tt,
          with_effects started [ELog INFO "Blockchain indexer service started" []])
     | Raise e => (Raise e, started)
     end).
Proof.
  intros Hweb Hct Hcreate. unfold start. unfold bind at 1, get_self at 1.
  cbn beta iota. rewrite Hweb, Hct.
  unfold bind, modify_self, extern, logger, with_effects.
  cbn [self world trace last_processed_block]. rewrite Hcreate.
  cbn [self world trace last_processed_block].
  destruct (thread_start env t w1) as [[[]|e] w2];
    cbn beta iota; unfold extern; cbn [self world trace last_processed_block];
    rewrite <- ?app_assoc; reflexivity.
Qed.

Lemma start_launches_a_daemon_worker_aux (c : Config W) (o : ObjRef) (ct : Contract)
    (t : Thread) (w1 w2 : W) :
  web3 (self c) = Some o ->
  intent_matching_contract (self c) = Some ct ->
  thread_create env (world c) = (t, w1) ->
  thread_start env t w1 = (Ok tt, w2) ->
  start env c
  = (Ok tt,
     Build_Config
       (set_indexer_thread (Some t) (set_stop_indexing false (self c)))
       (last_processed_block c) w2
       (trace c ++
          [EThreadCreate; EThreadDaemon t; EThreadStart t;
           ELog INFO "Blockchain indexer service started" []])).
Proof.
  intros Hweb Hct Hcreate Hstart.
  rewrite (start_run c o ct t w1 Hweb Hct Hcreate), Hstart.
  unfold with_effects. cbn [self world trace last_processed_block].
  rewrite <- app_assoc. reflexivity.
Qed.

(** With a chain client and a contract handle, [start()] clears the stop
    flag, creates a thread, keeps it in [indexer_thread], marks it as a
    daemon and starts it, in this order, then logs that the service has
    started. *)
Theorem start_launches_a_daemon_worker (c : Config W) (o : ObjRef) (ct : Contract)
    (t : Thread) (w1 w2 : W) :
  web3 (self c) = Some o ->
  intent_matching_contract (self c) = Some ct ->
  thread_create env (world c) = (t, w1) ->
  thread_start env t w1 = (Ok tt, w2) ->
  start env c
  = (Ok tt,
     Build_Config
       (set_indexer_thread (Some t) (set_stop_indexing false (self c)))
       (last_processed_block c) w2
       (trace c ++
          [EThreadCreate; EThreadDaemon t; EThreadStart t;
           ELog INFO "Blockchain indexer service started" []])).
Proof.
  exact (start_launches_a_daemon_worker_aux c o ct t w1 w2).
Qed.

(** [start()] has no [try]: when the thread cannot be started the
    exception leaves [start()], the thread object stays in
    [indexer_thread] with the stop flag cleared, and nothing is logged. *)
Theorem start_propagates_thread_error (c : Config W) (o : ObjRef) (ct : Contract)
    (t : Thread) (w1 w2 : W) (e : Exn) :
  web3 (self c) = Some o ->
  intent_matching_contract (self c) = Some ct ->
  thread_create env (world c) = (t, w1) ->
  thread_start env t w1 = (Raise e, w2) ->
  start env c
  = (Raise e,
     Build_Config
       (set_indexer_thread (Some t) (set_stop_indexing false (self c)))
       (last_processed_block c) w2
       (trace c ++ [EThreadCreate; EThreadDaemon t; EThreadStart t])).
Proof.
  intros Hweb Hct Hcreate Hstart.
  rewrite (start_run c o ct t w1 Hweb Hct Hcreate), Hstart. reflexivity.
Qed.

(** [start()] does not look at [indexer_thread]: called twice, with the
    runtime handing out a new thread object each time and starting both,
    it starts two different workers, and the indexer keeps the handle of
    the second one only; the first worker can no longer be reached through
    the indexer. *)
Theorem start_twice_starts_two_workers (c : Config W) (o : ObjRef) (ct : Contract)
    (t1 t2 : Thread) (w1 w2 w3 w4 : W) :
  web3 (self c) = Some o ->
  intent_matching_contract (self c) = Some ct ->
  thread_create env (world c) = (t1, w1) ->
  thread_start env t1 w1 = (Ok tt, w2) ->
  thread_create env w2 = (t2, w3) ->
  thread_start env t2 w3 = (Ok tt, w4) ->
  t1 <> t2 ->
  let once := start env c in
  let twice := start env (snd once) in
  fst once = Ok tt
  /\ fst twice = Ok tt
  /\ threads_started (trace (snd twice)) = threads_started (trace c) ++ [t1; t2]
  /\ indexer_thread (self (snd once)) = Some t1
  /\ indexer_thread (self (snd twice)) = Some t2
  /\ indexer_thread (self (snd twice)) <> Some t1.
Proof.
  intros Hweb Hct Hc1 Hs1 Hc2 Hs2 Hneq once twice.
  pose proof (start_launches_a_daemon_worker_aux c o ct t1 w1 w2 Hweb Hct Hc1 Hs1)
    as Honce.
  fold once in Honce. clearbody once. subst once. cbn [snd] in twice.
  let body := eval unfold twice in twice in
  match body with
  | start env ?c1 =>
      pose proof (start_launches_a_daemon_worker_aux c1 o ct t2 w3 w4 Hweb Hct Hc2 Hs2)
        as Htwice
  end.
  fold twice in Htwice. clearbody twice. subst twice.
  cbn [fst snd self trace indexer_thread set_indexer_thread].
  repeat split.
  - rewrite !threads_started_app. cbn [threads_started].
    rewrite <- app_assoc. reflexivity.
  - intros [= Heq]. apply Hneq. symmetry. exact Heq.
Qed.

Lemma stop_run_alive (c : Config W) (t : Thread) (w1 w2 : W) :
  indexer_thread (self c) = Some t ->
  thread_is_alive env t (world c) = (true, w1) ->
  thread_join env t 2000 w1 = (Ok tt, w2) ->
  stop env c
  = (Ok tt,
     Build_Config (set_stop_indexing true (self c)) (last_processed_block c) w2
       (trace c ++
          [EThreadIsAlive t; EThreadJoin t 2000;
           ELog INFO "Blockchain indexer stopped" []])).
Proof.
  intros Hthread Halive Hjoin.
  unfold stop. unfold bind at 1, get_self at 1. cbn beta iota. rewrite Hthread.
  unfold bind, modify_self, extern, logger.
  cbn [self world trace last_processed_block]. rewrite Halive.
  cbn [self world trace last_processed_block]. rewrite Hjoin.
  cbn beta iota. unfold extern. cbn [self world trace last_processed_block].
  rewrite <- ?app_assoc. reflexivity.
Qed.

(** [stop()] on a worker that is alive sets the stop flag, waits for the
    worker for at most two seconds, and then logs that the indexer has
    stopped, whether or not the worker has ended by then; from then on a
    worker that shares the indexer object leaves its loop at its next
    look at the flag, without any further call. *)
Theorem stop_signals_and_joins (c : Config W) (t : Thread) (w1 w2 : W) :
  indexer_thread (self c) = Some t ->
  thread_is_alive env t (world c) = (true, w1) ->
  thread_join env t 2000 w1 = (Ok tt, w2) ->
  let r := stop env c in
  fst r = Ok tt
  /\ stop_indexing (self (snd r)) = true
  /\ trace (snd r)
     = trace c ++ [EThreadIsAlive t; EThreadJoin t 2000;
                   ELog INFO "Blockchain indexer stopped" []]
  /\ forall (fuel : nat) (contract_filter : FilterParams) (worker : Config W),
      self worker = self (snd r) ->
      fst (indexer_loop env (S fuel) contract_filter worker) = Ok Stopped
      /\ trace (snd (indexer_loop env (S fuel) contract_filter worker))
         = trace worker.
Proof.
  intros Hthread Halive Hjoin r. subst r.
  rewrite (stop_run_alive c t w1 w2 Hthread Halive Hjoin).
  cbn [fst snd self trace]. repeat split.
  - remember (indexer_loop env (S fuel) contract_filter worker) as r eqn:Hr.
    cbn [indexer_loop] in Hr. unfold bind at 1 in Hr.
    destruct (read_stop_indexing_quiet worker) as (b & c1 & Hread & _ & _ & Hs & _).
    rewrite Hread in Hr. rewrite H in Hs. specialize (Hs eq_refl). subst b r.
    reflexivity.
  - remember (indexer_loop env (S fuel) contract_filter worker) as r eqn:Hr.
    cbn [indexer_loop] in Hr. unfold bind at 1 in Hr.
    destruct (read_stop_indexing_quiet worker) as (b & c1 & Hread & Ht & _ & Hs & _).
    rewrite Hread in Hr. rewrite H in Hs. specialize (Hs eq_refl). subst b r.
    exact Ht.
Qed.

(** ** The filters of the poll loop *)

(** From the filter call on, with a chain client: one filter call with
    the given parameters, and one fetch exactly when that call returned a
    filter. *)
Lemma fetch_and_dispatch_exact (contract_filter : FilterParams) (c : Config W)
    (o : ObjRef) :
  web3 (self c) = Some o ->
  filters_created (trace (snd (fetch_and_dispatch env contract_filter c)))
  = filters_created (trace c) ++ [contract_filter]
  /\ fetches (trace (snd (fetch_and_dispatch env contract_filter c)))
     = fetches (trace c) ++
       match fst (eth_filter env contract_filter (world c)) with
       | Ok fid => [fid]
       | Raise _ => []
       end.
Proof.
  intros Hweb.
  remember (fetch_and_dispatch env contract_filter c) as r eqn:Hr.
  unfold fetch_and_dispatch in Hr.
  unfold bind at 1, new_filter, web3_eth in Hr.
  unfold bind at 1 2, get_self, ret, raise, extern at 1 in Hr.
  cbn beta iota in Hr. rewrite Hweb in Hr.
  cbn beta iota in Hr. cbn [self world trace last_processed_block] in Hr.
  destruct (eth_filter env contract_filter (world c)) as [[fid|e] w3].
  2:{ subst r. cbn [fst snd trace].
      rewrite filters_created_app, fetches_app. cbn. split; reflexivity. }
  cbn beta iota in Hr. cbn [fst].
  unfold bind at 1, get_filter_changes, extern at 1 in Hr.
  cbn [self world trace last_processed_block] in Hr.
  destruct (eth_get_filter_changes env fid w3) as [[entries|e] w4].
  2:{ subst r. cbn [snd trace].
      rewrite !filters_created_app, !fetches_app. cbn. rewrite !app_nil_r.
      split; reflexivity. }
  cbn beta iota in Hr.
  unfold bind at 1, logger at 1, extern at 1 in Hr. cbn beta iota in Hr.
  cbn [self world trace last_processed_block] in Hr.
  unfold bind at 1 in Hr.
  match type of Hr with
  | context [for_each (process_event env) entries ?c5] =>
      pose proof (for_each_process_event_returns env entries c5) as Hok;
      destruct (for_each_process_event_trace entries c5)
        as (es & Hes & _ & Hf & Hc & _);
      destruct (for_each (process_event env) entries c5) as [o5 c6]
  end.
  cbn [fst snd trace] in *. subst o5.
  unfold sleep, extern in Hr. subst r. cbn [snd trace].
  rewrite Hes.
  rewrite !filters_created_app, !fetches_app, Hf, Hc.
  cbn [filters_created fetches app]. rewrite !app_nil_r.
  split; reflexivity.
Qed.

(** A pass in which the height has not advanced, or in which a height
    read raises, creates no filter and fetches nothing. *)
Lemma loop_body_quiet_unless_advanced (contract_filter : FilterParams)
    (c : Config W) :
  ~ (exists h c1 h' c2,
        get_block_number env c = (Ok h, c1)
        /\ (last_processed_block c < h)%Z
        /\ get_block_number env c1 = (Ok h', c2)) ->
  filters_created (trace (snd (loop_body env contract_filter c)))
  = filters_created (trace c)
  /\ fetches (trace (snd (loop_body env contract_filter c))) = fetches (trace c).
Proof.
  intros Hnot.
  assert (Hquiet : forall c0 : Config W,
             filters_created (trace (snd (get_block_number env c0)))
             = filters_created (trace c0)
             /\ fetches (trace (snd (get_block_number env c0))) = fetches (trace c0)).
  { intros c0. destruct (get_block_number_quiet c0) as (_ & es & Hes & Hc & Hf).
    rewrite Hes, filters_created_app, fetches_app, Hc, Hf, !app_nil_r. split; reflexivity. }
  assert (Hback : forall e (c0 : Config W),
             filters_created (trace (after_backoff env e c0)) = filters_created (trace c0)
             /\ fetches (trace (after_backoff env e c0)) = fetches (trace c0)).
  { intros e c0. cbn [after_backoff trace].
    rewrite filters_created_app, fetches_app. cbn. rewrite !app_nil_r. split; reflexivity. }
  destruct (loop_body_cases contract_filter c)
    as [(e & c1 & H1 & Hrun)
       | [(h & c1 & H1 & _ & Hrun)
         | [(h & c1 & e & c2 & H1 & _ & H2 & Hrun)
           | (h & c1 & h' & c2 & H1 & Hlt & H2 & _)]]].
  - rewrite Hrun. cbn [snd]. destruct (Hback e c1) as (-> & ->).
    pose proof (Hquiet c) as Hq. rewrite H1 in Hq. exact Hq.
  - rewrite Hrun. cbn [snd]. pose proof (Hquiet c) as Hq. rewrite H1 in Hq. exact Hq.
  - rewrite Hrun. cbn [snd]. destruct (Hback e c2) as (-> & ->).
    pose proof (Hquiet c) as (Hq1 & Hq1'). rewrite H1 in Hq1, Hq1'.
    pose proof (Hquiet c1) as (Hq2 & Hq2'). rewrite H2 in Hq2, Hq2'.
    cbn [snd] in *. split; congruence.
  - exfalso. apply Hnot. exists h, c1, h', c2. repeat split; assumption.
Qed.

Lemma loop_body_advancing_exact (contract_filter : FilterParams)
    (c c1 c2 : Config W) (h h' : Z) :
  get_block_number env c = (Ok h, c1) ->
  (last_processed_block c < h)%Z ->
  get_block_number env c1 = (Ok h', c2) ->
  filters_created (trace (snd (loop_body env contract_filter c)))
  = filters_created (trace c) ++ [contract_filter]
  /\ fetches (trace (snd (loop_body env contract_filter c)))
     = fetches (trace c) ++
       match fst (eth_filter env contract_filter (world c2)) with
       | Ok fid => [fid]
       | Raise _ => []
       end.
Proof.
  intros H1 Hlt H2.
  rewrite (loop_body_advancing env contract_filter _ _ _ _ _ H1 Hlt H2).
  destruct (get_block_number_ok env _ _ _ H1) as (Hs1 & _ & Ht1).
  destruct (get_block_number_ok env _ _ _ H2) as (Hs2 & _ & Ht2).
  destruct (get_block_number_world _ _ _ H1) as (_ & o & Hweb).
  set (c3 := Build_Config (self c2) h' (world c2) (trace c2)).
  assert (Hweb3 : web3 (self c3) = Some o) by (cbn [c3 self]; congruence).
  destruct (fetch_and_dispatch_exact contract_filter c3 o Hweb3) as (Hf & Hq).
  cbn [c3 trace world] in Hf, Hq.
  assert (Hf0 : filters_created (trace c2) = filters_created (trace c)).
  { rewrite Ht2, Ht1, !filters_created_app. cbn. rewrite !app_nil_r. reflexivity. }
  assert (Hq0 : fetches (trace c2) = fetches (trace c)).
  { rewrite Ht2, Ht1, !fetches_app. cbn. rewrite !app_nil_r. reflexivity. }
  rewrite Hf0 in Hf. rewrite Hq0 in Hq.
  unfold try_except.
  destruct (fetch_and_dispatch env contract_filter c3) as [[[]|e] c4]; cbn [snd] in *.
  - split; assumption.
  - rewrite backoff_run. cbn [snd after_backoff trace].
    rewrite filters_created_app, fetches_app. cbn [filters_created fetches].
    rewrite !app_nil_r. split; assumption.
Qed.

(** C2, as the code has it: at start the poller fixes the filter
    parameters, the contract address and the block tag [latest], and makes
    no call to the chain. In every loop pass in which the height has
    advanced and the second height read returns, exactly one filter call
    is made, with these parameters, right after the two height reads; when
    it returns a filter exactly one fetch follows, at once and for the
    filter just returned, and when it raises no fetch is made. Every other
    pass, idle or with a height read that raises, makes no filter call and
    no fetch. So there is one filter per such pass and none is kept from
    one pass to the next. *)
Theorem filter_created_in_each_advancing_pass :
  (forall (fuel : nat) (c : Config W) (ct : Contract),
      intent_matching_contract (self c) = Some ct ->
      run_indexer env fuel c
      = indexer_loop env fuel
          {| filter_address := contract_address ct; fromBlock := "latest" |}
          (Build_Config (self c) 0 (world c)
             (trace c ++ [ELog INFO "Starting to listen for events..." []])))
  /\ (forall (contract_filter : FilterParams) (c c1 c2 : Config W) (h h' : Z),
      get_block_number env c = (Ok h, c1) ->
      (last_processed_block c < h)%Z ->
      get_block_number env c1 = (Ok h', c2) ->
      filters_created (trace (snd (loop_body env contract_filter c)))
      = filters_created (trace c) ++ [contract_filter]
      /\ fetches (trace (snd (loop_body env contract_filter c)))
         = fetches (trace c) ++
           match fst (eth_filter env contract_filter (world c2)) with
           | Ok fid => [fid]
           | Raise _ => []
           end)
  /\ (forall (contract_filter : FilterParams) (c c1 c2 c3 : Config W)
        (h h' : Z) (fid : FilterId),
      get_block_number env c = (Ok h, c1) ->
      (last_processed_block c < h)%Z ->
      get_block_number env c1 = (Ok h', c2) ->
      new_filter env contract_filter
        (Build_Config (self c2) h' (world c2) (trace c2)) = (Ok fid, c3) ->
      exists rest,
        trace (snd (loop_body env contract_filter c))
        = trace c ++
          [EGetBlockNumber; EGetBlockNumber; ENewFilter contract_filter;
           EGetFilterChanges fid] ++ rest)
  /\ (forall (contract_filter : FilterParams) (c : Config W),
      ~ (exists h c1 h' c2,
            get_block_number env c = (Ok h, c1)
            /\ (last_processed_block c < h)%Z
            /\ get_block_number env c1 = (Ok h', c2)) ->
      filters_created (trace (snd (loop_body env contract_filter c)))
      = filters_created (trace c)
      /\ fetches (trace (snd (loop_body env contract_filter c))) = fetches (trace c)).
Proof.
  destruct (advancing_pass_trace_prefix env) as (Hstart & Hprefix).
  split; [exact Hstart|].
  split; [exact loop_body_advancing_exact|].
  split; [exact Hprefix|].
  exact loop_body_quiet_unless_advanced.
Qed.

(** ** Exceptions, where they are caught *)

Lemma getOrder_entry_effects (order_id : Z) : emits entry_effect (getOrder env order_id).
Proof. unfold getOrder. emits_steps. Qed.

Lemma submit_bid_entry_effects (bid_data : Json) :
  emits entry_effect (submit_bid env bid_data).
Proof.
  unfold submit_bid.
  apply bind_emits; [apply modify_self_emits|]. intros _.
  apply bind_emits; [apply get_self_emits|]. intros s.
  destruct (base_url s) as [[|a base]|]; unfold logger; emits_steps.
Qed.

Lemma call_handler_entry_effects (h : Handler) (event : LogEntry) :
  emits entry_effect (call_handler env h event).
Proof.
  destruct h; cbn [call_handler];
    unfold handle_order_created, handle_order_matched, handle_addresses_tracked,
      handle_order_completed, logger.
  - apply try_except_emits; [|intros e; emits_steps].
    apply bind_emits; [apply topic_order_id_emits|]. intros order_id.
    apply bind_emits; [unfold event_topic; emits_steps|]. intros t2.
    apply bind_emits; [emits_steps|]. intros _.
    apply submit_bid_entry_effects.
  - apply try_except_emits; [|intros e; emits_steps].
    apply bind_emits; [apply topic_order_id_emits|]. intros order_id.
    apply bind_emits; [apply getOrder_entry_effects|]. intros order.
    emits_steps.
  - apply ret_emits.
  - apply try_except_emits; [|intros e; emits_steps].
    apply bind_emits; [apply topic_order_id_emits|]. intros order_id.
    apply bind_emits; [apply getOrder_entry_effects|]. intros order.
    emits_steps.
Qed.

(** Dispatching an entry only logs, reads orders and posts bids: it
    never sleeps and never writes the loop's error line. *)
Lemma process_event_entry_effects (event : LogEntry) :
  emits entry_effect (process_event env event).
Proof.
  unfold process_event, logger.
  apply try_except_emits; [|intros e; emits_steps].
  apply bind_emits; [emits_steps|]. intros _.
  apply bind_emits; [unfold event_topic; emits_steps|]. intros t0.
  apply bind_emits; [apply get_self_emits|]. intros s0.
  destruct (event_signatures s0 !! hex env t0) as [h|]; [|apply ret_emits].
  apply bind_emits; [apply call_handler_entry_effects|]. intros _. emits_steps.
Qed.

(** A failed decode of the order id is logged by the handler itself. *)
Lemma call_handler_logs_decode_failure (h : Handler) (event : LogEntry)
    (c : Config W) (e : Exn) :
  h <> H_addresses_tracked ->
  fst (topic_order_id env event c) = Raise e ->
  call_handler env h event c = (Ok tt, with_effects c (handler_error_line h e)).
Proof.
  intros Hh Hraise. pose proof (topic_order_id_config env event c) as Hc.
  destruct h; [| |congruence|]; cbn [call_handler handler_error_line];
    unfold handle_order_created, handle_order_matched, handle_order_completed,
      try_except; unfold bind at 1;
    destruct (topic_order_id env event c) as [o c1]; cbn [fst snd] in *;
    subst o c1; reflexivity.
Qed.

(** A failed contract read is logged by the handler itself. *)
Lemma call_handler_logs_contract_failure (h : Handler) (event : LogEntry)
    (c : Config W) (order_id : Z) (e : Exn) :
  h = H_order_matched \/ h = H_order_completed ->
  fst (topic_order_id env event c) = Ok order_id ->
  fst (getOrder env order_id c) = Raise e ->
  call_handler env h event c
  = (Ok tt, with_effects (snd (getOrder env order_id c)) (handler_error_line h e)).
Proof.
  intros Hh Hid Hraise. pose proof (topic_order_id_config env event c) as Hc.
  destruct Hh as [-> | ->]; cbn [call_handler handler_error_line];
    unfold handle_order_matched, handle_order_completed, try_except;
    unfold bind at 1;
    destruct (topic_order_id env event c) as [o c1]; cbn [fst snd] in *;
    subst o c1; unfold bind at 1;
    destruct (getOrder env order_id c) as [o c2]; cbn [fst snd] in *;
    subst o; reflexivity.
Qed.

Lemma order_created_logs_missing_topic_2 (event : LogEntry) (c : Config W)
    (order_id : Z) :
  fst (topic_order_id env event c) = Ok order_id ->
  nth_error (topics event) 2 = None ->
  call_handler env H_order_created event c
  = (Ok tt, with_effects c (handler_error_line H_order_created IndexError)).
Proof.
  intros Hid Hnone. pose proof (topic_order_id_config env event c) as Hc.
  cbn [call_handler handler_error_line].
  unfold handle_order_created, try_except. unfold bind at 1.
  destruct (topic_order_id env event c) as [o c1]; cbn [fst snd] in *. subst o c1.
  unfold bind at 1, event_topic. rewrite Hnone. reflexivity.
Qed.

Lemma order_completed_logs_short_tuple (event : LogEntry) (c : Config W)
    (order_id : Z) (order : list AbiValue) :
  fst (topic_order_id env event c) = Ok order_id ->
  fst (getOrder env order_id c) = Ok order ->
  nth_error order 1 = None ->
  call_handler env H_order_completed event c
  = (Ok tt,
     with_effects (snd (getOrder env order_id c))
       (handler_error_line H_order_completed IndexError)).
Proof.
  intros Hid Hord Hnone. pose proof (topic_order_id_config env event c) as Hc.
  cbn [call_handler handler_error_line].
  unfold handle_order_completed, try_except. unfold bind at 1.
  destruct (topic_order_id env event c) as [o c1]; cbn [fst snd] in *. subst o c1.
  unfold bind at 1.
  destruct (getOrder env order_id c) as [o c2]; cbn [fst snd] in *. subst o.
  unfold bind at 1. rewrite Hnone. reflexivity.
Qed.

(** A request that raises, and an accepted bid whose answer is not JSON,
    are logged by the bid submission itself. *)
Lemma submit_bid_logs_failure (bid_data : Json) (c : Config W)
    (answer : outcome Response) (w' : W) (e : Exn) :
  requests_post env "http://localhost:3000/bid" bid_data
    [("Content-Type", "application/json")] (world c) = (answer, w') ->
  (answer = Raise e
   \/ exists response,
        answer = Ok response
        /\ (200 <=? status_code response)%Z && (status_code response <? 300)%Z = true
        /\ json response = Raise e) ->
  submit_bid env bid_data c
  = (Ok tt,
     Build_Config
       (set_base_url (Some "http://localhost:3000") (self c))
       (last_processed_block c) w'
       (trace c ++
          [EHttpPost "http://localhost:3000/bid" bid_data
             [("Content-Type", "application/json")];
           ELog ERROR "Error submitting bid: {}" [LExn e]])).
Proof.
  intros Hpost Hfail.
  unfold submit_bid, bind, modify_self, get_self, try_except, extern, logger, lift.
  cbn.
  destruct (requests_post env _ _ _ (world c)) as [ans w1] eqn:Hrun.
  injection Hpost as -> ->.
  destruct Hfail as [-> | (response & -> & Hstatus & Hjson)].
  - cbn. rewrite <- app_assoc. reflexivity.
  - rewrite Hstatus, Hjson. cbn. rewrite <- app_assoc. reflexivity.
Qed.

(** The three calls of a pass after the first height read, when they
    raise. *)
Lemma loop_body_second_read_raises (contract_filter : FilterParams)
    (c c1 c2 : Config W) (h : Z) (e : Exn) :
  get_block_number env c = (Ok h, c1) ->
  (last_processed_block c < h)%Z ->
  get_block_number env c1 = (Raise e, c2) ->
  loop_body env contract_filter c = (Ok tt, after_backoff env e c2).
Proof.
  intros H1 Hlt H2.
  destruct (get_block_number_ok env _ _ _ H1) as (_ & Hcur & _).
  apply loop_body_catches. unfold loop_try.
  unfold bind at 1. rewrite H1.
  unfold bind at 1, get_cursor at 1. cbn beta iota. rewrite Hcur.
  destruct (Z.leb_spec h (last_processed_block c)) as [Hle|_]; [lia|].
  unfold bind at 1. rewrite H2. reflexivity.
Qed.

Lemma loop_body_filter_raises (contract_filter : FilterParams)
    (c c1 c2 : Config W) (h h' : Z) (e : Exn) (w3 : W) :
  get_block_number env c = (Ok h, c1) ->
  (last_processed_block c < h)%Z ->
  get_block_number env c1 = (Ok h', c2) ->
  eth_filter env contract_filter (world c2) = (Raise e, w3) ->
  loop_body env contract_filter c
  = (Ok tt,
     after_backoff env e
       (Build_Config (self c2) h' w3 (trace c2 ++ [ENewFilter contract_filter]))).
Proof.
  intros H1 Hlt H2 H3.
  rewrite (loop_body_advancing env contract_filter _ _ _ _ _ H1 Hlt H2).
  destruct (get_block_number_ok env _ _ _ H1) as (Hs1 & _ & _).
  destruct (get_block_number_ok env _ _ _ H2) as (Hs2 & _ & _).
  destruct (get_block_number_world _ _ _ H1) as (_ & o & Hweb).
  assert (Hweb2 : web3 (self c2) = Some o) by congruence.
  unfold try_except, fetch_and_dispatch.
  unfold bind at 1, new_filter, web3_eth.
  unfold bind at 1 2, get_self, ret, extern at 1.
  cbn [self world trace last_processed_block].
  rewrite Hweb2. cbn beta iota.
  cbn [self world trace last_processed_block]. rewrite H3. cbn beta iota.
  apply backoff_run.
Qed.

Lemma loop_body_fetch_raises (contract_filter : FilterParams)
    (c c1 c2 : Config W) (h h' : Z) (fid : FilterId) (e : Exn) (w3 w4 : W) :
  get_block_number env c = (Ok h, c1) ->
  (last_processed_block c < h)%Z ->
  get_block_number env c1 = (Ok h', c2) ->
  eth_filter env contract_filter (world c2) = (Ok fid, w3) ->
  eth_get_filter_changes env fid w3 = (Raise e, w4) ->
  loop_body env contract_filter c
  = (Ok tt,
     after_backoff env e
       (Build_Config (self c2) h' w4
          (trace c2 ++ [ENewFilter contract_filter; EGetFilterChanges fid]))).
Proof.
  intros H1 Hlt H2 H3 H4.
  rewrite (loop_body_advancing env contract_filter _ _ _ _ _ H1 Hlt H2).
  destruct (get_block_number_ok env _ _ _ H1) as (Hs1 & _ & _).
  destruct (get_block_number_ok env _ _ _ H2) as (Hs2 & _ & _).
  destruct (get_block_number_world _ _ _ H1) as (_ & o & Hweb).
  assert (Hweb2 : web3 (self c2) = Some o) by congruence.
  unfold try_except, fetch_and_dispatch.
  unfold bind at 1, new_filter, web3_eth.
  unfold bind at 1 2, get_self, ret, extern at 1.
  cbn [self world trace last_processed_block].
  rewrite Hweb2. cbn beta iota.
  cbn [self world trace last_processed_block]. rewrite H3. cbn beta iota.
  unfold bind at 1, get_filter_changes, extern at 1.
  cbn [self world trace last_processed_block]. rewrite H4. cbn beta iota.
  rewrite backoff_run. unfold after_backoff.
  cbn [self world trace last_processed_block]. rewrite <- !app_assoc. reflexivity.
Qed.

(** A pass whose four calls to the chain return: whatever its entries
    do, it ends with the short sleep, and between the fetch and that
    sleep there are only effects of entries. *)
Lemma loop_body_full_pass_effects (contract_filter : FilterParams)
    (c c1 c2 : Config W) (h h' : Z) (fid : FilterId) (entries : list LogEntry)
    (w3 w4 : W) :
  get_block_number env c = (Ok h, c1) ->
  (last_processed_block c < h)%Z ->
  get_block_number env c1 = (Ok h', c2) ->
  eth_filter env contract_filter (world c2) = (Ok fid, w3) ->
  eth_get_filter_changes env fid w3 = (Ok entries, w4) ->
  exists es,
    fst (loop_body env contract_filter c) = Ok tt
    /\ trace (snd (loop_body env contract_filter c))
       = trace c ++
         [EGetBlockNumber; EGetBlockNumber; ENewFilter contract_filter;
          EGetFilterChanges fid; ELog INFO "New entries: {}" [LEvents entries]] ++
         es ++ [ESleep 100]
    /\ forallb entry_effect es = true.
Proof.
  intros H1 Hlt H2 H3 H4.
  rewrite (loop_body_full_pass contract_filter _ _ _ _ _ _ _ _ _ H1 Hlt H2 H3 H4).
  cbn [fst snd trace].
  match goal with
  | |- context [for_each (process_event env) entries ?c5] =>
      destruct (for_each_emits entry_effect (process_event env) entries
                  process_event_entry_effects c5) as (es & Hes & Hp)
  end.
  cbn [trace] in Hes. exists es. split; [reflexivity|]. split; [|exact Hp].
  rewrite Hes, <- !app_assoc. reflexivity.
Qed.

(** C4, as the code has it: an exception that leaves the [try] block of
    the loop, raised by a height read, the filter creation or the fetch,
    is logged by the loop, followed by the one-second sleep, and the pass
    ends normally. An exception raised while an entry is processed never
    reaches the loop: it is caught and logged where it is raised, by the
    dispatcher (no topic), by the handler (order id that does not decode,
    missing topic, contract read that raises, order tuple too short) or by
    the bid submission (request that raises, answer that is not JSON).
    Dispatching an entry never sleeps and never writes the loop's error
    line, so such an exception costs no backoff: a pass whose calls to the
    chain return ends with the short sleep whatever its entries do, and
    the batch is dispatched to its end. No pass and no run of the loop ends
    with an exception, and as long as no stop is requested the next pass
    runs. *)
Theorem no_exception_ends_the_poller :
  (* the loop's own except branch *)
  (forall (contract_filter : FilterParams) (c c' : Config W) (e : Exn),
      loop_try env contract_filter c = (Raise e, c') ->
      loop_body env contract_filter c = (Ok tt, after_backoff env e c'))
  /\ (forall (contract_filter : FilterParams) (c c1 : Config W) (e : Exn),
      get_block_number env c = (Raise e, c1) ->
      loop_body env contract_filter c = (Ok tt, after_backoff env e c1))
  /\ (forall (contract_filter : FilterParams) (c c1 c2 : Config W) (h : Z) (e : Exn),
      get_block_number env c = (Ok h, c1) ->
      (last_processed_block c < h)%Z ->
      get_block_number env c1 = (Raise e, c2) ->
      loop_body env contract_filter c = (Ok tt, after_backoff env e c2))
  /\ (forall (contract_filter : FilterParams) (c c1 c2 : Config W) (h h' : Z)
        (e : Exn) (w3 : W),
      get_block_number env c = (Ok h, c1) ->
      (last_processed_block c < h)%Z ->
      get_block_number env c1 = (Ok h', c2) ->
      eth_filter env contract_filter (world c2) = (Raise e, w3) ->
      loop_body env contract_filter c
      = (Ok tt,
         after_backoff env e
           (Build_Config (self c2) h' w3 (trace c2 ++ [ENewFilter contract_filter]))))
  /\ (forall (contract_filter : FilterParams) (c c1 c2 : Config W) (h h' : Z)
        (fid : FilterId) (e : Exn) (w3 w4 : W),
      get_block_number env c = (Ok h, c1) ->
      (last_processed_block c < h)%Z ->
      get_block_number env c1 = (Ok h', c2) ->
      eth_filter env contract_filter (world c2) = (Ok fid, w3) ->
      eth_get_filter_changes env fid w3 = (Raise e, w4) ->
      loop_body env contract_filter c
      = (Ok tt,
         after_backoff env e
           (Build_Config (self c2) h' w4
              (trace c2 ++ [ENewFilter contract_filter; EGetFilterChanges fid]))))
  (* exceptions of an entry: caught and logged where they are raised *)
  /\ (forall (event : LogEntry) (c : Config W),
      topics event = [] ->
      process_event env event c
      = (Ok tt,
         with_effects c
           [ELog INFO "Processing event: {}" [LEvent event];
            ELog ERROR "Error processing event: {}" [LExn IndexError]]))
  /\ (forall (h : Handler) (event : LogEntry) (c : Config W) (e : Exn),
      h <> H_addresses_tracked ->
      fst (topic_order_id env event c) = Raise e ->
      call_handler env h event c = (Ok tt, with_effects c (handler_error_line h e)))
  /\ (forall (event : LogEntry) (c : Config W) (order_id : Z),
      fst (topic_order_id env event c) = Ok order_id ->
      nth_error (topics event) 2 = None ->
      call_handler env H_order_created event c
      = (Ok tt, with_effects c (handler_error_line H_order_created IndexError)))
  /\ (forall (h : Handler) (event : LogEntry) (c : Config W) (order_id : Z) (e : Exn),
      h = H_order_matched \/ h = H_order_completed ->
      fst (topic_order_id env event c) = Ok order_id ->
      fst (getOrder env order_id c) = Raise e ->
      call_handler env h event c
      = (Ok tt,
         with_effects (snd (getOrder env order_id c)) (handler_error_line h e)))
  /\ (forall (event : LogEntry) (c : Config W) (order_id : Z) (order : list AbiValue),
      fst (topic_order_id env event c) = Ok order_id ->
      fst (getOrder env order_id c) = Ok order ->
      nth_error order 1 = None ->
      call_handler env H_order_completed event c
      = (Ok tt,
         with_effects (snd (getOrder env order_id c))
           (handler_error_line H_order_completed IndexError)))
  /\ (forall (bid_data : Json) (c : Config W) (answer : outcome Response) (w' : W)
        (e : Exn),
      requests_post env "http://localhost:3000/bid" bid_data
        [("Content-Type", "application/json")] (world c) = (answer, w') ->
      (answer = Raise e
       \/ exists response,
            answer = Ok response
            /\ (200 <=? status_code response)%Z && (status_code response <? 300)%Z
               = true
            /\ json response = Raise e) ->
      submit_bid env bid_data c
      = (Ok tt,
         Build_Config
           (set_base_url (Some "http://localhost:3000") (self c))
           (last_processed_block c) w'
           (trace c ++
              [EHttpPost "http://localhost:3000/bid" bid_data
                 [("Content-Type", "application/json")];
               ELog ERROR "Error submitting bid: {}" [LExn e]])))
  (* no backoff for an entry *)
  /\ (forall (h : Handler) (event : LogEntry) (c : Config W),
      fst (call_handler env h event c) = Ok tt)
  /\ (forall (event : LogEntry) (c : Config W),
      fst (process_event env event c) = Ok tt
      /\ last_processed_block (snd (process_event env event c))
         = last_processed_block c
      /\ exists es,
          trace (snd (process_event env event c)) = trace c ++ es
          /\ forallb entry_effect es = true)
  /\ (forall (contract_filter : FilterParams) (c c1 c2 : Config W) (h h' : Z)
        (fid : FilterId) (entries : list LogEntry) (w3 w4 : W),
      get_block_number env c = (Ok h, c1) ->
      (last_processed_block c < h)%Z ->
      get_block_number env c1 = (Ok h', c2) ->
      eth_filter env contract_filter (world c2) = (Ok fid, w3) ->
      eth_get_filter_changes env fid w3 = (Ok entries, w4) ->
      exists es,
        fst (loop_body env contract_filter c) = Ok tt
        /\ trace (snd (loop_body env contract_filter c))
           = trace c ++
             [EGetBlockNumber; EGetBlockNumber; ENewFilter contract_filter;
              EGetFilterChanges fid; ELog INFO "New entries: {}" [LEvents entries]] ++
             es ++ [ESleep 100]
        /\ forallb entry_effect es = true)
  /\ (forall (before after : list LogEntry) (event : LogEntry) (c : Config W),
      for_each (process_event env) (before ++ event :: after) c
      = for_each (process_event env) after
          (snd (process_event env event
                  (snd (for_each (process_event env) before c)))))
  (* the loop goes on *)
  /\ (forall (contract_filter : FilterParams) (c : Config W),
      fst (loop_body env contract_filter c) = Ok tt)
  /\ (forall (fuel : nat) (contract_filter : FilterParams) (c : Config W),
      exists r, fst (indexer_loop env fuel contract_filter c) = Ok r)
  /\ (forall (fuel : nat) (contract_filter : FilterParams) (c c1 : Config W),
      read_stop_indexing env c = (Ok false, c1) ->
      indexer_loop env (S fuel) contract_filter c
      = indexer_loop env fuel contract_filter
          (snd (loop_body env contract_filter c1))).
Proof.
  destruct (poller_survives_exceptions env)
    as (Hcatch & Hfirst & Hhandler & Hevent & Hbatch & Hpass & Hloop & Hnext).
  split; [exact Hcatch|].
  split; [exact Hfirst|].
  split; [exact loop_body_second_read_raises|].
  split; [exact loop_body_filter_raises|].
  split; [exact loop_body_fetch_raises|].
  split.
  { intros event c Hnil.
    rewrite (process_event_undispatched event c (or_introl Hnil)), Hnil. reflexivity. }
  split; [exact call_handler_logs_decode_failure|].
  split; [exact order_created_logs_missing_topic_2|].
  split; [exact call_handler_logs_contract_failure|].
  split; [exact order_completed_logs_short_tuple|].
  split; [exact submit_bid_logs_failure|].
  split; [exact Hhandler|].
  split.
  { intros event c. split; [apply Hevent|].
    split; [apply (process_event_stable env event c)|].
    apply process_event_entry_effects. }
  split; [exact loop_body_full_pass_effects|].
  split; [exact Hbatch|].
  split; [exact Hpass|].
  split; [exact Hloop | exact Hnext].
Qed.

End Coverage.

(** ** Concrete runs of the further properties *)

Lemma filter_created_in_each_advancing_pass_witness :
  (filters_created
     (trace (snd (loop_body (scripted false) contract_filter_of_demo
                    (demo_config false 100 two_blocks))))
   = [contract_filter_of_demo]
   /\ fetches
        (trace (snd (loop_body (scripted false) contract_filter_of_demo
                       (demo_config false 100 two_blocks))))
      = [1%Z])
  /\ (filters_created
        (trace (snd (loop_body (scripted false) contract_filter_of_demo
                       (demo_config false 100 second_read_fails))))
      = []
      /\ fetches
           (trace (snd (loop_body (scripted false) contract_filter_of_demo
                          (demo_config false 100 second_read_fails))))
         = []).
Proof.
  destruct (filter_created_in_each_advancing_pass (scripted false))
    as (_ & Hadvancing & _ & Hother).
  split.
  - exact (Hadvancing contract_filter_of_demo (demo_config false 100 two_blocks)
             (snd (get_block_number (scripted false)
                     (demo_config false 100 two_blocks)))
             (snd (get_block_number (scripted false)
                     (snd (get_block_number (scripted false)
                             (demo_config false 100 two_blocks)))))
             101%Z 101%Z eq_refl eq_refl eq_refl).
  - apply (Hother contract_filter_of_demo (demo_config false 100 second_read_fails)).
    intros (h & c1 & h' & c2 & H1 & _ & H2).
    assert (E1 : snd (get_block_number (scripted false)
                        (demo_config false 100 second_read_fails)) = c1)
      by (rewrite H1; reflexivity).
    subst c1.
    assert (E2 : fst (get_block_number (scripted false)
                        (snd (get_block_number (scripted false)
                                (demo_config false 100 second_read_fails))))
                 = Ok h')
      by (rewrite H2; reflexivity).
    change (Raise (LibraryError "read timed out") = Ok h') in E2.
    discriminate E2.
Defined.

Lemma no_exception_ends_the_poller_witness :
  loop_body (scripted false) contract_filter_of_demo (demo_config false 100 node_down)
  = (Ok tt,
     after_backoff (scripted false) (LibraryError "read timed out")
       (snd (get_block_number (scripted false) (demo_config false 100 node_down))))
  /\ loop_body (scripted false) contract_filter_of_demo
       (demo_config false 100 failing_fetch)
     = (Ok tt,
        after_backoff (scripted false) (LibraryError "connection reset")
          (Build_Config (demo_indexer false) 101%Z
             {| heights := [Ok 101%Z]; filter_ids := []; batches := [];
                orders := []; responses := []; alive := []; stops := [] |}
             [EGetBlockNumber; EGetBlockNumber;
              ENewFilter contract_filter_of_demo; EGetFilterChanges 1%Z]))
  /\ call_handler (scripted false) H_order_matched order_matched_7
       (config_after_order_3 reverting_contract)
     = (Ok tt,
        with_effects
          (snd (getOrder (scripted false) 7 (config_after_order_3 reverting_contract)))
          [ELog ERROR "Error handling OrderMatched event: {}"
             [LExn (LibraryError "execution reverted")]])
  /\ exists es,
       fst (loop_body (scripted false) contract_filter_of_demo
              (demo_config false 100 mixed_batch)) = Ok tt
       /\ trace (snd (loop_body (scripted false) contract_filter_of_demo
                        (demo_config false 100 mixed_batch)))
          = [EGetBlockNumber; EGetBlockNumber; ENewFilter contract_filter_of_demo;
             EGetFilterChanges 1%Z;
             ELog INFO "New entries: {}"
               [LEvents [entry_without_topics; order_created_5_abc; order_matched_7;
                         addresses_tracked_entry]]] ++
            es ++ [ESleep 100]
       /\ forallb entry_effect es = true.
Proof.
  destruct (no_exception_ends_the_poller (scripted false))
    as (_ & Hfirst & _ & _ & Hfetch & _ & _ & _ & Hcontract & _ & _ & _ & _ & Hfull & _).
  split.
  { exact (Hfirst contract_filter_of_demo (demo_config false 100 node_down) _
             (LibraryError "read timed out") eq_refl). }
  split.
  { exact (Hfetch contract_filter_of_demo (demo_config false 100 failing_fetch)
             (snd (get_block_number (scripted false)
                     (demo_config false 100 failing_fetch)))
             (snd (get_block_number (scripted false)
                     (snd (get_block_number (scripted false)
                             (demo_config false 100 failing_fetch)))))
             101%Z 101%Z 1%Z (LibraryError "connection reset") _ _
             eq_refl eq_refl eq_refl eq_refl eq_refl). }
  split.
  { exact (Hcontract H_order_matched order_matched_7
             (config_after_order_3 reverting_contract) 7%Z
             (LibraryError "execution reverted") (or_introl eq_refl) eq_refl eq_refl). }
  exact (Hfull contract_filter_of_demo (demo_config false 100 mixed_batch)
           (snd (get_block_number (scripted false)
                   (demo_config false 100 mixed_batch)))
           (snd (get_block_number (scripted false)
                   (snd (get_block_number (scripted false)
                           (demo_config false 100 mixed_batch)))))
           101%Z 101%Z 1%Z
           [entry_without_topics; order_created_5_abc; order_matched_7;
            addresses_tracked_entry] _ _
           eq_refl eq_refl eq_refl eq_refl eq_refl).
Defined.

Lemma decoded_order_id_in_range_witness :
  exists order_id,
    topic_order_id (scripted false) order_matched_7 (demo_config false 0 quiet)
    = (Ok order_id, demo_config false 0 quiet)
    /\ (0 <= order_id < 256 ^ Z.of_nat 32)%Z.
Proof.
  exact (decoded_order_id_in_range (scripted false) order_matched_7 (word32 [x07])
           (demo_config false 0 quiet) eq_refl ltac:(discriminate)).
Defined.

Lemma order_created_without_topics_posts_nothing_witness :
  http_posts
    (trace (snd (handle_order_created (scripted false) order_created_short
                   (demo_config false 0 quiet)))) = [].
Proof.
  destruct (order_created_without_topics_posts_nothing (scripted false)
              order_created_short (demo_config false 0 quiet)
              (or_intror (or_intror eq_refl))) as (e & _ & H).
  exact H.
Defined.

Lemma order_created_bid_fields_witness :
  http_posts
    (trace (snd (handle_order_created (scripted false) order_created_5_abc
                   (demo_config false 0 quiet))))
  = [("http://localhost:3000/bid"%string,
      JObj [("orderId"%string, JInt 5);
            ("userId"%string, JStr "0x0000000000000000000000000000000000000abc");
            ("agentId"%string, JInt 0);
            ("amount"%string, JInt 100)])].
Proof.
  exact (proj1 (order_created_bid_fields (scripted false) order_created_5_abc
                  (word32 [x05]) (word32 [x0a; xbc]) (demo_config false 0 quiet)
                  eq_refl ltac:(discriminate) eq_refl ltac:(cbn; lia))).
Defined.

Lemma order_created_short_topic_2_witness :
  http_posts
    (trace (snd (handle_order_created (scripted true) order_created_narrow
                   (demo_config true 0 quiet))))
  = [("http://localhost:3000/bid"%string,
      JObj [("orderId"%string, JInt 5);
            ("userId"%string, JStr "0x0x0abc");
            ("agentId"%string, JInt 0);
            ("amount"%string, JInt 100)])].
Proof.
  exact (order_created_short_topic_2 (scripted true) order_created_narrow
           (word32 [x05]) [x0a; xbc] (demo_config true 0 quiet)
           eq_refl ltac:(discriminate) eq_refl ltac:(cbn; lia)).
Defined.

Lemma submit_bid_reports_the_answer_witness :
  trace (snd (submit_bid (scripted false) JNull
                (demo_config false 0 backend_answers_text)))
  = [EHttpPost "http://localhost:3000/bid" JNull
       [("Content-Type"%string, "application/json"%string)];
     ELog ERROR "Error submitting bid: {}" [LExn (LibraryError "Expecting value")]].
Proof.
  rewrite (submit_bid_reports_the_answer (scripted false) JNull
             (demo_config false 0 backend_answers_text) _ _ eq_refl).
  reflexivity.
Defined.

Lemma order_completed_logs_amount_witness :
  trace (snd (handle_order_completed (scripted false) order_completed_7
                (demo_config false 0 contract_with_order_7)))
  = [EGetOrder {| contract_address := "0xc0ffee" |} 7;
     ELog INFO "Order completed - ID: {}, Amount: {}" [LInt 7; LAbi (AUint 250)]].
Proof.
  rewrite (order_completed_logs_amount (scripted false) order_completed_7
             (word32 [x07]) {| contract_address := "0xc0ffee" |} order_7 quiet
             (demo_config false 0 contract_with_order_7)
             eq_refl ltac:(discriminate) eq_refl eq_refl).
  reflexivity.
Defined.

Lemma addresses_tracked_is_ignored_witness :
  process_event (scripted false) addresses_tracked_entry (demo_config false 0 quiet)
  = (Ok tt,
     with_effects (demo_config false 0 quiet)
       [ELog INFO "Processing event: {}" [LEvent addresses_tracked_entry];
        ELog DEBUG "Processed event with signature: {}"
          [LStr (hex (scripted false)
                   (Web3_keccak EventSignatures.AddressesTracked))]]).
Proof.
  exact (addresses_tracked_is_ignored (scripted false) addresses_tracked_entry
           [word32 [x07]] (demo_config false 0 quiet) eq_refl eq_refl).
Defined.

Lemma order_matched_records_the_order_witness :
  current_order_id
    (self (snd (process_event (scripted false) order_matched_7
                  (demo_config false 0 contract_with_order_7)))) = Some 7%Z.
Proof.
  rewrite (order_matched_records_the_order (scripted false) order_matched_7
             (word32 [x07]) [] {| contract_address := "0xc0ffee" |} order_7 quiet
             (demo_config false 0 contract_with_order_7)
             eq_refl eq_refl ltac:(discriminate) eq_refl eq_refl).
  reflexivity.
Defined.

Lemma batch_is_dispatched_in_order_witness :
  dispatched
    (trace (snd (loop_body (scripted false) contract_filter_of_demo
                   (demo_config false 100 mixed_batch))))
  = [entry_without_topics; order_created_5_abc; order_matched_7;
     addresses_tracked_entry].
Proof.
  edestruct (batch_is_dispatched_in_order (scripted false) contract_filter_of_demo
               (demo_config false 100 mixed_batch)) as (_ & Hd & _);
    [reflexivity | reflexivity | reflexivity | reflexivity | reflexivity | exact Hd].
Defined.

Lemma pass_without_chain_client_backs_off_witness :
  loop_body (scripted false) contract_filter_of_demo config_without_web3
  = (Ok tt, after_backoff (scripted false) AttributeError config_without_web3).
Proof.
  exact (pass_without_chain_client_backs_off (scripted false)
           contract_filter_of_demo config_without_web3 eq_refl).
Defined.

Lemma failed_second_read_keeps_cursor_witness :
  last_processed_block
    (snd (loop_body (scripted false) contract_filter_of_demo
            (demo_config false 100 second_read_fails))) = 100%Z.
Proof.
  edestruct (failed_second_read_keeps_cursor (scripted false) contract_filter_of_demo
               (demo_config false 100 second_read_fails)) as (_ & Hc & _);
    [reflexivity | reflexivity | reflexivity | exact Hc].
Defined.

Lemma cursor_never_decreases_with_steady_heights_witness :
  (5 <= last_processed_block
          (snd (indexer_loop ticking 3 contract_filter_of_demo (ticking_config 5 10))))%Z.
Proof.
  refine (cursor_never_decreases_with_steady_heights ticking 3 contract_filter_of_demo
            _ (ticking_config 5 10)).
  intros w w1 w2 h h' H1 H2. cbn in H1, H2.
  injection H1 as <- <-. injection H2 as <- _. lia.
Defined.

Lemma stop_flag_ends_the_loop_witness :
  fst (indexer_loop (scripted false) 3 contract_filter_of_demo
         (demo_config false 0 stop_requested)) = Ok Stopped
  /\ trace (snd (indexer_loop (scripted false) 3 contract_filter_of_demo
                   (demo_config false 0 stop_requested))) = [].
Proof.
  destruct (stop_flag_ends_the_loop (scripted false) 2 contract_filter_of_demo
              (demo_config false 0 stop_requested) (or_intror eq_refl))
    as (Hf & Ht & _).
  split; [exact Hf | exact Ht].
Defined.

Lemma run_indexer_without_contract_witness :
  run_indexer (scripted false) 5 config_without_contract
  = (Ok Stopped,
     with_effects config_without_contract
       [ELog ERROR "Intent matching contract not initialized" []]).
Proof.
  exact (run_indexer_without_contract (scripted false) 5 config_without_contract
           eq_refl).
Defined.

Lemma start_without_components_warns_witness :
  start (scripted false) config_without_web3
  = (Ok tt,
     with_effects config_without_web3
       [ELog WARNING "Blockchain components not initialized. Cannot start indexer." []]).
Proof.
  exact (start_without_components_warns (scripted false) config_without_web3
           (or_introl eq_refl)).
Defined.

Lemma start_launches_a_daemon_worker_witness :
  trace (snd (start (scripted false) (demo_config false 0 quiet)))
  = [EThreadCreate; EThreadDaemon 1; EThreadStart 1;
     ELog INFO "Blockchain indexer service started" []].
Proof.
  rewrite (start_launches_a_daemon_worker (scripted false) (demo_config false 0 quiet)
             1%nat {| contract_address := "0xc0ffee" |} 1%nat quiet quiet
             eq_refl eq_refl eq_refl eq_refl).
  reflexivity.
Defined.

Lemma start_propagates_thread_error_witness :
  fst (start thread_limit_reached (demo_config false 0 quiet))
  = Raise (LibraryError "can't start new thread").
Proof.
  rewrite (start_propagates_thread_error thread_limit_reached
             (demo_config false 0 quiet)
             1%nat {| contract_address := "0xc0ffee" |} 1%nat quiet quiet
             (LibraryError "can't start new thread")
             eq_refl eq_refl eq_refl eq_refl).
  reflexivity.
Defined.

Lemma start_twice_starts_two_workers_witness :
  threads_started
    (trace (snd (start spawning (snd (start spawning spawning_config)))))
  = [1%nat; 2%nat]
  /\ indexer_thread (self (snd (start spawning (snd (start spawning spawning_config)))))
     = Some 2%nat.
Proof.
  destruct (start_twice_starts_two_workers spawning spawning_config
              1%nat {| contract_address := "0xc0ffee" |} 1%nat 2%nat
              1%nat 1%nat 2%nat 2%nat
              eq_refl eq_refl eq_refl eq_refl eq_refl eq_refl ltac:(discriminate))
    as (_ & _ & Hstarted & _ & Hhandle & _).
  split; [exact Hstarted | exact Hhandle].
Defined.

Lemma stop_signals_and_joins_witness :
  stop_indexing (self (snd (stop (scripted false) config_running))) = true
  /\ fst (indexer_loop (scripted false) 3 contract_filter_of_demo
            (snd (stop (scripted false) config_running))) = Ok Stopped.
Proof.
  destruct (stop_signals_and_joins (scripted false) config_running 1%nat
              {| heights := [Ok 101%Z]; filter_ids := []; batches := []; orders := [];
                 responses := []; alive := []; stops := [] |}
              {| heights := [Ok 101%Z]; filter_ids := []; batches := []; orders := [];
                 responses := []; alive := []; stops := [] |}
              eq_refl eq_refl eq_refl) as (_ & Hflag & _ & Hloop).
  split; [exact Hflag|].
  exact (proj1 (Hloop 2%nat contract_filter_of_demo
                  (snd (stop (scripted false) config_running)) eq_refl)).
Defined.

